(** * XML material profiles: GUID families and the XML round trip

    A shallow embedding of [plugins/XmlMaterialProfile/XmlMaterialProfile.py]:
    the three family-wide setters ([setReadOnly], [setMetaDataEntry],
    [setProperty]), [serialize] with its pretty-printer [_indent], and
    [deserialize].

    Containers are Python objects that the registry and the caller both
    hold references to, so the embedding keeps one object store and passes
    handles around; every method takes the store and returns the new one. *)

From Stdlib Require Import ZArith String Ascii List DecimalString.
From stdpp Require Import base gmap list strings option.

Local Open Scope string_scope.

(** ** Python values *)

(** What a setting value, an element text or a name can be: [None], a
    [str] or an [int]. *)
Inductive Scalar :=
  | SNone
  | SStr (s : string)
  | SInt (z : Z).

(** What a metadata entry can be: a scalar, or a flat [dict] (the
    ["properties"] sub-map). *)
Inductive PyVal :=
  | VScalar (x : Scalar)
  | VDict (d : gmap string Scalar).

#[global] Instance Scalar_eq_dec : EqDecision Scalar.
Proof. solve_decision. Defined.

#[global] Instance PyVal_eq_dec : EqDecision PyVal.
Proof. solve_decision. Defined.

Definition PyNone : PyVal := VScalar SNone.
Definition PyStr (s : string) : PyVal := VScalar (SStr s).

(** Python truthiness ([if x:]). *)
Definition truthy (v : PyVal) : bool :=
  match v with
  | VScalar SNone => false
  | VScalar (SStr s) => negb (String.eqb s "")
  | VScalar (SInt z) => negb (Z.eqb z 0)
  | VDict d => negb (bool_decide (d = ∅))
  end.

(** [str(x)] on a scalar. *)
Definition py_str (x : Scalar) : string :=
  match x with
  | SNone => "None"
  | SStr s => s
  | SInt z => NilZero.string_of_int (Z.to_int z)
  end.

(** [entry.text] as a Python value. *)
Definition text_value (t : option string) : Scalar :=
  match t with
  | Some s => SStr s
  | None => SNone
  end.

(** ** Exceptions *)

Inductive Exn :=
  | NotImplementedError
  | AttributeError
  | TypeError
  | ValueError
  | IndexError.

Inductive Result (A : Type) :=
  | Ok (a : A)
  | Raise (e : Exn).
Arguments Ok {A} a.
Arguments Raise {A} e.

#[global] Instance Result_ret : MRet Result := λ A a, Ok a.

#[global] Instance Result_bind : MBind Result := λ A B k r,
  match r with
  | Ok a => k a
  | Raise e => Raise e
  end.

Fixpoint rmapM {A B} (f : A → Result B) (l : list A) : Result (list B) :=
  match l with
  | [] => Ok []
  | a :: l' =>
      match f a with
      | Ok b =>
          match rmapM f l' with
          | Ok bs => Ok (b :: bs)
          | Raise e => Raise e
          end
      | Raise e => Raise e
      end
  end.

Fixpoint rfoldM {A S} (f : S → A → Result S) (s : S) (l : list A) : Result S :=
  match l with
  | [] => Ok s
  | a :: l' =>
      match f s a with
      | Ok s' => rfoldM f s' l'
      | Raise e => Raise e
      end
  end.


(** ** Building a tree that is written later

    [serialize] fills a tree builder and writes the tree out at the very
    end. The builder stores whatever object it is handed, as the text of
    an element or as the value of an attribute; only [ElementTree.write]
    looks at these objects, and raises [TypeError] on one it cannot write.
    The trees of the embedding hold strings, so such an object is told
    apart when it is stored, and [refused] carries the fact to [write]: a
    step of the builder goes on with a value, [refused] telling whether
    the builder by now holds an object that [write] will refuse, or it
    raises at once. *)
Inductive Build (A : Type) :=
  | Holds (a : A) (refused : bool)
  | Stops (e : Exn).
Arguments Holds {A} a refused.
Arguments Stops {A} e.

#[global] Instance Build_ret : MRet Build := λ A a, Holds a false.

#[global] Instance Build_bind : MBind Build := λ A B k m,
  match m with
  | Holds a refused =>
      match k a with
      | Holds b refused' => Holds b (refused || refused')
      | Stops e => Stops e
      end
  | Stops e => Stops e
  end.

(** A step that stores nothing. *)
Definition step {A} (r : Result A) : Build A :=
  match r with
  | Ok a => Holds a false
  | Raise e => Stops e
  end.

Fixpoint bmapM {A B} (f : A → Build B) (l : list A) : Build (list B) :=
  match l with
  | [] => mret []
  | a :: l' => b ← f a; bs ← bmapM f l'; mret (b :: bs)
  end.
(** ** Containers and the registry *)

(** A setting instance holds its explicitly set properties by name; the
    one the XML carries is ["value"]. *)
Abbreviation SettingInstance := (gmap string Scalar).

Record DefinitionContainer := mkDefinition {
  def_id : string;
  def_metadata : gmap string PyVal }.

Record InstanceContainer := mkContainer {
  _id : string;
  _name : PyVal;
  _definition : option DefinitionContainer;
  _metadata : gmap string PyVal;
  _instances : gmap string SettingInstance;
  _read_only : bool;
  _dirty : bool }.

(** [XmlMaterialProfile(container_id)], as the base constructor leaves it. *)
Definition new_container (container_id : string) : InstanceContainer :=
  {| _id := container_id; _name := PyStr container_id; _definition := None;
     _metadata := ∅; _instances := ∅; _read_only := false; _dirty := false |}.

Definition with_name (v : PyVal) (c : InstanceContainer) : InstanceContainer :=
  {| _id := _id c; _name := v; _definition := _definition c;
     _metadata := _metadata c; _instances := _instances c;
     _read_only := _read_only c; _dirty := _dirty c |}.

Definition with_definition (d : DefinitionContainer) (c : InstanceContainer)
  : InstanceContainer :=
  {| _id := _id c; _name := _name c; _definition := Some d;
     _metadata := _metadata c; _instances := _instances c;
     _read_only := _read_only c; _dirty := _dirty c |}.

Definition with_metadata (m : gmap string PyVal) (c : InstanceContainer)
  : InstanceContainer :=
  {| _id := _id c; _name := _name c; _definition := _definition c;
     _metadata := m; _instances := _instances c;
     _read_only := _read_only c; _dirty := _dirty c |}.

Definition with_instances (i : gmap string SettingInstance) (c : InstanceContainer)
  : InstanceContainer :=
  {| _id := _id c; _name := _name c; _definition := _definition c;
     _metadata := _metadata c; _instances := i;
     _read_only := _read_only c; _dirty := _dirty c |}.

Definition with_read_only (b : bool) (c : InstanceContainer) : InstanceContainer :=
  {| _id := _id c; _name := _name c; _definition := _definition c;
     _metadata := _metadata c; _instances := _instances c;
     _read_only := b; _dirty := _dirty c |}.

Definition with_dirty (b : bool) (c : InstanceContainer) : InstanceContainer :=
  {| _id := _id c; _name := _name c; _definition := _definition c;
     _metadata := _metadata c; _instances := _instances c;
     _read_only := _read_only c; _dirty := b |}.

(** The object store: every container that exists, by handle; the
    handles the registry lists, in registry order; and the registered
    definitions. A container need not be registered to exist. *)
Record Store := mkStore {
  objects : list InstanceContainer;
  instance_containers : list nat;
  definition_containers : list DefinitionContainer }.

(** In-place mutation of the object behind a handle. *)
Definition modify (h : nat) (f : InstanceContainer → InstanceContainer) (σ : Store)
  : Store :=
  {| objects := alter f h (objects σ);
     instance_containers := instance_containers σ;
     definition_containers := definition_containers σ |}.

(** ** What is left open of the interpreter *)

(** Two things that vary from one run or one version of Python to the
    next are left open: the order in which a [dict] yields its items, and
    the spelling [str()] gives a [dict]. *)
Record Python := {
  items : ∀ (K : Type) (EqK : EqDecision K) (CK : Countable K) (V : Type),
            gmap K V → list (K * V);
  dict_str : gmap string Scalar → string }.
Arguments items _ {K _ _ V} _.

(** A [dict] yields each of its items once. *)
Definition yields_each_once (py : Python) : Prop :=
  ∀ (K : Type) (EqK : EqDecision K) (CK : Countable K) (V : Type) (d : gmap K V),
    items py d ≡ₚ map_to_list d.

(** Modelled from the spec: the base instance container
    ([UM.Settings.InstanceContainer], an external collaborator that is not
    under src/): "get/set metadata entry, get/set property value against a
    definition, get/set name, read-only flag, definition binding,
    find-instances-of-settings". Each setter writes the one attribute it
    names; the read-only guard is the overriding entry point's work, and
    the property setter marks the container dirty. The definition's own
    default for a property that was never set is not modelled: such a
    property reads as [None]. *)
Module Base.

Definition getMetaDataEntry (c : InstanceContainer) (entry : string) (dflt : PyVal)
  : PyVal :=
  default dflt (_metadata c !! entry).

Definition setReadOnly (self : nat) (read_only : bool) : Store → Store :=
  modify self (with_read_only read_only).

Definition setName (self : nat) (name : PyVal) : Store → Store :=
  modify self (with_name name).

Definition setMetaData (self : nat) (metadata : gmap string PyVal) : Store → Store :=
  modify self (with_metadata metadata).

Definition setMetaDataEntry (self : nat) (key : string) (value : PyVal)
  : Store → Store :=
  modify self (λ c, with_metadata (<[key := value]> (_metadata c)) c).

Definition addMetaDataEntry (self : nat) (key : string) (value : PyVal)
  : Store → Store :=
  modify self (λ c, with_metadata (<[key := value]> (_metadata c)) c).

Definition setDefinition (self : nat) (d : DefinitionContainer) : Store → Store :=
  modify self (with_definition d).

Definition getInstance (c : InstanceContainer) (key : string) : option SettingInstance :=
  _instances c !! key.

Definition getProperty (c : InstanceContainer) (key property_name : string) : Scalar :=
  match _instances c !! key with
  | Some i => default SNone (i !! property_name)
  | None => SNone
  end.

Definition setProperty (self : nat) (key property_name : string)
    (property_value : Scalar) : Store → Store :=
  modify self (λ c,
    with_dirty true
      (with_instances
         (<[key := <[property_name := property_value]>
                     (default ∅ (_instances c !! key))]> (_instances c)) c)).

(** [findInstances()]: every instance, with the key of its definition,
    in the order the container's [dict] yields them. *)
Definition findInstances (py : Python) (c : InstanceContainer)
  : list (string * SettingInstance) :=
  items py (_instances c).

End Base.

(** [instance.value] *)
Definition instance_value (i : SettingInstance) : Scalar :=
  default SNone (i !! "value").

(** Modelled from the spec: the container registry
    ([UM.Settings.ContainerRegistry], external, not under src/):
    "find-instance-containers-by-predicate (e.g. by id, GUID,
    definition+name), find-definition-container-by-id,
    add-container(profile)". A search returns, in registry order, the
    registered containers on which every given keyword matches by
    equality. *)
Module Registry.

Definition findInstanceContainers (σ : Store) (matches : InstanceContainer → bool)
  : list nat :=
  List.filter
    (λ h, match objects σ !! h with
          | Some c => matches c
          | None => false
          end)
    (instance_containers σ).

Definition by_GUID (value : PyVal) (c : InstanceContainer) : bool :=
  bool_decide (Base.getMetaDataEntry c "GUID" PyNone = value).

Definition by_id (value : PyVal) (c : InstanceContainer) : bool :=
  bool_decide (PyStr (_id c) = value).

Definition by_definition_and_name (definition : string) (name : PyVal)
    (c : InstanceContainer) : bool :=
  match _definition c with
  | Some d => bool_decide (def_id d = definition) && bool_decide (_name c = name)
  | None => false
  end.

Definition findDefinitionContainers (σ : Store) (id : string)
  : list DefinitionContainer :=
  List.filter (λ d, bool_decide (def_id d = id)) (definition_containers σ).

Definition addContainer (h : nat) (σ : Store) : Store :=
  {| objects := objects σ;
     instance_containers := instance_containers σ ++ [h];
     definition_containers := definition_containers σ |}.

End Registry.

(** ** The family-wide setters of [XmlMaterialProfile] *)

(** [self.getMetaDataEntry("GUID")] *)
Definition GUID_of (c : InstanceContainer) : PyVal :=
  Base.getMetaDataEntry c "GUID" PyNone.

Definition setReadOnly (self : nat) (read_only : bool) (σ : Store) : Store :=
  match objects σ !! self with
  | None => σ
  | Some _ =>
      let σ1 := Base.setReadOnly self read_only σ in
      match objects σ1 !! self with
      | None => σ1
      | Some me =>
          foldl (λ s container, modify container (with_read_only read_only) s) σ1
            (Registry.findInstanceContainers σ1 (Registry.by_GUID (GUID_of me)))
      end
  end.

(** One turn of the loop of [setMetaDataEntry]: [self._metadata] is read
    (and deep-copied) anew for each container. *)
Definition propagate_metadata (self : nat) (key : string) (value : PyVal)
    (s : Store) (container : nat) : Store :=
  match objects s !! self with
  | None => s
  | Some me =>
      let s1 := Base.setMetaData container (_metadata me) s in
      if String.eqb key "material" then Base.setName container value s1 else s1
  end.

Definition setMetaDataEntry (self : nat) (key : string) (value : PyVal) (σ : Store)
  : Store :=
  match objects σ !! self with
  | None => σ
  | Some me0 =>
      if _read_only me0 then σ
      else
        let σ1 := Base.setMetaDataEntry self key value σ in
        let σ2 := if String.eqb key "material" then Base.setName self value σ1 else σ1 in
        match objects σ2 !! self with
        | None => σ2
        | Some me =>
            foldl (propagate_metadata self key value) σ2
              (Registry.findInstanceContainers σ2 (Registry.by_GUID (GUID_of me)))
        end
  end.

Definition setProperty (self : nat) (key property_name : string)
    (property_value : Scalar) (σ : Store) : Store :=
  match objects σ !! self with
  | None => σ
  | Some me0 =>
      if _read_only me0 then σ
      else
        let σ1 := Base.setProperty self key property_name property_value σ in
        match objects σ1 !! self with
        | None => σ1
        | Some me =>
            foldl (λ s container, modify container (with_dirty true) s) σ1
              (Registry.findInstanceContainers σ1 (Registry.by_GUID (GUID_of me)))
        end
  end.

(** ** Strings *)

Definition newline : string := String (ascii_of_nat 10) "".

(** [s.rfind(c)]: the index of the last [c] in [s], or -1. *)
Fixpoint rfind (c : ascii) (s : string) : Z :=
  match s with
  | EmptyString => (-1)%Z
  | String a s' =>
      let r := rfind c s' in
      if (0 <=? r)%Z then (r + 1)%Z
      else if Ascii.eqb a c then 0%Z else (-1)%Z
  end.

(** [s[n:]] *)
Fixpoint string_drop (n : nat) (s : string) : string :=
  match n, s with
  | O, _ => s
  | S n', String _ s' => string_drop n' s'
  | S _, EmptyString => EmptyString
  end.

(** [s.replace(a, b)] for single characters. *)
Fixpoint replace_char (a b : ascii) (s : string) : string :=
  match s with
  | EmptyString => EmptyString
  | String x s' => String (if Ascii.eqb x a then b else x) (replace_char a b s')
  end.

(** [level * s] *)
Fixpoint repeat_string (level : nat) (s : string) : string :=
  match level with
  | O => ""
  | S n => s +:+ repeat_string n s
  end.

(** The ASCII characters that [str.strip()] removes. *)
Definition is_space (a : ascii) : bool :=
  let n := nat_of_ascii a in
  ((9 <=? n)%nat && (n <=? 13)%nat) || ((28 <=? n)%nat && (n <=? 32)%nat).

Fixpoint all_space (s : string) : bool :=
  match s with
  | EmptyString => true
  | String a s' => is_space a && all_space s'
  end.

(** [not t or not t.strip()] *)
Definition blank (t : option string) : bool :=
  match t with
  | None => true
  | Some s => all_space s
  end.

(** ** Element trees ([xml.etree.ElementTree]) *)

#[local] Unset Elimination Schemes.
Inductive Element :=
  | Elem (tag : string) (attrib : gmap string string) (text : option string)
         (tail : option string) (children : list Element).
#[local] Set Elimination Schemes.

Module ET.

Definition tag (e : Element) : string :=
  match e with Elem t _ _ _ _ => t end.

Definition attrib (e : Element) : gmap string string :=
  match e with Elem _ a _ _ _ => a end.

Definition text (e : Element) : option string :=
  match e with Elem _ _ x _ _ => x end.

Definition tail (e : Element) : option string :=
  match e with Elem _ _ _ x _ => x end.

Definition children (e : Element) : list Element :=
  match e with Elem _ _ _ _ cs => cs end.

Definition set_tail (x : option string) (e : Element) : Element :=
  match e with Elem t a tx _ cs => Elem t a tx x cs end.

(** [elem.get(key)] *)
Definition get (e : Element) (key : string) : option string :=
  attrib e !! key.

(** The tree the builder has after [start(tag, attrib)], [data(text)] if
    any, the children, and [end(tag)]. *)
Definition node (tag : string) (attrib : gmap string string) (children : list Element)
  : Element :=
  Elem tag attrib None None children.

Definition leaf (tag : string) (attrib : gmap string string) (data : option string)
  : Element :=
  Elem tag attrib data None [].

(** [builder.data(value)]. What [ElementTree.write] later does with the
    text of an element is [if text: write(_escape_cdata(text))]: text that
    is falsy ([None], the empty string, [0], [{}]) is passed over, a [str]
    is written, and any other object raises [TypeError]. A falsy object
    that is not a [str] is kept as no text at all. *)
Definition data (value : PyVal) : Build (option string) :=
  match value with
  | VScalar (SStr s) => Holds (Some s) false
  | _ => Holds None (truthy value)
  end.

(** The children of [e] with the given qualified tag; [None] stands for
    the wildcard. *)
Definition children_named (pattern : option string) (e : Element) : list Element :=
  match pattern with
  | None => children e
  | Some t => List.filter (λ c, String.eqb (tag c) t) (children e)
  end.

(** [e.iterfind("./a/b")] *)
Definition iterfind2 (e : Element) (a : string) (b : option string) : list Element :=
  concat (map (children_named b) (children_named (Some a) e)).

(** [e.iterfind("./a")] *)
Definition iterfind (e : Element) (a : string) : list Element :=
  children_named (Some a) e.

(** [e.find("./a")] *)
Definition find (e : Element) (a : string) : option Element :=
  head (children_named (Some a) e).

End ET.

(** ** The pretty-printer *)

(** The tail of the last child is overwritten once more after the loop:
    the loop variable shadows [elem]. *)
Fixpoint retail_last (i : string) (cs : list Element) : list Element :=
  match cs with
  | [] => []
  | [c] => [if blank (ET.tail c) then ET.set_tail (Some i) c else c]
  | c :: cs' => c :: retail_last i cs'
  end.

Fixpoint _indent (elem : Element) (level : nat) : Element :=
  let i := newline +:+ repeat_string level "  " in
  match elem with
  | Elem tag attrib text tail [] =>
      if negb (level =? 0)%nat && blank tail
      then Elem tag attrib text (Some i) []
      else elem
  | Elem tag attrib text tail children =>
      Elem tag attrib
        (if blank text then Some (i +:+ "  ") else text)
        (if blank tail then Some i else tail)
        (retail_last i (map (λ c, _indent c (S level)) children))
  end.

(** ** The static tables *)

(** [UM.Dictionary.findKey]: the first key that maps to the value; [None]
    stands for its [ValueError]. *)
Fixpoint findKey (dictionary : list (string * string)) (search_value : string)
  : option string :=
  match dictionary with
  | [] => None
  | (key, value) :: rest =>
      if String.eqb value search_value then Some key else findKey rest search_value
  end.

(** [dictionary.get(key)] / [key in dictionary] on a literal table. *)
Fixpoint table_get (dictionary : list (string * string)) (key : string)
  : option string :=
  match dictionary with
  | [] => None
  | (k, value) :: rest =>
      if String.eqb k key then Some value else table_get rest key
  end.

Definition __material_property_setting_map : list (string * string) :=
  [ ("print temperature", "material_print_temperature");
    ("heated bed temperature", "material_bed_temperature");
    ("standby temperature", "material_standby_temperature");
    ("print cooling", "cool_fan_speed");
    ("retraction amount", "retraction_amount");
    ("retraction speed", "retraction_speed") ].

Definition __product_id_map : list (string * string) :=
  [ ("Ultimaker2", "ultimaker2");
    ("Ultimaker2+", "ultimaker2_plus");
    ("Ultimaker2go", "ultimaker2_go");
    ("Ultimaker2extended", "ultimaker2_extended");
    ("Ultimaker2extended+", "ultimaker2_extended_plus");
    ("Ultimaker Original", "ultimaker_original");
    ("Ultimaker Original+", "ultimaker_original_plus") ].

Definition um_namespace : string := "http://www.ultimaker.com/material".

(** A tag in the [um] namespace, as the parser spells it. *)
Definition um (local : string) : string := "{" +:+ um_namespace +:+ "}" +:+ local.

Definition _tag_without_namespace (element : Element) : string :=
  string_drop (Z.to_nat (rfind "}"%char (ET.tag element) + 1)) (ET.tag element).


(** ** Writing the tree out

    [ElementTree(root).write(stream, "unicode", True)] of the standard
    library, for what it can raise. It goes over the tree twice:
    [_namespaces] looks at every tag and hands out prefixes, then
    [_serialize_xml] writes. *)

Definition quote : string := String (ascii_of_nat 34) "".

(** [qname[:1] == "{"] *)
Definition opens_brace (qname : string) : bool :=
  match qname with
  | String c _ => Ascii.eqb c "{"
  | EmptyString => false
  end.

(** A name on which [add_qname] fails: it opens a brace, and
    [uri, tag = qname[1:].rsplit("}", 1)] finds no brace that closes it. *)
Definition unclosed_brace (qname : string) : bool :=
  opens_brace qname && (rfind "}" (string_drop 1 qname) <? 0)%Z.

(** The tags in the order [elem.iter()] visits the elements. *)
Fixpoint tags (elem : Element) : list string :=
  match elem with
  | Elem tag _ _ _ children => tag :: concat (map tags children)
  end.

(** The tree goes out, or [write] raises: [ValueError] in the first pass,
    at a tag with an unclosed brace, before anything is looked at for
    writing; or [TypeError] in the second, at an object that cannot be
    written ([refused]). The attribute names of the trees [serialize]
    builds are the plain literals of its code, which the first pass
    accepts. *)
Definition write (root : Element) (refused : bool) : Result Element :=
  if existsb unclosed_brace (tags root) then Raise ValueError
  else if refused then Raise TypeError
  else Ok root.

(** ** [serialize] *)

#[global] Instance Scalar_countable : Countable Scalar.
Proof.
  refine (inj_countable'
    (λ x, match x with
          | SNone => inl ()
          | SStr s => inr (inl s)
          | SInt z => inr (inr z)
          end)
    (λ y, match y with
          | inl _ => SNone
          | inr (inl s) => SStr s
          | inr (inr z) => SInt z
          end) _).
  by intros [].
Defined.

(** [container.getDefinition().id] *)
Definition definition_id_of (c : InstanceContainer) : Result string :=
  match _definition c with
  | Some d => Ok (def_id d)
  | None => Raise AttributeError
  end.

Definition _addSettingElement (instance : string * SettingInstance) : list Element :=
  match findKey __material_property_setting_map instance.1 with
  | None => []
  | Some key =>
      [ET.leaf "setting" {[ "key" := key ]} (Some (py_str (instance_value instance.2)))]
  end.

(** [metadata.pop(key, dflt)] *)
Definition pop (key : string) (dflt : PyVal) (m : gmap string PyVal)
  : PyVal * gmap string PyVal :=
  (default dflt (m !! key), delete key m).

(** [builder.start(key); builder.data(value); builder.end(key)] *)
Definition text_element (entry : string * PyVal) : Build Element :=
  text ← ET.data entry.2; mret (ET.leaf entry.1 ∅ text).

(** The characters [_escape_attrib] looks for. *)
Definition escaped_in_attributes : list string :=
  ["&"; "<"; ">"; quote; newline].

(** The value of an attribute, as [ElementTree.write] will take it
    ([_escape_attrib], then ["%s"]): a [str] is written; [None] or an
    [int] raises [TypeError]; a [dict] goes through [_escape_attrib] as
    it is, unless one of the characters looked for is a key of it (then
    [replace] fails and [TypeError] is raised), and is spelled by
    [str()]. *)
Definition attribute (py : Python) (value : PyVal) : Build string :=
  match value with
  | VScalar (SStr s) => Holds s false
  | VScalar _ => Holds "" true
  | VDict d =>
      if existsb (λ c, bool_decide (is_Some (d !! c))) escaped_in_attributes
      then Holds "" true
      else Holds (dict_str py d) false
  end.

Section Serialize.

Variable py : Python.

(** The [<metadata>] block, and the popped ["properties"] value. *)
Definition metadata_block (me : InstanceContainer) : Build (Element * PyVal) :=
  let metadata := _metadata me in
  let '(properties, metadata) := pop "properties" (VDict ∅) metadata in
  let '(_, metadata) := pop "status" (PyStr "") metadata in
  let '(_, metadata) := pop "variant" (PyStr "") metadata in
  let '(_, metadata) := pop "type" (PyStr "") metadata in
  let '(_, metadata) := pop "base_file" (PyStr "") metadata in
  let '(brand, metadata) := pop "brand" (PyStr "") metadata in
  brand ← ET.data brand;
  let '(material, metadata) := pop "material" (PyStr "") metadata in
  material ← ET.data material;
  let '(color, metadata) := pop "color_name" (PyStr "") metadata in
  color ← ET.data color;
  entries ← bmapM text_element (items py metadata);
  mret (ET.node "metadata" ∅
          (ET.node "name" ∅
             [ET.leaf "brand" ∅ brand; ET.leaf "material" ∅ material;
              ET.leaf "color" ∅ color]
           :: entries),
        properties).

Definition properties_block (properties : PyVal) : Build Element :=
  match properties with
  | VDict d =>
      entries ← bmapM (λ entry : string * Scalar,
                         text_element (entry.1, VScalar entry.2))
                      (items py d);
      mret (ET.node "properties" ∅ entries)
  | VScalar _ => Stops AttributeError
  end.

(** One turn of the loop that fills [machine_container_map] and
    [machine_nozzle_map]. *)
Definition group_container (σ : Store)
    (maps : gmap string nat * gmap string (gmap Scalar nat)) (container : nat)
  : Result (gmap string nat * gmap string (gmap Scalar nat)) :=
  match objects σ !! container with
  | None => Ok maps
  | Some c =>
      definition_id ← definition_id_of c;
      if String.eqb definition_id "fdmprinter" then Ok maps
      else
        let '(machine_container_map, machine_nozzle_map) := maps in
        let machine_container_map :=
          match machine_container_map !! definition_id with
          | None => <[definition_id := container]> machine_container_map
          | Some _ => machine_container_map
          end in
        let machine_nozzle_map :=
          match machine_nozzle_map !! definition_id with
          | None => <[definition_id := ∅]> machine_nozzle_map
          | Some _ => machine_nozzle_map
          end in
        let variant := Base.getMetaDataEntry c "variant" PyNone in
        if truthy variant then
          match variant with
          | VScalar v =>
              Ok (machine_container_map,
                  <[definition_id :=
                      <[v := container]>
                        (default ∅ (machine_nozzle_map !! definition_id))]>
                    machine_nozzle_map)
          | VDict _ => Raise TypeError
          end
        else
          Ok (<[definition_id := container]> machine_container_map,
              machine_nozzle_map)
  end.

Definition group_containers (σ : Store) (all_containers : list nat)
  : Result (gmap string nat * gmap string (gmap Scalar nat)) :=
  rfoldM (group_container σ) (∅, ∅) all_containers.

(** [parent.getInstance(instance.definition.key) and
    parent.getProperty(instance.definition.key, "value") == instance.value] *)
Definition inherits_from (parent : InstanceContainer)
    (instance : string * SettingInstance) : bool :=
  bool_decide (is_Some (Base.getInstance parent instance.1))
  && bool_decide (Base.getProperty parent instance.1 "value"
                  = instance_value instance.2).

(** The [<setting>] children of a [<machine>]: the machine container's
    instances, less those the root (when it targets [fdmprinter]) has with
    the same value. *)
Definition machine_setting_elements (me container : InstanceContainer)
  : Result (list Element) :=
  elements ←
    rmapM (λ instance : string * SettingInstance,
             self_definition ← definition_id_of me;
             if String.eqb self_definition "fdmprinter" && inherits_from me instance
             then Ok []
             else Ok (_addSettingElement instance))
          (Base.findInstances py container);
  Ok (concat elements).

(** The [<setting>] children of a [<hotend>]: the hotend profile's
    instances, less those the machine container has with the same value. *)
Definition hotend_setting_elements (container hotend : InstanceContainer)
  : list Element :=
  concat
    (map (λ instance : string * SettingInstance,
            if inherits_from container instance then []
            else _addSettingElement instance)
         (Base.findInstances py hotend)).

Definition hotend_element (σ : Store) (container : InstanceContainer) (hotend : nat)
  : Build (list Element) :=
  match objects σ !! hotend with
  | None => mret []
  | Some hotend =>
      let variant_containers :=
        Registry.findInstanceContainers σ
          (Registry.by_id (Base.getMetaDataEntry hotend "variant" PyNone)) in
      match variant_containers with
      | [] => mret []
      | first :: _ =>
          match objects σ !! first with
          | None => mret []
          | Some variant_container =>
              id ← attribute py (_name variant_container);
              mret [ET.node "hotend" {[ "id" := id ]}
                      (hotend_setting_elements container hotend)]
          end
      end
  end.

Definition machine_element (σ : Store) (me : InstanceContainer)
    (machine_nozzle_map : gmap string (gmap Scalar nat)) (entry : string * nat)
  : Build (list Element) :=
  let '(definition_id, container) := entry in
  match objects σ !! container with
  | None => mret []
  | Some container =>
      match findKey __product_id_map definition_id with
      | None => mret []
      | Some product =>
          match _definition container with
          | None => Stops AttributeError
          | Some definition =>
              manufacturer ←
                attribute py
                  (default (PyStr "") (def_metadata definition !! "manufacturer"));
              settings ← step (machine_setting_elements me container);
              hotends ←
                bmapM (λ entry : Scalar * nat, hotend_element σ container entry.2)
                      (items py (default ∅ (machine_nozzle_map !! definition_id)));
              mret [ET.node "machine" ∅
                      (ET.node "machine_identifier"
                         (<["manufacturer" := manufacturer]> {[ "product" := product ]})
                         []
                       :: settings ++ concat hotends)]
          end
      end
  end.

(** The tree [builder.close()] returns. *)
Definition build (σ : Store) (me : InstanceContainer) : Build Element :=
  let base_file := Base.getMetaDataEntry me "base_file" (PyStr "") in
  if truthy base_file && negb (bool_decide (PyStr (_id me) = base_file))
  then Stops NotImplementedError
  else
    '(metadata, properties) ← metadata_block me;
    properties ← properties_block properties;
    self_definition ← step (definition_id_of me);
    let global_settings :=
      if String.eqb self_definition "fdmprinter"
      then concat (map _addSettingElement (Base.findInstances py me))
      else [] in
    let all_containers :=
      Registry.findInstanceContainers σ (Registry.by_GUID (GUID_of me)) in
    '(machine_container_map, machine_nozzle_map) ←
      step (group_containers σ all_containers);
    machines ← bmapM (machine_element σ me machine_nozzle_map)
                     (items py machine_container_map);
    mret (ET.node "fdmmaterial" {[ "xmlns" := um_namespace ]}
            [metadata; properties;
             ET.node "settings" ∅ (global_settings ++ concat machines)]).

(** [serialize] returns the text that [ElementTree.write] spells for the
    pretty-printed tree; the embedding returns the tree that is written,
    which stands for that text. *)
Definition serialize (σ : Store) (me : InstanceContainer) : Result Element :=
  match build σ me with
  | Holds root refused => write (_indent root 0) refused
  | Stops e => Raise e
  end.

End Serialize.
(** ** [deserialize] *)

(** A computation that mutates the store and may raise; what it wrote
    before raising stays written. *)
Definition Run (A : Type) : Type := Store → Store * Result A.

#[global] Instance Run_ret : MRet Run := λ A a σ, (σ, Ok a).

#[global] Instance Run_bind : MBind Run := λ A B k m σ,
  match m σ with
  | (σ', Ok a) => k a σ'
  | (σ', Raise e) => (σ', Raise e)
  end.

Definition lift (f : Store → Store) : Run unit := λ σ, (f σ, Ok ()).

Definition raise {A} (e : Exn) : Run A := λ σ, (σ, Raise e).

Definition read {A} (f : Store → A) : Run A := λ σ, (σ, Ok (f σ)).

Definition check (r : Result unit) : Run unit := λ σ, (σ, r).

Fixpoint for_each {A} (l : list A) (body : A → Run unit) : Run unit :=
  match l with
  | [] => mret ()
  | a :: l' => body a;; for_each l' body
  end.

(** The object behind a handle. Handles are never dangling in Python;
    the default is there to keep the accessor total. *)
Definition the (σ : Store) (h : nat) : InstanceContainer :=
  default (new_container "") (objects σ !! h).

(** [XmlMaterialProfile(container_id)]: a new object, not yet registered. *)
Definition XmlMaterialProfile (container_id : string) : Run nat :=
  λ σ, ({| objects := objects σ ++ [new_container container_id];
           instance_containers := instance_containers σ;
           definition_containers := definition_containers σ |},
        Ok (length (objects σ))).

(** [element.text] on the result of [find], which may be [None]. *)
Definition text_of (element : option Element) : Run Scalar :=
  match element with
  | Some e => mret (text_value (ET.text e))
  | None => raise AttributeError
  end.

(** The [<name>] block of the metadata. *)
Definition read_name (self : nat) (entry : Element) : Run unit :=
  let brand := ET.find entry (um "brand") in
  let material := ET.find entry (um "material") in
  let color := ET.find entry (um "color") in
  name ← text_of material;
  lift (Base.setName self (VScalar name));;
  brand ← text_of brand;
  lift (Base.addMetaDataEntry self "brand" (VScalar brand));;
  material ← text_of material;
  lift (Base.addMetaDataEntry self "material" (VScalar material));;
  color ← text_of color;
  lift (Base.addMetaDataEntry self "color_name" (VScalar color)).

Definition read_metadata_entry (self : nat) (entry : Element) : Run unit :=
  let tag_name := _tag_without_namespace entry in
  if String.eqb tag_name "name" then read_name self entry
  else lift (Base.addMetaDataEntry self tag_name
               (VScalar (text_value (ET.text entry)))).

(** [if not key in self.getMetaData(): self.addMetaDataEntry(key, "")] *)
Definition default_metadata_entry (self : nat) (key : string) : Run unit :=
  metadata ← read (λ σ, _metadata (the σ self));
  match metadata !! key with
  | Some _ => mret ()
  | None => lift (Base.addMetaDataEntry self key (PyStr ""))
  end.

(** The [<setting>] elements whose key the table knows, as internal key
    and text; the others are logged and skipped. *)
Definition mapped_settings (settings : list Element) : list (string * Scalar) :=
  omap (λ entry,
          key ← ET.get entry "key";
          internal ← table_get __material_property_setting_map key;
          Some (internal, text_value (ET.text entry)))
       settings.

(** A dict filled by successive [d[key] = value]. *)
Definition assign_all (entries : list (string * Scalar)) : gmap string Scalar :=
  foldl (λ d entry, <[entry.1 := entry.2]> d) ∅ entries.

(** [for key, value in values.items(): target.setProperty(key, "value", value, definition)] *)
Definition apply_settings (target : nat) (values : list (string * Scalar)) : Run unit :=
  for_each values (λ entry, lift (setProperty target entry.1 "value" entry.2)).

Section Deserialize.

(** Whether [float(s)] accepts the string [s]: Python's own float syntax,
    which the embedding leaves open. *)
Variable py_float : string → bool.

(** [float(property_values.get(key, dflt))], for the exception only: the
    number itself is not used afterwards. *)
Definition float_of_property (property_values : gmap string Scalar) (key : string)
  : Result unit :=
  match property_values !! key with
  | None => Ok ()
  | Some SNone => Raise TypeError
  | Some (SStr s) => if py_float s then Ok () else Raise ValueError
  | Some (SInt _) => Ok ()
  end.

(** One [<hotend>] of a machine. *)
Definition read_hotend (self : nat) (machine_id : string)
    (definition : DefinitionContainer)
    (global_setting_values machine_setting_values : gmap string Scalar)
    (hotend : Element) : Run unit :=
  match ET.get hotend "id" with
  | None => mret ()
  | Some hotend_id =>
      by_id ← read (λ σ, Registry.findInstanceContainers σ
                           (Registry.by_id (PyStr hotend_id)));
      variant_containers ←
        match by_id with
        | [] => read (λ σ, Registry.findInstanceContainers σ
                             (Registry.by_definition_and_name
                                (def_id definition) (PyStr hotend_id)))
        | _ => mret by_id
        end;
      match variant_containers with
      | [] => mret ()
      | first :: _ =>
          self_id ← read (λ σ, _id (the σ self));
          new_hotend_material ←
            XmlMaterialProfile
              (self_id +:+ "_" +:+ machine_id +:+ "_" +:+ replace_char " " "_" hotend_id);
          name ← read (λ σ, _name (the σ self));
          lift (Base.setName new_hotend_material name);;
          metadata ← read (λ σ, _metadata (the σ self));
          lift (Base.setMetaData new_hotend_material metadata);;
          lift (Base.setDefinition new_hotend_material definition);;
          lift (Base.addMetaDataEntry new_hotend_material "base_file" (PyStr self_id));;
          variant_id ← read (λ σ, _id (the σ first));
          lift (Base.addMetaDataEntry new_hotend_material "variant" (PyStr variant_id));;
          apply_settings new_hotend_material (map_to_list global_setting_values);;
          apply_settings new_hotend_material (map_to_list machine_setting_values);;
          apply_settings new_hotend_material
            (mapped_settings (ET.iterfind hotend (um "setting")));;
          lift (modify new_hotend_material (with_dirty false));;
          lift (Registry.addContainer new_hotend_material)
      end
  end.

(** One [<machine_identifier>] of a machine. *)
Definition read_machine_identifier (self : nat) (machine : Element)
    (global_setting_values machine_setting_values : gmap string Scalar)
    (identifier : Element) : Run unit :=
  match ET.get identifier "product" ≫= table_get __product_id_map with
  | None => mret ()
  | Some machine_id =>
      definitions ← read (λ σ, Registry.findDefinitionContainers σ machine_id);
      match definitions with
      | [] => mret ()
      | definition :: _ =>
          self_id ← read (λ σ, _id (the σ self));
          new_material ← XmlMaterialProfile (self_id +:+ "_" +:+ machine_id);
          name ← read (λ σ, _name (the σ self));
          lift (Base.setName new_material name);;
          metadata ← read (λ σ, _metadata (the σ self));
          lift (Base.setMetaData new_material metadata);;
          lift (Base.setDefinition new_material definition);;
          lift (Base.addMetaDataEntry new_material "base_file" (PyStr self_id));;
          apply_settings new_material (map_to_list global_setting_values);;
          apply_settings new_material (map_to_list machine_setting_values);;
          lift (modify new_material (with_dirty false));;
          lift (Registry.addContainer new_material);;
          for_each (ET.iterfind machine (um "hotend"))
            (read_hotend self machine_id definition
               global_setting_values machine_setting_values)
      end
  end.

Definition read_machine (self : nat) (global_setting_values : gmap string Scalar)
    (machine : Element) : Run unit :=
  let machine_setting_values :=
    assign_all (mapped_settings (ET.iterfind machine (um "setting"))) in
  for_each (ET.iterfind machine (um "machine_identifier"))
    (read_machine_identifier self machine global_setting_values machine_setting_values).

(** [deserialize] on the tree that [ET.fromstring(serialized)] returns;
    a text that does not parse is outside the embedding. *)
Definition deserialize (self : nat) (data : Element) : Run unit :=
  lift (Base.addMetaDataEntry self "type" (PyStr "material"));;
  lift (Base.addMetaDataEntry self "status" (PyStr "unknown"));;
  for_each (ET.iterfind2 data (um "metadata") None) (read_metadata_entry self);;
  default_metadata_entry self "description";;
  default_metadata_entry self "adhesion_info";;
  let property_values :=
    assign_all (map (λ entry, (_tag_without_namespace entry, text_value (ET.text entry)))
                    (ET.iterfind2 data (um "properties") None)) in
  check (float_of_property property_values "diameter");;
  check (float_of_property property_values "density");;
  lift (Base.addMetaDataEntry self "properties" (VDict property_values));;
  definitions ← read (λ σ, Registry.findDefinitionContainers σ "fdmprinter");
  match definitions with
  | [] => raise IndexError
  | definition :: _ =>
      lift (Base.setDefinition self definition);;
      let settings :=
        mapped_settings (ET.iterfind2 data (um "settings") (Some (um "setting"))) in
      apply_settings self settings;;
      let global_setting_values := assign_all settings in
      lift (modify self (with_dirty false));;
      for_each (ET.iterfind2 data (um "settings") (Some (um "machine")))
        (read_machine self global_setting_values)
  end.

End Deserialize.
(** A Python [float] literal without exponent: digits with at most one
    dot. Used where a concrete instance of the float syntax is needed. *)
Definition is_digit (a : ascii) : bool :=
  let n := nat_of_ascii a in (48 <=? n)%nat && (n <=? 57)%nat.

Fixpoint digits_and_dots (s : string) : nat * nat :=
  match s with
  | EmptyString => (O, O)
  | String a s' =>
      let '(d, p) := digits_and_dots s' in
      if is_digit a then (S d, p)
      else if Ascii.eqb a "." then (d, S p)
      else (O, 2)
  end.

Definition plain_decimal (s : string) : bool :=
  let '(d, p) := digits_and_dots s in
  (1 <=? d)%nat && (p <=? 1)%nat.

(** ** Reading the grouping *)

(** The container behind [h] is bound to the definition [d]. *)
Definition definition_is (σ : Store) (d : string) (h : nat) : bool :=
  match objects σ !! h with
  | Some c =>
      match _definition c with
      | Some def => String.eqb (def_id def) d
      | None => false
      end
  | None => false
  end.

(** The container behind [h] carries a variant ([if variant:]). *)
Definition carries_variant (σ : Store) (h : nat) : bool :=
  match objects σ !! h with
  | Some c => truthy (Base.getMetaDataEntry c "variant" PyNone)
  | None => false
  end.

(** The container behind [h] carries the variant [v]. *)
Definition variant_is (σ : Store) (v : Scalar) (h : nat) : bool :=
  match objects σ !! h with
  | Some c =>
      truthy (VScalar v)
      && bool_decide (Base.getMetaDataEntry c "variant" PyNone = VScalar v)
  | None => false
  end.


(** A key that comes back from its tag: no closing brace in it. *)
Definition tag_safe (k : string) : bool := (rfind "}" k =? -1)%Z.

(** ** Reading the emitted document *)

(** What the pretty-printer leaves alone: tags, attributes, the nesting,
    and the text of elements without children. *)
Fixpoint skeleton (e : Element) : Element :=
  match e with
  | Elem tag attrib text _ children =>
      Elem tag attrib
        (match children with [] => text | _ => None end)
        None (map skeleton children)
  end.

(** The [<setting>] children of a block, as key and text. *)
Definition settings_of (block : Element) : list (option string * option string) :=
  map (λ s, (ET.get s "key", ET.text s)) (ET.iterfind block "setting").

(** The keys among them. *)
Definition setting_keys (block : Element) : list string :=
  omap fst (settings_of block).

Definition machine_blocks (doc : Element) : list Element :=
  ET.iterfind2 doc "settings" (Some "machine").

Definition hotend_blocks (machine : Element) : list Element :=
  ET.iterfind machine "hotend".

(** The [product] attribute of a machine block's identifier. *)
Definition product_of (machine : Element) : option string :=
  ET.find machine "machine_identifier" ≫= λ i, ET.get i "product".

Definition targets_fdmprinter (c : InstanceContainer) : bool :=
  match _definition c with
  | Some d => String.eqb (def_id d) "fdmprinter"
  | None => false
  end.

(** A [<setting>] element as the emitter makes it. *)
Definition is_setting (s : Element) : Prop :=
  ET.tag s = "setting" ∧ ET.children s = [].

(** The string an attribute holds for a value that can be written. *)
Definition attribute_text (py : Python) (value : PyVal) : string :=
  match attribute py value with
  | Holds s _ => s
  | Stops _ => ""
  end.

Section Reading.

Variable py : Python.

(** The (key, text) pairs a container's instances give rise to, less the
    skipped ones and those without an XML name. *)
Definition emitted_settings (skip : string * SettingInstance → bool)
    (c : InstanceContainer) : list (option string * option string) :=
  concat
    (map (λ instance : string * SettingInstance,
            if skip instance then []
            else match findKey __material_property_setting_map instance.1 with
                 | Some key => [(Some key, Some (py_str (instance_value instance.2)))]
                 | None => []
                 end)
         (Base.findInstances py c)).

(** The entries of the machine map that get a [<machine>] block: those
    whose definition id has a product name. *)
Definition emitted_machines (σ : Store) (machine_container_map : gmap string nat)
  : list (string * nat) :=
  List.filter
    (λ entry : string * nat,
       bool_decide (is_Some (objects σ !! entry.2))
       && bool_decide (is_Some (findKey __product_id_map entry.1)))
    (items py machine_container_map).

(** The variant container a hotend profile refers to, if registered. *)
Definition variant_container (σ : Store) (hotend : nat) : option InstanceContainer :=
  hc ← objects σ !! hotend;
  first ← head (Registry.findInstanceContainers σ
                  (Registry.by_id (Base.getMetaDataEntry hc "variant" PyNone)));
  objects σ !! first.

(** The entries of a nozzle map that get a [<hotend>] block: those whose
    variant is registered. *)
Definition emitted_hotends (σ : Store) (nozzles : gmap Scalar nat)
  : list (Scalar * nat) :=
  List.filter
    (λ entry : Scalar * nat, bool_decide (is_Some (variant_container σ entry.2)))
    (items py nozzles).

(** [hb] is the [<hotend>] block of the nozzle-map entry [entry], below
    the machine container [container]: it is named after the variant
    container and holds nothing but the hotend profile's settings that
    the machine container does not already have. *)
Definition hotend_block_for (σ : Store) (container : InstanceContainer)
    (entry : Scalar * nat) (hb : Element) : Prop :=
  ∃ hotend vc,
    objects σ !! entry.2 = Some hotend
    ∧ variant_container σ entry.2 = Some vc
    ∧ ET.tag hb = "hotend" ∧ ET.get hb "id" = Some (attribute_text py (_name vc))
    ∧ Forall is_setting (ET.children hb)
    ∧ settings_of hb = emitted_settings (inherits_from container) hotend.

(** [m] is the [<machine>] block of the machine-map entry [entry]. *)
Definition machine_block_for (σ : Store) (me : InstanceContainer)
    (machine_nozzle_map : gmap string (gmap Scalar nat))
    (entry : string * nat) (m : Element) : Prop :=
  ∃ container product,
    objects σ !! entry.2 = Some container
    ∧ findKey __product_id_map entry.1 = Some product
    ∧ ET.tag m = "machine" ∧ product_of m = Some product
    ∧ Forall is_setting (ET.iterfind m "setting")
    ∧ settings_of m
      = emitted_settings
          (λ instance, targets_fdmprinter me && inherits_from me instance) container
    ∧ Forall2 (hotend_block_for σ container)
        (emitted_hotends σ (default ∅ (machine_nozzle_map !! entry.1)))
        (hotend_blocks m).

End Reading.

(** An interpreter to run the samples with. *)
Definition sample_python : Python :=
  {| items := λ K _ _ V, map_to_list;
     dict_str := λ _, "{...}" |}.


(** ** Reading what was written *)

(** The keys [serialize] drops from the metadata. *)
Definition transient_keys : list string := ["status"; "variant"; "type"; "base_file"].

(** The metadata that [serialize] writes entry by entry: what is left
    after the pops. *)
Definition generic_metadata (m : gmap string PyVal) : gmap string PyVal :=
  delete "color_name"
    (delete "material"
       (delete "brand"
          (delete "base_file"
             (delete "type" (delete "variant" (delete "status" (delete "properties" m))))))).

(** An object that [ElementTree.write] takes as text: a [str], which it
    writes, or a falsy object, which it passes over. *)
Definition writable (value : PyVal) : bool :=
  match value with
  | VScalar (SStr _) => true
  | _ => negb (truthy value)
  end.

(** The text of the element that holds it. *)
Definition stored_text (value : PyVal) : option string :=
  match value with
  | VScalar (SStr s) => Some s
  | _ => None
  end.

(** An element without children. *)
Definition is_leaf (e : Element) : Prop := ET.children e = [].
(** ** A sample registry

    One PLA family (root, an Ultimaker 2 machine profile and a 0.4 mm
    hotend profile), the variant container the hotend refers to, and an
    unrelated ABS root. *)

Definition fdmprinter : DefinitionContainer :=
  mkDefinition "fdmprinter" ∅.

Definition ultimaker2 : DefinitionContainer :=
  mkDefinition "ultimaker2" {[ "manufacturer" := PyStr "Ultimaker" ]}.

Definition value_of (s : string) : SettingInstance := {[ "value" := SStr s ]}.

Definition pla_metadata : gmap string PyVal :=
  list_to_map
    [ ("GUID", PyStr "guid-pla"); ("brand", PyStr "Generic");
      ("material", PyStr "PLA"); ("color_name", PyStr "White");
      ("description", PyStr "Everyday PLA"); ("adhesion_info", PyStr "Use glue");
      ("type", PyStr "material"); ("status", PyStr "unknown");
      ("properties",
        VDict (list_to_map [ ("diameter", SStr "2.85"); ("density", SStr "1.24") ])) ].

Definition pla_root : InstanceContainer :=
  {| _id := "generic_pla"; _name := PyStr "PLA"; _definition := Some fdmprinter;
     _metadata := pla_metadata;
     _instances := {[ "material_print_temperature" := value_of "210" ]};
     _read_only := false; _dirty := false |}.

Definition pla_ultimaker2 : InstanceContainer :=
  {| _id := "generic_pla_ultimaker2"; _name := PyStr "PLA";
     _definition := Some ultimaker2;
     _metadata := <[ "base_file" := PyStr "generic_pla" ]> pla_metadata;
     _instances :=
       list_to_map [ ("material_print_temperature", value_of "210");
                     ("material_bed_temperature", value_of "60") ];
     _read_only := false; _dirty := false |}.

Definition pla_ultimaker2_04 : InstanceContainer :=
  {| _id := "generic_pla_ultimaker2_0.4_mm"; _name := PyStr "PLA";
     _definition := Some ultimaker2;
     _metadata :=
       <[ "variant" := PyStr "ultimaker2_0.4" ]>
         (<[ "base_file" := PyStr "generic_pla" ]> pla_metadata);
     _instances :=
       list_to_map [ ("material_print_temperature", value_of "210");
                     ("material_bed_temperature", value_of "60");
                     ("retraction_amount", value_of "6.5") ];
     _read_only := false; _dirty := false |}.

Definition variant_04 : InstanceContainer :=
  {| _id := "ultimaker2_0.4"; _name := PyStr "0.4 mm";
     _definition := Some ultimaker2;
     _metadata := {[ "type" := PyStr "variant" ]};
     _instances := ∅; _read_only := false; _dirty := false |}.

Definition abs_root : InstanceContainer :=
  {| _id := "generic_abs"; _name := PyStr "ABS"; _definition := Some fdmprinter;
     _metadata := {[ "GUID" := PyStr "guid-abs" ]};
     _instances := ∅; _read_only := false; _dirty := false |}.

Definition sample_store : Store :=
  {| objects := [pla_root; pla_ultimaker2; pla_ultimaker2_04; variant_04; abs_root];
     instance_containers := [0; 1; 2; 3; 4];
     definition_containers := [fdmprinter; ultimaker2] |}.

(** The same registry after the family was made read-only. *)
Definition locked_store : Store := setReadOnly 0 true sample_store.

(** A root whose [base_file] entry is present but empty. *)
Definition pla_empty_base_file : InstanceContainer :=
  with_metadata (<[ "base_file" := PyStr "" ]> pla_metadata) pla_root.

(** Two machine profiles without variant for the same printer. *)
Definition pla_ultimaker2_again : InstanceContainer :=
  {| _id := "generic_pla_ultimaker2_again"; _name := PyStr "PLA";
     _definition := Some ultimaker2;
     _metadata := <[ "base_file" := PyStr "generic_pla" ]> pla_metadata;
     _instances := {[ "material_bed_temperature" := value_of "70" ]};
     _read_only := false; _dirty := false |}.

Definition twin_store : Store :=
  {| objects := [pla_root; pla_ultimaker2; pla_ultimaker2_again];
     instance_containers := [0; 1; 2];
     definition_containers := [fdmprinter; ultimaker2] |}.

(** A family whose only Ultimaker 2 member is a hotend profile. *)
Definition hotend_only_store : Store :=
  {| objects := [pla_root; pla_ultimaker2_04; variant_04];
     instance_containers := [0; 1; 2];
     definition_containers := [fdmprinter; ultimaker2] |}.

(** A root bound to a printer of its own, with one machine profile that
    repeats the root's print temperature. *)
Definition custom_printer : DefinitionContainer :=
  mkDefinition "custom_printer" ∅.

Definition custom_root : InstanceContainer :=
  {| _id := "custom_pla"; _name := PyStr "PLA"; _definition := Some custom_printer;
     _metadata := {[ "GUID" := PyStr "guid-custom" ]};
     _instances := {[ "material_print_temperature" := value_of "210" ]};
     _read_only := false; _dirty := false |}.

Definition custom_ultimaker2 : InstanceContainer :=
  {| _id := "custom_pla_ultimaker2"; _name := PyStr "PLA";
     _definition := Some ultimaker2;
     _metadata := <[ "base_file" := PyStr "custom_pla" ]>
                    {[ "GUID" := PyStr "guid-custom" ]};
     _instances := {[ "material_print_temperature" := value_of "210" ]};
     _read_only := false; _dirty := false |}.

Definition custom_store : Store :=
  {| objects := [custom_root; custom_ultimaker2];
     instance_containers := [0; 1];
     definition_containers := [fdmprinter; ultimaker2; custom_printer] |}.

(** ** Reading a parsed document *)

(** A [<name>] block of the metadata that lacks a [<brand>], a
    [<material>] or a [<color>] child. *)
Definition incomplete_name (entry : Element) : bool :=
  String.eqb (_tag_without_namespace entry) "name"
  && negb (bool_decide (is_Some (ET.find entry (um "brand")))
           && bool_decide (is_Some (ET.find entry (um "material")))
           && bool_decide (is_Some (ET.find entry (um "color")))).

Definition has_incomplete_name (data : Element) : bool :=
  existsb incomplete_name (ET.iterfind2 data (um "metadata") None).

(** A document whose [<name>] block has no [<color>]. *)
Definition colourless_document : Element :=
  Elem (um "fdmmaterial") ∅ None None
    [ Elem (um "metadata") ∅ None None
        [ Elem (um "name") ∅ None None
            [ Elem (um "brand") ∅ (Some "Generic") None [];
              Elem (um "material") ∅ (Some "PLA") None [] ] ];
      Elem (um "properties") ∅ None None [];
      Elem (um "settings") ∅ None None [] ].

(** A fresh profile next to the sample registry, ready to be read into. *)
Definition sample_store_with_fresh : Store :=
  (XmlMaterialProfile "imported" sample_store).1.

(** The sample registry with one more member of the PLA family that
    exists without being registered: a profile for the Ultimaker 2 as
    [deserialize] makes it, before it is added to the registry. *)
Definition pla_unregistered : InstanceContainer :=
  {| _id := "imported_pla_ultimaker2"; _name := PyStr "PLA";
     _definition := Some ultimaker2;
     _metadata := <[ "base_file" := PyStr "generic_pla" ]> pla_metadata;
     _instances := {[ "material_bed_temperature" := value_of "60" ]};
     _read_only := false; _dirty := false |}.

Definition store_with_unregistered : Store :=
  {| objects := [pla_root; pla_ultimaker2; pla_ultimaker2_04; variant_04; abs_root;
                 pla_unregistered];
     instance_containers := [0; 1; 2; 3; 4];
     definition_containers := [fdmprinter; ultimaker2] |}.

(** The PLA root as [deserialize] leaves it after reading a file with an
    empty [<description/>]: the entry holds [None]. *)
Definition pla_reloaded : InstanceContainer :=
  with_metadata (<[ "description" := PyNone ]> pla_metadata) pla_root.


(** A root with a key that opens a brace and does not close it. *)
Definition pla_braced : InstanceContainer :=
  with_metadata (<[ "{vendor" := PyStr "x" ]> pla_metadata) pla_root.

(** A parsed document for one printer with one hotend. *)
Definition ultimaker_document : Element :=
  Elem (um "fdmmaterial") ∅ None None
    [ Elem (um "metadata") ∅ None None
        [ Elem (um "name") ∅ None None
            [ Elem (um "brand") ∅ (Some "Generic") None [];
              Elem (um "material") ∅ (Some "PLA") None [];
              Elem (um "color") ∅ (Some "White") None [] ];
          Elem (um "GUID") ∅ (Some "guid-pla") None [] ];
      Elem (um "properties") ∅ None None
        [ Elem (um "diameter") ∅ (Some "2.85") None [] ];
      Elem (um "settings") ∅ None None
        [ Elem (um "setting") {[ "key" := "print temperature" ]} (Some "210") None [];
          Elem (um "machine") ∅ None None
            [ Elem (um "machine_identifier")
                (<["manufacturer" := "Ultimaker"]> {[ "product" := "Ultimaker2" ]})
                None None [];
              Elem (um "setting") {[ "key" := "heated bed temperature" ]}
                (Some "60") None [];
              Elem (um "hotend") {[ "id" := "0.4 mm" ]} None None
                [ Elem (um "setting") {[ "key" := "retraction amount" ]}
                    (Some "6.5") None [] ] ] ] ].


(** * Theorems *)

(** ** Lemmas on the store *)

Lemma modify_lookup h f σ k :
  objects (modify h f σ) !! k
  = if decide (h = k) then f <$> objects σ !! k else objects σ !! k.
Proof.
  unfold modify; simpl. destruct (decide (h = k)) as [->|Hne].
  - by rewrite list_lookup_alter_eq.
  - by rewrite list_lookup_alter_ne.
Qed.

Lemma modify_registry h f σ :
  instance_containers (modify h f σ) = instance_containers σ.
Proof. reflexivity. Qed.

Section Sweep.
(** A loop that applies one idempotent update to each listed container. *)
Variable f : InstanceContainer → InstanceContainer.
Hypothesis f_idem : ∀ c, f (f c) = f c.

Definition sweep (σ : Store) (l : list nat) : Store :=
  foldl (λ s container, modify container f s) σ l.

Lemma sweep_registry l : ∀ σ,
  instance_containers (sweep σ l) = instance_containers σ.
Proof. induction l as [|h l IH]; intros σ; simpl; [done|]. by rewrite IH. Qed.

Lemma sweep_definitions l : ∀ σ,
  definition_containers (sweep σ l) = definition_containers σ.
Proof. induction l as [|h l IH]; intros σ; simpl; [done|]. by rewrite IH. Qed.

Lemma sweep_lookup l : ∀ σ k,
  objects (sweep σ l) !! k
  = if decide (k ∈ l) then f <$> objects σ !! k else objects σ !! k.
Proof using f_idem.
  induction l as [|h l IH]; intros σ k.
  - done.
  - unfold sweep in *. cbn [foldl]. rewrite IH, modify_lookup.
    destruct (decide (k ∈ h :: l)) as [Hk|Hk], (decide (k ∈ l)) as [Hin|Hnin],
      (decide (h = k)) as [->|Hne]; try done.
    + destruct (objects σ !! k); simpl; [|done]. by rewrite f_idem.
    + apply elem_of_cons in Hk as [->|?]; done.
    + exfalso. apply Hk, elem_of_cons. by right.
    + exfalso. apply Hk, elem_of_cons. by right.
    + exfalso. apply Hk, elem_of_cons. by left.
Qed.

End Sweep.

Lemma modify_modify h f g σ :
  modify h g (modify h f σ) = modify h (g ∘ f) σ.
Proof. unfold modify; simpl. f_equal. apply list_alter_alter_eq. Qed.

Lemma elem_of_findInstanceContainers σ matches h :
  h ∈ Registry.findInstanceContainers σ matches
  ↔ h ∈ instance_containers σ ∧ ∃ c, objects σ !! h = Some c ∧ matches c = true.
Proof.
  unfold Registry.findInstanceContainers.
  rewrite list_elem_of_In, filter_In, <- list_elem_of_In.
  split; intros [Hin H]; split; try done.
  - destruct (objects σ !! h) as [c|]; [eauto|done].
  - by destruct H as (c & -> & ?).
Qed.

Lemma with_read_only_idem b c : with_read_only b (with_read_only b c) = with_read_only b c.
Proof. reflexivity. Qed.

Lemma with_dirty_idem b c : with_dirty b (with_dirty b c) = with_dirty b c.
Proof. reflexivity. Qed.

(** What one turn of the metadata loop writes into a container. *)
Definition receive_metadata (key : string) (value : PyVal) (m : gmap string PyVal)
    (c : InstanceContainer) : InstanceContainer :=
  if String.eqb key "material" then with_name value (with_metadata m c)
  else with_metadata m c.

Lemma receive_metadata_idem key value m c :
  receive_metadata key value m (receive_metadata key value m c)
  = receive_metadata key value m c.
Proof. unfold receive_metadata. by destruct (String.eqb key "material"). Qed.

Lemma receive_metadata_metadata key value m c :
  _metadata (receive_metadata key value m c) = m.
Proof. unfold receive_metadata. by destruct (String.eqb key "material"). Qed.

(** The loop of [setMetaDataEntry] hands every container the same map:
    the caller's own metadata does not change while it runs. *)
Lemma propagate_metadata_sweep self key value m l : ∀ s me,
  objects s !! self = Some me → _metadata me = m →
  foldl (propagate_metadata self key value) s l
  = sweep (receive_metadata key value m) s l.
Proof.
  induction l as [|h l IH]; intros s me Hme Hm; [done|].
  unfold sweep in *. cbn [foldl].
  assert (propagate_metadata self key value s h
          = modify h (receive_metadata key value m) s) as ->.
  { unfold propagate_metadata, receive_metadata. rewrite Hme, Hm.
    unfold Base.setMetaData, Base.setName.
    destruct (String.eqb key "material"); [|done]. by rewrite modify_modify. }
  destruct (decide (h = self)) as [->|Hne].
  - apply (IH _ (receive_metadata key value m me)).
    + rewrite modify_lookup, decide_True by done. by rewrite Hme.
    + apply receive_metadata_metadata.
  - apply (IH _ me); [|done].
    rewrite modify_lookup, decide_False by done. done.
Qed.

(** ** Read-only propagation *)

(** C6, as stated, fails: the family is found by a search of the
    registry, so a profile that shares the GUID but is not registered is
    not reached. Handle 5 below carries the GUID of the root, and stays
    writable when the root is made read-only. *)
Lemma setReadOnly_skips_unregistered :
  ∃ me c c',
    objects store_with_unregistered !! 0 = Some me
    ∧ objects store_with_unregistered !! 5 = Some c
    ∧ GUID_of c = GUID_of me
    ∧ objects (setReadOnly 0 true store_with_unregistered) !! 5 = Some c'
    ∧ _read_only c' = false.
Proof. eexists _, _, _. repeat split; reflexivity. Qed.

(** C6, amended. [setReadOnly(b)] on any container leaves that container
    and every registered container that shares its GUID reporting
    read-only = [b]; nothing else about them changes. With [b = true] the
    registered family is locked, with [b = false] it is unlocked. *)
Theorem setReadOnly_reaches_family σ self me (b : bool) h c :
  objects σ !! self = Some me →
  objects σ !! h = Some c →
  h = self ∨ (h ∈ instance_containers σ ∧ GUID_of c = GUID_of me) →
  ∃ c', objects (setReadOnly self b σ) !! h = Some c'
        ∧ _read_only c' = b ∧ c' = with_read_only b c.
Proof.
  intros Hme Hc Hfam. exists (with_read_only b c). split; [|done].
  unfold setReadOnly, Base.setReadOnly. rewrite Hme.
  rewrite modify_lookup, decide_True, Hme by done. cbn [fmap option_fmap option_map].
  change (foldl _ ?s ?l) with (sweep (with_read_only b) s l).
  rewrite sweep_lookup by apply with_read_only_idem.
  rewrite modify_lookup.
  destruct (decide (self = h)) as [->|Hne].
  - rewrite Hme in Hc. injection Hc as ->. rewrite Hme. by case_decide.
  - destruct Hfam as [->|[Hreg Hguid]]; [done|].
    rewrite Hc, decide_True; [done|].
    apply elem_of_findInstanceContainers. split; [done|].
    exists c. rewrite modify_lookup, decide_False by done. split; [done|].
    unfold Registry.by_GUID. apply bool_decide_eq_true. exact Hguid.
Qed.

Lemma setReadOnly_reaches_family_witness :
  ∃ c', objects (setReadOnly 1 true sample_store) !! 2 = Some c'
        ∧ _read_only c' = true ∧ c' = with_read_only true pla_ultimaker2_04.
Proof.
  apply (setReadOnly_reaches_family sample_store 1 pla_ultimaker2 true 2 pla_ultimaker2_04).
  - reflexivity.
  - reflexivity.
  - right. split; [|reflexivity]. apply list_elem_of_In. simpl. tauto.
Defined.

(** ** Mutation of a read-only profile *)

(** C7. On a read-only profile, [setMetaDataEntry] and [setProperty]
    return without raising and leave the whole store (the profile, its
    family, the registry) exactly as it was. *)
Theorem read_only_mutation_is_noop σ self me :
  objects σ !! self = Some me →
  _read_only me = true →
  (∀ key value, setMetaDataEntry self key value σ = σ)
  ∧ (∀ key property_name property_value,
       setProperty self key property_name property_value σ = σ).
Proof.
  intros Hme Hro. split; intros.
  - unfold setMetaDataEntry. by rewrite Hme, Hro.
  - unfold setProperty. by rewrite Hme, Hro.
Qed.

Lemma read_only_mutation_is_noop_witness :
  (∀ key value, setMetaDataEntry 1 key value locked_store = locked_store)
  ∧ (∀ key property_name property_value,
       setProperty 1 key property_name property_value locked_store = locked_store).
Proof.
  apply (read_only_mutation_is_noop locked_store 1 (with_read_only true pla_ultimaker2)).
  - reflexivity.
  - reflexivity.
Defined.

(** ** Property writes *)

(** C8, as stated, fails in its family-wide part: the dirty flag is set
    on the containers a search of the registry finds. Handle 5 below
    carries the GUID of the root and is not registered; it stays clean
    when a property of the root is set. *)
Lemma setProperty_skips_unregistered :
  ∃ me c c',
    objects store_with_unregistered !! 0 = Some me
    ∧ _read_only me = false
    ∧ objects store_with_unregistered !! 5 = Some c
    ∧ GUID_of c = GUID_of me
    ∧ objects (setProperty 0 "material_print_temperature" "value" (SStr "215")
                 store_with_unregistered) !! 5 = Some c'
    ∧ _dirty c' = false.
Proof. eexists _, _, _. repeat split; reflexivity. Qed.

(** C8, amended. [setProperty] on a profile that is not read-only writes
    the property into that profile's own instances and nowhere else:
    every other container keeps its instances (and metadata and name),
    while the profile itself and every registered container sharing its
    GUID end up dirty. *)
Theorem setProperty_own_scope_family_dirty σ self me key property_name property_value :
  objects σ !! self = Some me →
  _read_only me = false →
  let σ' := setProperty self key property_name property_value σ in
  (∃ me', objects σ' !! self = Some me'
     ∧ Base.getProperty me' key property_name = property_value
     ∧ _instances me'
       = <[key := <[property_name := property_value]>
                    (default ∅ (_instances me !! key))]> (_instances me))
  ∧ (∀ h c, h ≠ self → objects σ !! h = Some c →
       ∃ c', objects σ' !! h = Some c'
         ∧ _instances c' = _instances c
         ∧ _metadata c' = _metadata c ∧ _name c' = _name c)
  ∧ (∀ h c, objects σ !! h = Some c →
       h = self ∨ (h ∈ instance_containers σ ∧ GUID_of c = GUID_of me) →
       ∃ c', objects σ' !! h = Some c' ∧ _dirty c' = true).
Proof.
  intros Hme Hro σ'. subst σ'. unfold setProperty, Base.setProperty.
  rewrite Hme, Hro.
  rewrite modify_lookup, decide_True, Hme by done. cbn [fmap option_fmap option_map].
  change (foldl _ ?s ?l) with (sweep (with_dirty true) s l).
  set (me1 := with_dirty true (with_instances _ me)).
  set (σ1 := modify self _ σ).
  assert (Hσ1 : ∀ k, objects σ1 !! k
            = if decide (self = k) then Some me1 else objects σ !! k).
  { intros k. unfold σ1. rewrite modify_lookup. case_decide; [|done].
    subst k. by rewrite Hme. }
  assert (Hself1 : objects σ1 !! self = Some me1).
  { rewrite Hσ1. by case_decide. }
  split; [|split].
  - exists me1. rewrite sweep_lookup by apply with_dirty_idem.
    rewrite Hself1. split; [by case_decide; subst me1|].
    split; [|done]. unfold Base.getProperty. subst me1. simpl.
    by rewrite !lookup_insert_eq.
  - intros h c Hne Hc. rewrite sweep_lookup by apply with_dirty_idem.
    assert (objects σ1 !! h = Some c) as ->
      by (rewrite Hσ1; case_decide; congruence).
    case_decide; eexists; (split; [done|]); done.
  - intros h c Hc Hfam. rewrite sweep_lookup by apply with_dirty_idem.
    destruct (decide (self = h)) as [<-|Hne].
    + rewrite Hself1. case_decide; eexists; (split; [done|]); done.
    + destruct Hfam as [->|[Hreg Hguid]]; [done|].
      rewrite decide_True.
      * rewrite Hσ1, decide_False, Hc by done. eexists. split; done.
      * apply elem_of_findInstanceContainers. split; [done|].
        rewrite Hσ1, decide_False by done. unfold Registry.by_GUID.
        exists c. split; [done|]. apply bool_decide_eq_true. exact Hguid.
Qed.

Lemma setProperty_own_scope_family_dirty_witness :
  let σ' := setProperty 1 "material_bed_temperature" "value" (SStr "65") sample_store in
  (∃ me', objects σ' !! 1 = Some me'
     ∧ Base.getProperty me' "material_bed_temperature" "value" = SStr "65"
     ∧ _instances me'
       = <["material_bed_temperature" := <["value" := SStr "65"]>
            (default ∅ (_instances pla_ultimaker2 !! "material_bed_temperature"))]>
           (_instances pla_ultimaker2))
  ∧ (∀ h c, h ≠ 1 → objects sample_store !! h = Some c →
       ∃ c', objects σ' !! h = Some c'
         ∧ _instances c' = _instances c
         ∧ _metadata c' = _metadata c ∧ _name c' = _name c)
  ∧ (∀ h c, objects sample_store !! h = Some c →
       h = 1 ∨ (h ∈ instance_containers sample_store
                ∧ GUID_of c = GUID_of pla_ultimaker2) →
       ∃ c', objects σ' !! h = Some c' ∧ _dirty c' = true).
Proof.
  apply (setProperty_own_scope_family_dirty sample_store 1 pla_ultimaker2).
  - reflexivity.
  - reflexivity.
Defined.

(** ** Metadata writes *)

(** C5, as stated, fails: the metadata and the name go to the containers
    a search of the registry finds. Handle 5 below carries the GUID of the
    root and is not registered; it keeps its name and its metadata when
    the root's material is set. *)
Lemma setMetaDataEntry_skips_unregistered :
  ∃ me c c',
    objects store_with_unregistered !! 0 = Some me
    ∧ _read_only me = false
    ∧ objects store_with_unregistered !! 5 = Some c
    ∧ GUID_of c = GUID_of me
    ∧ objects (setMetaDataEntry 0 "material" (PyStr "PLA Red")
                 store_with_unregistered) !! 5 = Some c'
    ∧ _name c' = PyStr "PLA"
    ∧ _metadata c' !! "material" = Some (PyStr "PLA").
Proof. eexists _, _, _. repeat split; reflexivity. Qed.

(** C5, amended. [setMetaDataEntry("material", v)] on a profile that is
    not read-only sets that profile's name to [v], and hands its metadata
    map (with the new entry) and the name [v] to every registered
    container sharing its GUID: afterwards each of them, and the profile
    itself, reports name [v] and carries a map equal to the profile's. *)
Theorem setMetaDataEntry_material_renames_family σ self me (v : PyVal) :
  objects σ !! self = Some me →
  _read_only me = false →
  let σ' := setMetaDataEntry self "material" v σ in
  ∃ me', objects σ' !! self = Some me'
    ∧ _name me' = v
    ∧ _metadata me' = <["material" := v]> (_metadata me)
    ∧ ∀ h c, h ∈ instance_containers σ → objects σ !! h = Some c →
        GUID_of c = GUID_of me →
        ∃ c', objects σ' !! h = Some c'
          ∧ _name c' = v ∧ _metadata c' = _metadata me'.
Proof.
  intros Hme Hro σ'. subst σ'.
  unfold setMetaDataEntry, Base.setMetaDataEntry, Base.setName.
  rewrite Hme, Hro. cbn [String.eqb Ascii.eqb Bool.eqb].
  rewrite modify_modify.
  set (m := <["material" := v]> (_metadata me)).
  set (me1 := with_name v (with_metadata m me)).
  set (σ1 := modify self _ σ).
  assert (Hσ1 : ∀ k, objects σ1 !! k
            = if decide (self = k) then Some me1 else objects σ !! k).
  { intros k. unfold σ1. rewrite modify_lookup. case_decide; [|done].
    subst k. by rewrite Hme. }
  assert (Hself1 : objects σ1 !! self = Some me1).
  { rewrite Hσ1. by case_decide. }
  rewrite Hself1.
  rewrite (propagate_metadata_sweep self "material" v m _ σ1 me1) by done.
  assert (Hguid1 : GUID_of me1 = GUID_of me).
  { unfold GUID_of, Base.getMetaDataEntry. subst me1 m. simpl.
    by rewrite lookup_insert_ne. }
  exists me1. split; [|split; [done|split; [done|]]].
  - rewrite sweep_lookup by apply receive_metadata_idem.
    rewrite Hself1. by case_decide; subst me1 m.
  - intros h c Hreg Hc Hguid.
    rewrite sweep_lookup by apply receive_metadata_idem.
    rewrite decide_True.
    + rewrite Hσ1. case_decide; [|rewrite Hc]; eexists; (split; [done|]); done.
    + apply elem_of_findInstanceContainers. split; [done|].
      rewrite Hσ1. unfold Registry.by_GUID.
      destruct (decide (self = h)) as [->|Hne].
      * exists me1. split; [done|]. by apply bool_decide_eq_true.
      * exists c. split; [done|]. apply bool_decide_eq_true.
        fold (GUID_of c). congruence.
Qed.

Lemma setMetaDataEntry_material_renames_family_witness :
  let σ' := setMetaDataEntry 2 "material" (PyStr "PLA Red") sample_store in
  ∃ me', objects σ' !! 2 = Some me'
    ∧ _name me' = PyStr "PLA Red"
    ∧ _metadata me' = <["material" := PyStr "PLA Red"]> (_metadata pla_ultimaker2_04)
    ∧ ∀ h c, h ∈ instance_containers sample_store → objects sample_store !! h = Some c →
        GUID_of c = GUID_of pla_ultimaker2_04 →
        ∃ c', objects σ' !! h = Some c'
          ∧ _name c' = PyStr "PLA Red" ∧ _metadata c' = _metadata me'.
Proof.
  apply (setMetaDataEntry_material_renames_family sample_store 2 pla_ultimaker2_04).
  - reflexivity.
  - reflexivity.
Defined.


(** ** Lemmas on results *)

Lemma bind_Ok {A B} (r : Result A) (k : A → Result B) b :
  (r ≫= k) = Ok b ↔ ∃ a, r = Ok a ∧ k a = Ok b.
Proof.
  destruct r as [a|e]; simpl; split.
  - eauto.
  - by intros (a' & [= ->] & ?).
  - done.
  - by intros (a' & ? & ?).
Qed.

Lemma rmapM_Ok {A B} (f : A → Result B) l bs :
  rmapM f l = Ok bs ↔ Forall2 (λ a b, f a = Ok b) l bs.
Proof.
  revert bs. induction l as [|a l IH]; intros bs; simpl.
  - split; [intros [= <-]; constructor|by intros ->%Forall2_nil_inv_l].
  - destruct (f a) as [b|e] eqn:Hfa.
    + destruct (rmapM f l) as [bs'|e] eqn:Hl.
      * split.
        -- intros [= <-]. constructor; [done|]. by apply IH.
        -- intros (b' & bs'' & Hb & Hbs & ->)%Forall2_cons_inv_l.
           apply IH in Hbs. congruence.
      * split; [done|].
        intros (b' & bs'' & Hb & Hbs & ->)%Forall2_cons_inv_l.
        by apply IH in Hbs.
    + split; [done|].
      intros (b' & bs'' & Hb & Hbs & ->)%Forall2_cons_inv_l. congruence.
Qed.

(** The exceptions a step can end in. *)
Definition raises_within {A} (allowed : Exn → Prop) (r : Result A) : Prop :=
  match r with
  | Ok _ => True
  | Raise e => allowed e
  end.

Lemma raises_within_bind {A B} allowed (r : Result A) (k : A → Result B) :
  raises_within allowed r → (∀ a, raises_within allowed (k a)) →
  raises_within allowed (r ≫= k).
Proof. destruct r; simpl; auto. Qed.

Lemma raises_within_rmapM {A B} allowed (f : A → Result B) l :
  (∀ a, raises_within allowed (f a)) → raises_within allowed (rmapM f l).
Proof.
  intros Hf. induction l as [|a l IH]; simpl; [done|].
  specialize (Hf a). destruct (f a); [|done].
  by destruct (rmapM f l).
Qed.

Lemma raises_within_rfoldM {A S} allowed (f : S → A → Result S) l : ∀ s,
  (∀ s a, raises_within allowed (f s a)) → raises_within allowed (rfoldM f s l).
Proof.
  induction l as [|a l IH]; intros s Hf; simpl; [done|].
  specialize (Hf s a) as Hfa. destruct (f s a); [|done]. by apply IH.
Qed.

(** ** Lemmas on the builder *)

Lemma bbind_Holds {A B} (m : Build A) (k : A → Build B) b r :
  (m ≫= k) = Holds b r
  ↔ ∃ a r1 r2, m = Holds a r1 ∧ k a = Holds b r2 ∧ r = r1 || r2.
Proof.
  destruct m as [a r1|e]; cbn [mbind Build_bind]; split.
  - destruct (k a) as [b' r2|e] eqn:Hk; [|done]. intros [= <- <-]. by exists a, r1, r2.
  - intros (a' & r1' & r2 & [= <- <-] & -> & ->). done.
  - done.
  - by intros (a' & r1' & r2 & ? & _).
Qed.

Lemma step_Holds {A} (x : Result A) a r :
  step x = Holds a r ↔ x = Ok a ∧ r = false.
Proof.
  destruct x; simpl; split; try done.
  - by intros [= -> <-].
  - by intros [[= ->] ->].
  - by intros [? _].
Qed.

(** What [bmapM] holds at the end: the results of the turns, and an object
    to refuse exactly when some turn stored one. *)
Lemma bmapM_Holds {A B} (f : A → Build B) l bs r :
  bmapM f l = Holds bs r
  ↔ ∃ rs, Forall2 (λ a br, f a = Holds br.1 br.2) l (zip bs rs)
          ∧ length rs = length bs ∧ r = existsb id rs.
Proof.
  revert bs r. induction l as [|a l IH]; intros bs r; cbn [bmapM].
  - split.
    + intros [= <- <-]. exists []. by repeat split; [constructor|..].
    + intros (rs & H & Hlen & ->). destruct bs as [|b bs]; destruct rs as [|r0 rs];
        try done; by inversion H.
  - rewrite bbind_Holds. split.
    + intros (b & r1 & r2 & Hfa & (bs' & r3 & r4 & Hrest & [= <- <-] & ->)%bbind_Holds
              & ->).
      apply IH in Hrest as (rs & Hall & Hlen & ->).
      exists (r1 :: rs). split; [by constructor|]. split; [simpl; by rewrite Hlen|].
      simpl. by rewrite orb_false_r.
    + intros (rs & Hall & Hlen & ->).
      destruct bs as [|b bs]; destruct rs as [|r1 rs]; try done; [by inversion Hall|].
      inversion Hall as [|? ? ? ? Hfa Hrest]; subst. cbn [fst snd] in Hfa.
      exists b, r1, (existsb id rs). split; [done|]. split; [|done].
      apply bbind_Holds. exists bs, (existsb id rs), false.
      split; [|by rewrite orb_false_r]. apply IH. exists rs.
      split; [done|]. split; [|done]. simpl in Hlen. lia.
Qed.

(** The results of the turns alone. *)
Lemma bmapM_Forall2 {A B} (f : A → Build B) l bs r :
  bmapM f l = Holds bs r → Forall2 (λ a b, ∃ r', f a = Holds b r') l bs.
Proof.
  revert bs r. induction l as [|a l IH]; intros bs r; cbn [bmapM].
  - intros [= <- <-]. constructor.
  - intros (b & r1 & r2 & Hfa & (bs' & r3 & r4 & Hrest & [= <- <-] & ->)%bbind_Holds
            & ->)%bbind_Holds.
    constructor; [by eexists|]. by eapply IH.
Qed.

(** The exceptions a step of the builder can stop with. *)
Definition stops_within {A} (allowed : Exn → Prop) (m : Build A) : Prop :=
  match m with
  | Holds _ _ => True
  | Stops e => allowed e
  end.

Lemma stops_within_bind {A B} allowed (m : Build A) (k : A → Build B) :
  stops_within allowed m → (∀ a, stops_within allowed (k a)) →
  stops_within allowed (m ≫= k).
Proof.
  destruct m as [a r|e]; cbn [mbind Build_bind stops_within]; [|done].
  intros _ Hk. specialize (Hk a). by destruct (k a).
Qed.

Lemma stops_within_step {A} allowed (x : Result A) :
  raises_within allowed x → stops_within allowed (step x).
Proof. by destruct x. Qed.

Lemma stops_within_bmapM {A B} allowed (f : A → Build B) l :
  (∀ a, stops_within allowed (f a)) → stops_within allowed (bmapM f l).
Proof.
  intros Hf. induction l as [|a l IH]; [done|]. cbn [bmapM].
  apply stops_within_bind; [apply Hf|intros b].
  apply stops_within_bind; [apply IH|done].
Qed.

(** Past the guard on [base_file], the builder can only stop with an
    attribute error or a type error. *)
Definition past_guard (e : Exn) : Prop := e = AttributeError ∨ e = TypeError.

Lemma data_never_stops allowed v : stops_within allowed (ET.data v).
Proof. by destruct v as [[]|]. Qed.

Lemma attribute_never_stops allowed py v : stops_within allowed (attribute py v).
Proof. destruct v as [[]|d]; simpl; try done. by case_match. Qed.

Lemma definition_id_of_past_guard c : raises_within past_guard (definition_id_of c).
Proof. unfold definition_id_of. destruct (_definition c); simpl; unfold past_guard; auto. Qed.

Lemma text_element_never_stops allowed entry : stops_within allowed (text_element entry).
Proof.
  unfold text_element. apply stops_within_bind; [apply data_never_stops|done].
Qed.

Lemma metadata_block_never_stops allowed py me :
  stops_within allowed (metadata_block py me).
Proof.
  unfold metadata_block, pop.
  repeat (apply stops_within_bind; [apply data_never_stops|intros ?]).
  apply stops_within_bind; [|done].
  apply stops_within_bmapM, text_element_never_stops.
Qed.

Lemma properties_block_past_guard py v :
  stops_within past_guard (properties_block py v).
Proof.
  destruct v as [x|d]; simpl; [unfold past_guard; auto|].
  apply stops_within_bind; [|done].
  apply stops_within_bmapM. intros ?. apply text_element_never_stops.
Qed.

Lemma group_container_past_guard σ maps h :
  raises_within past_guard (group_container σ maps h).
Proof.
  unfold group_container. destruct (objects σ !! h) as [c|]; [|done].
  apply raises_within_bind; [apply definition_id_of_past_guard|intros d].
  destruct (String.eqb d "fdmprinter"); [done|]. destruct maps as [m n].
  destruct (truthy _); [|done].
  destruct (Base.getMetaDataEntry c "variant" PyNone); simpl; unfold past_guard; auto.
Qed.

Lemma hotend_element_never_stops allowed py σ c h :
  stops_within allowed (hotend_element py σ c h).
Proof.
  unfold hotend_element. destruct (objects σ !! h); [|done].
  destruct (Registry.findInstanceContainers _ _) as [|first ?]; [done|].
  destruct (objects σ !! first); [|done].
  apply stops_within_bind; [apply attribute_never_stops|done].
Qed.

Lemma machine_setting_elements_past_guard py me c :
  raises_within past_guard (machine_setting_elements py me c).
Proof.
  unfold machine_setting_elements. apply raises_within_bind; [|done].
  apply raises_within_rmapM. intros instance.
  apply raises_within_bind; [apply definition_id_of_past_guard|intros ?].
  by destruct (_ && _).
Qed.

Lemma machine_element_past_guard py σ me n entry :
  stops_within past_guard (machine_element py σ me n entry).
Proof.
  unfold machine_element. destruct entry as [d h].
  destruct (objects σ !! h) as [c|]; [|done].
  destruct (findKey _ d); [|done].
  destruct (_definition c); [|simpl; unfold past_guard; auto].
  apply stops_within_bind; [apply attribute_never_stops|intros ?].
  apply stops_within_bind;
    [apply stops_within_step, machine_setting_elements_past_guard|intros ?].
  apply stops_within_bind; [|done].
  apply stops_within_bmapM. intros ?. apply hotend_element_never_stops.
Qed.

Lemma build_cases py σ me :
  let guard := truthy (Base.getMetaDataEntry me "base_file" (PyStr ""))
               && negb (bool_decide
                          (PyStr (_id me) = Base.getMetaDataEntry me "base_file" (PyStr ""))) in
  (guard = true ∧ build py σ me = Stops NotImplementedError)
  ∨ (guard = false ∧ stops_within past_guard (build py σ me)).
Proof.
  intros guard. unfold build. fold guard. destruct guard; [by left|right].
  split; [done|].
  apply stops_within_bind; [apply metadata_block_never_stops|intros [metadata properties]].
  apply stops_within_bind; [apply properties_block_past_guard|intros ?].
  apply stops_within_bind;
    [apply stops_within_step, definition_id_of_past_guard|intros ?].
  apply stops_within_bind;
    [apply stops_within_step, raises_within_rfoldM; intros; apply group_container_past_guard
    |intros [m n]].
  apply stops_within_bind; [|done].
  apply stops_within_bmapM; intros; apply machine_element_past_guard.
Qed.

(** What [write] raises is a [ValueError] or a [TypeError]. *)
Lemma write_raises root refused e :
  write root refused = Raise e → e = ValueError ∨ e = TypeError.
Proof.
  unfold write. destruct (existsb _ _); [intros [= <-]; by left|].
  destruct refused; [intros [= <-]; by right|done].
Qed.

(** [serialize] raises the usage error exactly when the guard fires. *)
Lemma serialize_usage_error py σ me :
  serialize py σ me = Raise NotImplementedError
  ↔ truthy (Base.getMetaDataEntry me "base_file" (PyStr "")) = true
    ∧ Base.getMetaDataEntry me "base_file" (PyStr "") ≠ PyStr (_id me).
Proof.
  unfold serialize.
  destruct (build_cases py σ me) as [[Hguard ->]|[Hguard Hrest]]; simpl.
  - apply andb_true_iff in Hguard as [Ht Hne]. split; [intros _|done].
    split; [done|]. apply negb_true_iff, bool_decide_eq_false in Hne. congruence.
  - split.
    + destruct (build py σ me) as [root refused|e]; simpl in *.
      * intros [?|?]%write_raises; done.
      * intros [= ->]. by destruct Hrest.
    + intros [Ht Hne]. rewrite Ht in Hguard. simpl in Hguard.
      apply negb_false_iff, bool_decide_eq_true in Hguard. congruence.
Qed.

(** ** The guard of [serialize] *)

(** C2, as stated, fails: a [base_file] entry that is set to the empty
    string differs from the profile's id, yet [serialize] goes on and
    returns a document. *)
Lemma serialize_accepts_empty_base_file :
  _metadata pla_empty_base_file !! "base_file" = Some (PyStr "")
  ∧ PyStr "" ≠ PyStr (_id pla_empty_base_file)
  ∧ serialize sample_python sample_store pla_empty_base_file ≠ Raise NotImplementedError
  ∧ ∃ doc, serialize sample_python sample_store pla_empty_base_file = Ok doc.
Proof.
  split; [reflexivity|]. split; [discriminate|].
  assert (∃ doc, serialize sample_python sample_store pla_empty_base_file = Ok doc)
    as [doc Hdoc].
  { vm_compute. eexists. reflexivity. }
  split; [by rewrite Hdoc|by exists doc].
Qed.

(** C2, amended. A profile whose [base_file] entry holds a non-empty
    (truthy) value other than the profile's own id makes [serialize] raise
    the usage error, so no document at all comes back; a profile whose
    [base_file] is absent or equal to its own id never gets this error. *)
Theorem serialize_rejects_non_root py σ me :
  (∀ v, _metadata me !! "base_file" = Some v → truthy v = true →
        v ≠ PyStr (_id me) →
        serialize py σ me = Raise NotImplementedError
        ∧ ∀ doc, serialize py σ me ≠ Ok doc)
  ∧ (_metadata me !! "base_file" = None
     ∨ _metadata me !! "base_file" = Some (PyStr (_id me)) →
     serialize py σ me ≠ Raise NotImplementedError).
Proof.
  split.
  - intros v Hv Ht Hne.
    assert (serialize py σ me = Raise NotImplementedError) as ->; [|done].
    apply serialize_usage_error. unfold Base.getMetaDataEntry. by rewrite Hv.
  - intros Hroot Hraise. apply serialize_usage_error in Hraise as [Ht Hne].
    unfold Base.getMetaDataEntry in *. destruct Hroot as [Hv|Hv]; rewrite Hv in *.
    + done.
    + by apply Hne.
Qed.

Lemma serialize_rejects_non_root_witness :
  (serialize sample_python sample_store pla_ultimaker2 = Raise NotImplementedError
   ∧ ∀ doc, serialize sample_python sample_store pla_ultimaker2 ≠ Ok doc)
  ∧ serialize sample_python sample_store pla_root ≠ Raise NotImplementedError.
Proof.
  split.
  - apply (proj1 (serialize_rejects_non_root sample_python sample_store pla_ultimaker2)
             (PyStr "generic_pla")).
    + reflexivity.
    + reflexivity.
    + discriminate.
  - apply (proj2 (serialize_rejects_non_root sample_python sample_store pla_root)).
    left. reflexivity.
Defined.

(** ** Grouping the family by definition *)

Lemma setdefault_lookup {A} (m : gmap string A) k k' x :
  match m !! k with Some _ => m | None => <[k:=x]> m end !! k'
  = if decide (k = k') then Some (default x (m !! k)) else m !! k'.
Proof.
  destruct (m !! k) eqn:E; case_decide; subst;
    rewrite ?lookup_insert_eq, ?lookup_insert_ne; done.
Qed.

Lemma group_container_step σ m0 n0 h m1 n1 d :
  group_container σ (m0, n0) h = Ok (m1, n1) →
  d ≠ "fdmprinter" →
  m1 !! d
  = (if definition_is σ d h && negb (carries_variant σ h) then Some h
     else match m0 !! d with
          | Some h0 => Some h0
          | None => if definition_is σ d h then Some h else None
          end)
  ∧ ∀ v, (n1 !! d ≫= (.!! v))
         = if definition_is σ d h && variant_is σ v h then Some h
           else n0 !! d ≫= (.!! v).
Proof.
  intros Hstep Hd. unfold group_container in Hstep.
  unfold definition_is, carries_variant, variant_is.
  destruct (objects σ !! h) as [c|] eqn:Hc; cycle 1.
  { injection Hstep as <- <-. split; [by destruct (m0 !! d)|done]. }
  unfold definition_id_of in Hstep.
  destruct (_definition c) as [def|]; [|done]. cbn [mbind Result_bind] in Hstep.
  destruct (String.eqb_spec (def_id def) "fdmprinter") as [Hf|Hf].
  { injection Hstep as <- <-.
    destruct (String.eqb_spec (def_id def) d) as [<-|_]; [done|].
    split; [by destruct (m0 !! d)|done]. }
  set (variant := Base.getMetaDataEntry c "variant" PyNone) in *.
  destruct (String.eqb_spec (def_id def) d) as [<-|Hne]; cbn [andb].
  - destruct (truthy variant) eqn:Ht; cbn [negb].
    + destruct variant as [v0|]; [|done]. injection Hstep as <- <-. split.
      * rewrite setdefault_lookup, decide_True by done.
        by destruct (m0 !! def_id def).
      * intros v. rewrite lookup_insert_eq. cbn [mbind option_bind].
        rewrite setdefault_lookup, decide_True by done. cbn [default].
        destruct (decide (v0 = v)) as [->|Hv].
        -- by rewrite lookup_insert_eq, Ht, bool_decide_eq_true_2.
        -- rewrite lookup_insert_ne by done.
           rewrite bool_decide_eq_false_2 by congruence.
           rewrite andb_false_r.
           by destruct (n0 !! def_id def) as [nz|].
    + injection Hstep as <- <-. split.
      * by rewrite lookup_insert_eq.
      * intros v.
        assert (truthy (VScalar v) && bool_decide (variant = VScalar v) = false) as ->.
        { destruct (decide (variant = VScalar v)) as [<-|?].
          - by rewrite Ht.
          - by rewrite bool_decide_eq_false_2, andb_false_r. }
        rewrite setdefault_lookup, decide_True by done.
        by destruct (n0 !! def_id def) as [nz|].
  - assert (m1 !! d = m0 !! d ∧ n1 !! d = n0 !! d) as [-> ->].
    { destruct (truthy variant).
      - destruct variant as [v0|]; [|done]. injection Hstep as <- <-.
        rewrite lookup_insert_ne by done.
        by rewrite !setdefault_lookup, !decide_False by done.
      - injection Hstep as <- <-. rewrite lookup_insert_ne by done.
        by rewrite !setdefault_lookup, !decide_False by done. }
    split; [by destruct (m0 !! d)|done].
Qed.

Lemma group_containers_from σ l : ∀ m0 n0 mcm mnm d,
  rfoldM (group_container σ) (m0, n0) l = Ok (mcm, mnm) →
  d ≠ "fdmprinter" →
  mcm !! d
  = match list.last (List.filter (λ h, definition_is σ d h && negb (carries_variant σ h)) l) with
    | Some h => Some h
    | None =>
        match m0 !! d with
        | Some h0 => Some h0
        | None => head (List.filter (definition_is σ d) l)
        end
    end
  ∧ ∀ v, (mnm !! d ≫= (.!! v))
         = match list.last (List.filter (λ h, definition_is σ d h && variant_is σ v h) l) with
           | Some h => Some h
           | None => n0 !! d ≫= (.!! v)
           end.
Proof.
  induction l as [|h l IH]; intros m0 n0 mcm mnm d Hfold Hd.
  - injection Hfold as <- <-. simpl. split; [by destruct (m0 !! d)|done].
  - simpl in Hfold.
    destruct (group_container σ (m0, n0) h) as [[m1 n1]|] eqn:Hstep; [|done].
    destruct (IH _ _ _ _ d Hfold Hd) as [IHm IHn].
    destruct (group_container_step _ _ _ _ _ _ d Hstep Hd) as [Hm Hn].
    split.
    + rewrite IHm, Hm. simpl.
      destruct (definition_is σ d h) eqn:Hdef; simpl.
      * destruct (carries_variant σ h); simpl.
        -- by destruct (m0 !! d).
        -- rewrite last_cons. by repeat case_match.
      * by destruct (m0 !! d).
    + intros v. rewrite IHn, Hn. simpl.
      destruct (definition_is σ d h && variant_is σ v h); [|done].
      rewrite last_cons. by repeat case_match.
Qed.

(** C4, as stated, fails on both counts. Of two profiles without variant
    for the same printer, the later one (handle 2) ends up as the machine
    container, not the first (handle 1); and a profile that carries a
    variant (handle 1 of the second registry) is recorded in the machine
    map too, when it is the first of its printer. *)
Lemma grouping_later_plain_profile_overwrites :
  (group_containers twin_store
     (Registry.findInstanceContainers twin_store (Registry.by_GUID (GUID_of pla_root)))
   = Ok ({[ "ultimaker2" := 2 ]}, {[ "ultimaker2" := ∅ ]})
   ∧ head (List.filter (λ h, definition_is twin_store "ultimaker2" h
                             && negb (carries_variant twin_store h)) [0; 1; 2])
     = Some 1
   ∧ ({[ "ultimaker2" := 2 ]} : gmap string nat) !! "ultimaker2" ≠ Some 1)
  ∧ (group_containers hotend_only_store
       (Registry.findInstanceContainers hotend_only_store
          (Registry.by_GUID (GUID_of pla_root)))
     = Ok ({[ "ultimaker2" := 1 ]},
           {[ "ultimaker2" := {[ SStr "ultimaker2_0.4" := 1 ]} ]})
     ∧ carries_variant hotend_only_store 1 = true
     ∧ ({[ "ultimaker2" := 1 ]} : gmap string nat) !! "ultimaker2" = Some 1).
Proof.
  repeat split; try reflexivity. vm_compute. discriminate.
Qed.

(** C4, amended. When [serialize] has grouped the family members by
    definition id (other than [fdmprinter]): the entry of a variant in
    the nozzle map of a definition is the last profile found for that
    definition with that variant, a later profile with the same variant
    taking the place of an earlier one; the machine container of a
    definition is the last profile without variant found for it, so a
    later such profile overwrites the earlier one, and only when there is
    none is it the first profile found for the definition, which then
    carries a variant. *)
Theorem grouping_last_plain_profile_wins σ all_containers mcm mnm d :
  group_containers σ all_containers = Ok (mcm, mnm) →
  d ≠ "fdmprinter" →
  mcm !! d
  = match list.last (List.filter (λ h, definition_is σ d h && negb (carries_variant σ h))
                                 all_containers) with
    | Some h => Some h
    | None => head (List.filter (definition_is σ d) all_containers)
    end
  ∧ ∀ v, (mnm !! d ≫= (.!! v))
         = list.last (List.filter (λ h, definition_is σ d h && variant_is σ v h)
                                  all_containers).
Proof.
  intros Hgroup Hd.
  destruct (group_containers_from σ all_containers ∅ ∅ mcm mnm d Hgroup Hd) as [Hm Hn].
  split.
  - rewrite Hm. by rewrite lookup_empty.
  - intros v. rewrite Hn, lookup_empty.
    by destruct (list.last (List.filter
      (λ h, definition_is σ d h && variant_is σ v h) all_containers)).
Qed.

Lemma grouping_last_plain_profile_wins_witness :
  ({[ "ultimaker2" := 2 ]} : gmap string nat) !! "ultimaker2"
  = match list.last (List.filter (λ h, definition_is twin_store "ultimaker2" h
                                       && negb (carries_variant twin_store h))
                                 [0; 1; 2]) with
    | Some h => Some h
    | None => head (List.filter (definition_is twin_store "ultimaker2") [0; 1; 2])
    end
  ∧ ∀ v, (({[ "ultimaker2" := ∅ ]} : gmap string (gmap Scalar nat)) !! "ultimaker2"
          ≫= (.!! v))
         = list.last (List.filter (λ h, definition_is twin_store "ultimaker2" h
                                        && variant_is twin_store v h)
                                  [0; 1; 2]).
Proof.
  apply (grouping_last_plain_profile_wins twin_store [0; 1; 2]
           {[ "ultimaker2" := 2 ]} {[ "ultimaker2" := ∅ ]} "ultimaker2").
  - reflexivity.
  - discriminate.
Defined.

(** ** The pretty-printer keeps the skeleton *)

Lemma Element_ind' (P : Element → Prop) :
  (∀ tag attrib text tail children,
     Forall P children → P (Elem tag attrib text tail children)) →
  ∀ e, P e.
Proof.
  intros step. fix IH 1. intros [tag attrib text tail children].
  apply step. induction children as [|c cs IHcs]; constructor; [apply IH|exact IHcs].
Qed.

Lemma skeleton_set_tail x c : skeleton (ET.set_tail x c) = skeleton c.
Proof. by destruct c. Qed.

Lemma skeleton_retail_last i cs : map skeleton (retail_last i cs) = map skeleton cs.
Proof.
  induction cs as [|c cs IH]; [done|].
  destruct cs as [|c' cs].
  - simpl. destruct (blank (ET.tail c)); by rewrite ?skeleton_set_tail.
  - change (retail_last i (c :: c' :: cs)) with (c :: retail_last i (c' :: cs)).
    rewrite !map_cons. by rewrite IH.
Qed.

Lemma skeleton_indent e : ∀ level, skeleton (_indent e level) = skeleton e.
Proof.
  induction e as [tag attrib text tail children IH] using Element_ind'.
  intros level. destruct children as [|c cs].
  - simpl. by destruct (negb _ && _).
  - cbn [_indent]. set (i := newline +:+ repeat_string level "  ").
    set (cs' := retail_last i (map (λ c0, _indent c0 (S level)) (c :: cs))).
    assert (map skeleton cs' = map skeleton (c :: cs)) as Hcs.
    { unfold cs'. rewrite skeleton_retail_last, map_map. clear cs'.
      induction IH as [|x l Hx _ IHl]; [done|]. simpl. by rewrite Hx, IHl. }
    cbn [skeleton]. rewrite Hcs.
    destruct cs' as [|c1 cs1]; [done|]. done.
Qed.

Lemma skeleton_tag e : ET.tag (skeleton e) = ET.tag e.
Proof. by destruct e. Qed.

Lemma skeleton_attrib e : ET.attrib (skeleton e) = ET.attrib e.
Proof. by destruct e. Qed.

Lemma skeleton_children e : ET.children (skeleton e) = map skeleton (ET.children e).
Proof. by destruct e. Qed.

Lemma skeleton_children_named p e :
  ET.children_named p (skeleton e) = map skeleton (ET.children_named p e).
Proof.
  unfold ET.children_named. rewrite skeleton_children. destruct p as [t|]; [|done].
  induction (ET.children e) as [|c cs IH]; [done|].
  simpl. rewrite skeleton_tag, IH. by destruct (String.eqb (ET.tag c) t).
Qed.

Lemma skeleton_iterfind2 e a b :
  ET.iterfind2 (skeleton e) a b = map skeleton (ET.iterfind2 e a b).
Proof.
  unfold ET.iterfind2. rewrite skeleton_children_named.
  induction (ET.children_named (Some a) e) as [|c cs IH]; [done|].
  simpl. by rewrite map_app, skeleton_children_named, IH.
Qed.

(** Two elements with the same skeleton, one of them without children,
    have the same text. *)
Lemma skeleton_leaf s s0 :
  skeleton s = skeleton s0 → ET.children s0 = [] →
  ET.tag s = ET.tag s0 ∧ ET.attrib s = ET.attrib s0
  ∧ ET.text s = ET.text s0 ∧ ET.children s = [].
Proof.
  destruct s as [t a x tl cs], s0 as [t0 a0 x0 tl0 cs0]. simpl.
  intros Hs ->. simpl in Hs. destruct cs; [|done]. by injection Hs as -> -> ->.
Qed.

(** What follows from equal skeletons for the blocks below an element. *)
Lemma skeleton_eq_children_named p e e0 :
  skeleton e = skeleton e0 →
  map skeleton (ET.children_named p e) = map skeleton (ET.children_named p e0).
Proof. intros H. by rewrite <- !skeleton_children_named, H. Qed.

(** ** The shape of the built tree *)

Lemma filter_all {A} (f : A → bool) l :
  Forall (λ x, f x = true) l → List.filter f l = l.
Proof. induction 1 as [|x l Hx _ IH]; simpl; [done|]. by rewrite Hx, IH. Qed.

Lemma filter_none {A} (f : A → bool) l :
  Forall (λ x, f x = false) l → List.filter f l = [].
Proof. induction 1 as [|x l Hx _ IH]; simpl; [done|]. by rewrite Hx. Qed.

Lemma Forall_concat {A} (P : A → Prop) ls :
  Forall (Forall P) ls → Forall P (concat ls).
Proof. induction 1; simpl; [constructor|by apply Forall_app]. Qed.

Lemma rmapM_filter_Forall2 {A B} (f : A → Result (list B)) (keep : A → bool)
    (R : A → B → Prop) l rs :
  rmapM f l = Ok rs →
  (∀ a r, a ∈ l → f a = Ok r → if keep a then ∃ b, r = [b] ∧ R a b else r = []) →
  Forall2 R (List.filter keep l) (concat rs).
Proof.
  intros Hrs%rmapM_Ok. induction Hrs as [|a r l rs Ha _ IH]; intros Hf; simpl.
  - constructor.
  - specialize (Hf a r (list_elem_of_here _ _) Ha) as Har.
    assert (Forall2 R (List.filter keep l) (concat rs)) as Hrest.
    { apply IH. intros a' r' Hin. apply Hf. by apply list_elem_of_further. }
    destruct (keep a).
    + destruct Har as (b & -> & Hb). simpl. by constructor.
    + by subst r.
Qed.


Lemma bmapM_filter_Forall2 {A B} (f : A → Build (list B)) (keep : A → bool)
    (R : A → B → Prop) l rs refused :
  bmapM f l = Holds rs refused →
  (∀ a x r, a ∈ l → f a = Holds x r →
     if keep a then ∃ b, x = [b] ∧ R a b else x = []) →
  Forall2 R (List.filter keep l) (concat rs).
Proof.
  intros Hrs%bmapM_Forall2. induction Hrs as [|a x l rs [r Ha] _ IH]; intros Hf; simpl.
  - constructor.
  - specialize (Hf a x r (list_elem_of_here _ _) Ha) as Hax.
    assert (Forall2 R (List.filter keep l) (concat rs)) as Hrest.
    { apply IH. intros a' x' r' Hin. apply Hf. by apply list_elem_of_further. }
    destruct (keep a).
    + destruct Hax as (b & -> & Hb). simpl. by constructor.
    + by subst x.
Qed.

Lemma _addSettingElement_shape instance :
  Forall is_setting (_addSettingElement instance)
  ∧ map (λ s, (ET.get s "key", ET.text s)) (_addSettingElement instance)
    = match findKey __material_property_setting_map instance.1 with
      | Some key => [(Some key, Some (py_str (instance_value instance.2)))]
      | None => []
      end.
Proof.
  unfold _addSettingElement. destruct (findKey _ _) as [key|]; simpl.
  - split; [by repeat constructor|]. unfold ET.get. simpl.
    by rewrite lookup_singleton_eq.
  - by split.
Qed.

Lemma hotend_setting_elements_shape py container hotend :
  Forall is_setting (hotend_setting_elements py container hotend)
  ∧ map (λ s, (ET.get s "key", ET.text s)) (hotend_setting_elements py container hotend)
    = emitted_settings py (inherits_from container) hotend.
Proof.
  unfold hotend_setting_elements, emitted_settings.
  induction (Base.findInstances py hotend) as [|instance l [IH1 IH2]]; [by split|].
  simpl. rewrite map_app, IH2.
  destruct (_addSettingElement_shape instance) as [H1 H2].
  destruct (inherits_from container instance); simpl.
  - by split.
  - split; [by apply Forall_app|]. by rewrite H2.
Qed.

Lemma definition_id_of_targets c d :
  definition_id_of c = Ok d → String.eqb d "fdmprinter" = targets_fdmprinter c.
Proof.
  unfold definition_id_of, targets_fdmprinter.
  destruct (_definition c); [|done]. by intros [= <-].
Qed.

Lemma machine_setting_elements_shape py me container settings :
  machine_setting_elements py me container = Ok settings →
  Forall is_setting settings
  ∧ map (λ s, (ET.get s "key", ET.text s)) settings
    = emitted_settings py
        (λ instance, targets_fdmprinter me && inherits_from me instance) container.
Proof.
  unfold machine_setting_elements, emitted_settings.
  intros (elements & Hel & [= <-])%bind_Ok. apply rmapM_Ok in Hel.
  induction Hel as [|instance r l rs Hr _ [IH1 IH2]]; [by split|].
  simpl. rewrite map_app, IH2.
  apply bind_Ok in Hr as (d & Hd & Hr). apply definition_id_of_targets in Hd.
  rewrite Hd in Hr.
  destruct (_addSettingElement_shape instance) as [H1 H2].
  destruct (targets_fdmprinter me && inherits_from me instance); injection Hr as <-.
  - by split.
  - split; [by apply Forall_app|]. by rewrite H2.
Qed.

Lemma hotend_element_shape py σ container entry x r :
  hotend_element py σ container entry.2 = Holds x r →
  if bool_decide (is_Some (variant_container σ entry.2))
  then ∃ hb, x = [hb] ∧ hotend_block_for py σ container entry hb
  else x = [].
Proof.
  unfold hotend_element, hotend_block_for.
  destruct (objects σ !! entry.2) as [hotend|] eqn:Hh; cycle 1.
  { intros [= <- _]. unfold variant_container. by rewrite Hh. }
  destruct (Registry.findInstanceContainers _ _) as [|first rest] eqn:Hfind.
  { intros [= <- _]. unfold variant_container. rewrite Hh. simpl. by rewrite Hfind. }
  destruct (objects σ !! first) as [vc|] eqn:Hvc; cycle 1.
  { intros [= <- _]. unfold variant_container. rewrite Hh. simpl. rewrite Hfind.
    simpl. by rewrite Hvc. }
  assert (variant_container σ entry.2 = Some vc) as Hvariant.
  { unfold variant_container. rewrite Hh. simpl. rewrite Hfind. simpl. exact Hvc. }
  rewrite Hvariant, bool_decide_eq_true_2 by eauto.
  intros (id & r1 & r2 & Hid & [= <- <-] & ->)%bbind_Holds.
  assert (attribute_text py (_name vc) = id) as Hname.
  { unfold attribute_text. by rewrite Hid. }
  destruct (hotend_setting_elements_shape py container hotend) as [Hs1 Hs2].
  eexists. split; [done|]. exists hotend, vc.
  split; [done|]. split; [done|]. split; [done|].
  split; [rewrite Hname; apply lookup_singleton_eq|]. split; [exact Hs1|].
  unfold settings_of, ET.iterfind, ET.children_named, ET.node, ET.children.
  rewrite filter_all; [done|].
  eapply List.Forall_impl; [|exact Hs1]. by intros s [-> _].
Qed.

Lemma Forall2_Forall_r {A B} (R : A → B → Prop) (P : B → Prop) l k :
  Forall2 R l k → (∀ a b, R a b → P b) → Forall P k.
Proof. induction 1; intros HP; constructor; eauto. Qed.

Lemma machine_element_shape py σ me mnm entry x r :
  machine_element py σ me mnm entry = Holds x r →
  if bool_decide (is_Some (objects σ !! entry.2))
     && bool_decide (is_Some (findKey __product_id_map entry.1))
  then ∃ m, x = [m] ∧ machine_block_for py σ me mnm entry m
  else x = [].
Proof.
  unfold machine_element, machine_block_for. destruct entry as [d h]. cbn [fst snd].
  destruct (objects σ !! h) as [c|] eqn:Hc; cycle 1.
  { intros [= <- _]. by rewrite bool_decide_eq_false_2 by (by intros [? ?]). }
  rewrite bool_decide_eq_true_2 by eauto.
  destruct (findKey __product_id_map d) as [product|] eqn:Hproduct; cycle 1.
  { intros [= <- _]. by rewrite bool_decide_eq_false_2 by (by intros [? ?]). }
  rewrite bool_decide_eq_true_2 by eauto. cbn [andb].
  destruct (_definition c) as [definition|]; [|done].
  intros (manufacturer & r1 & r2 & _
          & (settings & r3 & r4 & [Hsettings _]%step_Holds
             & (hotends & r5 & r6 & Hhotends & [= <- <-] & _)%bbind_Holds & _)%bbind_Holds
          & _)%bbind_Holds.
  apply machine_setting_elements_shape in Hsettings as [Hs1 Hs2].
  assert (Forall2 (hotend_block_for py σ c)
            (emitted_hotends py σ (default ∅ (mnm !! d))) (concat hotends)) as Hblocks.
  { apply (bmapM_filter_Forall2 _ _ _ _ _ _ Hhotends).
    intros a x0 r0 _ Ha. by eapply hotend_element_shape. }
  assert (Forall (λ hb, ET.tag hb = "hotend") (concat hotends)) as Htags.
  { eapply Forall2_Forall_r; [exact Hblocks|].
    by intros a b (? & ? & _ & _ & ? & _). }
  eexists. split; [done|]. exists c, product.
  split; [done|]. split; [done|]. split; [done|].
  assert (ET.iterfind
            (ET.node "machine" ∅
               (ET.node "machine_identifier"
                  (<["manufacturer":=manufacturer]> {["product" := product]}) []
                :: settings ++ concat hotends)) "setting" = settings) as Hiter.
  { unfold ET.iterfind, ET.children_named, ET.node, ET.children.
    cbn [List.filter ET.tag String.eqb Ascii.eqb Bool.eqb].
    rewrite List.filter_app, (filter_all _ settings), (filter_none _ (concat hotends)).
    - by rewrite app_nil_r.
    - eapply List.Forall_impl; [|exact Htags]. by intros hb ->.
    - eapply List.Forall_impl; [|exact Hs1]. by intros s [-> _]. }
  split; [|split; [by rewrite Hiter|split; [unfold settings_of; by rewrite Hiter|]]].
  - unfold product_of, ET.find, ET.children_named, ET.node, ET.children.
    cbn [List.filter ET.tag String.eqb Ascii.eqb Bool.eqb head mbind option_bind].
    unfold ET.get, ET.attrib. rewrite lookup_insert_ne by done.
    apply lookup_singleton_eq.
  - unfold hotend_blocks, ET.iterfind, ET.children_named, ET.node, ET.children.
    cbn [List.filter ET.tag String.eqb Ascii.eqb Bool.eqb].
    rewrite List.filter_app, (filter_none _ settings), (filter_all _ (concat hotends)).
    + exact Hblocks.
    + eapply List.Forall_impl; [|exact Htags]. by intros hb ->.
    + eapply List.Forall_impl; [|exact Hs1]. by intros s [-> _].
Qed.
(** ** From the built tree to the pretty-printed one *)

Lemma settings_transfer l : ∀ l0,
  map skeleton l = map skeleton l0 → Forall is_setting l0 →
  Forall is_setting l
  ∧ map (λ s, (ET.get s "key", ET.text s)) l
    = map (λ s, (ET.get s "key", ET.text s)) l0.
Proof.
  induction l as [|s l IH]; intros [|s0 l0] Hmap Hl0; try done.
  injection Hmap as Hs Hl. inversion_clear Hl0 as [|? ? [Htag Hleaf] Hl0'].
  destruct (IH _ Hl Hl0') as [IH1 IH2].
  destruct (skeleton_leaf _ _ Hs Hleaf) as (Ht & Ha & Hx & Hc).
  split.
  - constructor; [|done]. split; congruence.
  - rewrite !map_cons, IH2. unfold ET.get. by rewrite Ha, Hx.
Qed.

Lemma product_of_skeleton m : product_of (skeleton m) = product_of m.
Proof.
  unfold product_of, ET.find. rewrite skeleton_children_named.
  destruct (ET.children_named _ m) as [|i rest]; [done|].
  simpl. unfold ET.get. by rewrite skeleton_attrib.
Qed.

Lemma Forall2_skeleton_transfer {A} (R : A → Element → Prop) xs l0 : ∀ l,
  Forall2 R xs l0 → map skeleton l = map skeleton l0 →
  (∀ x b b0, skeleton b = skeleton b0 → R x b0 → R x b) →
  Forall2 R xs l.
Proof.
  intros l H. revert l. induction H as [|x b0 xs l0 Hx _ IH]; intros [|b l] Hmap HR;
    try done.
  injection Hmap as Hb Hl. constructor; [by eapply HR|by apply IH].
Qed.

Lemma hotend_block_for_skeleton py σ container entry hb hb0 :
  skeleton hb = skeleton hb0 →
  hotend_block_for py σ container entry hb0 → hotend_block_for py σ container entry hb.
Proof.
  intros Hsk (hotend & vc & Hh & Hvc & Htag & Hid & Hleaves & Hsettings).
  exists hotend, vc. split; [done|]. split; [done|].
  assert (map skeleton (ET.children hb) = map skeleton (ET.children hb0)) as Hch.
  { by rewrite <- !skeleton_children, Hsk. }
  destruct (settings_transfer _ _ Hch Hleaves) as [Hl1 Hl2].
  split; [by rewrite <- (skeleton_tag hb), Hsk, skeleton_tag|].
  split; [unfold ET.get in *; by rewrite <- (skeleton_attrib hb), Hsk, skeleton_attrib|].
  split; [done|]. rewrite <- Hsettings.
  unfold settings_of, ET.iterfind, ET.children_named.
  rewrite !filter_all; [done| |].
  - eapply List.Forall_impl; [|exact Hleaves]. by intros s [-> _].
  - eapply List.Forall_impl; [|exact Hl1]. by intros s [-> _].
Qed.

Lemma machine_block_for_skeleton py σ me mnm entry m m0 :
  skeleton m = skeleton m0 →
  machine_block_for py σ me mnm entry m0 → machine_block_for py σ me mnm entry m.
Proof.
  intros Hsk (c & product & Hc & Hproduct & Htag & Hp & Hleaves & Hsettings & Hhotends).
  exists c, product. split; [done|]. split; [done|].
  split; [by rewrite <- (skeleton_tag m), Hsk, skeleton_tag|].
  split; [by rewrite <- (product_of_skeleton m), Hsk, product_of_skeleton|].
  destruct (settings_transfer (ET.iterfind m "setting") (ET.iterfind m0 "setting"))
    as [Hl1 Hl2]; [by apply skeleton_eq_children_named|done|].
  split; [done|]. split; [unfold settings_of in *; by rewrite Hl2|].
  eapply Forall2_skeleton_transfer; [exact Hhotends| |].
  - by apply skeleton_eq_children_named.
  - intros x b b0. apply hotend_block_for_skeleton.
Qed.

Lemma metadata_block_tag py me metadata properties r :
  metadata_block py me = Holds (metadata, properties) r → ET.tag metadata = "metadata".
Proof.
  unfold metadata_block, pop.
  intros (? & ? & ? & _ & (? & ? & ? & _ & (? & ? & ? & _
            & (? & ? & ? & _ & [= <- _] & _)%bbind_Holds & _)%bbind_Holds
            & _)%bbind_Holds & _)%bbind_Holds.
  done.
Qed.

Lemma properties_block_tag py v properties r :
  properties_block py v = Holds properties r → ET.tag properties = "properties".
Proof.
  destruct v as [|d]; [done|]. simpl. by intros (? & ? & ? & _ & [= <- _] & _)%bbind_Holds.
Qed.

Lemma global_settings_are_settings py me :
  Forall is_setting (concat (map _addSettingElement (Base.findInstances py me))).
Proof.
  apply Forall_concat, Forall_map, Forall_forall. intros instance _.
  apply _addSettingElement_shape.
Qed.

(** What [build] went through when it holds a tree. *)
Lemma build_Holds py σ me root refused :
  build py σ me = Holds root refused →
  ∃ metadata pv r1 properties r2 d mcm mnm machines r3,
    metadata_block py me = Holds (metadata, pv) r1
    ∧ properties_block py pv = Holds properties r2
    ∧ definition_id_of me = Ok d
    ∧ group_containers σ
        (Registry.findInstanceContainers σ (Registry.by_GUID (GUID_of me)))
      = Ok (mcm, mnm)
    ∧ bmapM (machine_element py σ me mnm) (items py mcm) = Holds machines r3
    ∧ refused = r1 || r2 || r3
    ∧ root
      = ET.node "fdmmaterial" {[ "xmlns" := um_namespace ]}
          [metadata; properties;
           ET.node "settings" ∅
             ((if String.eqb d "fdmprinter"
               then concat (map _addSettingElement (Base.findInstances py me))
               else []) ++ concat machines)].
Proof.
  unfold build. destruct (_ && _); [done|].
  intros ([metadata pv] & r1 & r1' & Hmeta
          & (properties & r2 & r2' & Hprops
             & (d & r3 & r3' & [Hd ->]%step_Holds
                & ([mcm mnm] & r4 & r4' & [Hgroup ->]%step_Holds
                   & (machines & r5 & r5' & Hmachines & [= <- <-] & ->)%bbind_Holds
                   & ->)%bbind_Holds
                & ->)%bbind_Holds
             & ->)%bbind_Holds
          & ->)%bbind_Holds.
  exists metadata, pv, r1, properties, r2, d, mcm, mnm, machines, r5.
  repeat (split; [done|]). split; [|done].
  by rewrite !orb_false_r, !orb_false_l, orb_assoc.
Qed.

(** The machine blocks of the built tree, one per emitted entry of the
    machine map, in the order the map yields them. *)
Lemma build_blocks py σ me root refused :
  build py σ me = Holds root refused →
  ∃ mcm mnm,
    group_containers σ
      (Registry.findInstanceContainers σ (Registry.by_GUID (GUID_of me)))
    = Ok (mcm, mnm)
    ∧ Forall2 (machine_block_for py σ me mnm) (emitted_machines py σ mcm)
        (machine_blocks root).
Proof.
  intros (metadata & pv & r1 & properties & r2 & d & mcm & mnm & machines & r3
          & Hmeta & Hprops & Hd & Hgroup & Hmachines & _ & ->)%build_Holds.
  exists mcm, mnm. split; [done|].
  assert (Forall2 (machine_block_for py σ me mnm) (emitted_machines py σ mcm)
            (concat machines)) as Hblocks.
  { apply (bmapM_filter_Forall2 _ _ _ _ _ _ Hmachines).
    intros a x r _ Ha. by eapply machine_element_shape. }
  assert (Forall (λ m, ET.tag m = "machine") (concat machines)) as Htags.
  { eapply Forall2_Forall_r; [exact Hblocks|].
    by intros a b (? & ? & _ & _ & ? & _). }
  apply metadata_block_tag in Hmeta. apply properties_block_tag in Hprops.
  unfold machine_blocks, ET.iterfind2, ET.children_named, ET.node, ET.children.
  cbn [List.filter]. rewrite Hmeta, Hprops.
  cbn [List.filter ET.tag String.eqb Ascii.eqb Bool.eqb map concat].
  rewrite app_nil_r, List.filter_app, (filter_all _ (concat machines)).
  - rewrite filter_none; [done|].
    assert (Forall is_setting
              (if String.eqb d "fdmprinter"
               then concat (map _addSettingElement (Base.findInstances py me)) else []))
      as Hglobal.
    { destruct (String.eqb d "fdmprinter"); [apply global_settings_are_settings|done]. }
    eapply List.Forall_impl; [|exact Hglobal]. by intros s [-> _].
  - eapply List.Forall_impl; [|exact Htags]. by intros m ->.
Qed.

(** A document comes back when the builder held a tree that [write]
    accepts: no tag with an unclosed brace, no object to refuse. *)
Lemma serialize_Ok py σ me doc :
  serialize py σ me = Ok doc
  ↔ ∃ root, build py σ me = Holds root false
            ∧ existsb unclosed_brace (tags (_indent root 0)) = false
            ∧ doc = _indent root 0.
Proof.
  unfold serialize, write. split.
  - destruct (build py σ me) as [root refused|e]; [|done].
    destruct (existsb _ _) eqn:Htags; [done|]. destruct refused; [done|].
    intros [= <-]. by exists root.
  - intros (root & -> & -> & ->). done.
Qed.

(** The same for the document [serialize] returns. *)
Lemma serialize_blocks py σ me doc :
  serialize py σ me = Ok doc →
  ∃ mcm mnm,
    group_containers σ
      (Registry.findInstanceContainers σ (Registry.by_GUID (GUID_of me)))
    = Ok (mcm, mnm)
    ∧ Forall2 (machine_block_for py σ me mnm) (emitted_machines py σ mcm)
        (machine_blocks doc).
Proof.
  intros (root & Hroot & _ & ->)%serialize_Ok.
  destruct (build_blocks _ _ _ _ _ Hroot) as (mcm & mnm & Hgroup & Hblocks).
  exists mcm, mnm. split; [done|].
  eapply Forall2_skeleton_transfer; [exact Hblocks| |].
  - unfold machine_blocks. by rewrite <- !skeleton_iterfind2, skeleton_indent.
  - intros x b b0. apply machine_block_for_skeleton.
Qed.

(** ** Delta suppression *)

Lemma findKey_elem dictionary value key :
  findKey dictionary value = Some key → (key, value) ∈ dictionary.
Proof.
  induction dictionary as [|[k v] rest IH]; simpl; [done|].
  destruct (String.eqb_spec v value) as [->|_].
  - intros [= ->]. apply list_elem_of_here.
  - intros H. apply list_elem_of_further. by apply IH.
Qed.

(** No XML setting name stands for two internal keys. *)
Lemma setting_name_unique key k k' :
  findKey __material_property_setting_map k = Some key →
  findKey __material_property_setting_map k' = Some key →
  k = k'.
Proof.
  intros H%findKey_elem H'%findKey_elem.
  apply list_elem_of_In in H, H'. simpl in H, H'.
  repeat (destruct H as [H|H]; [injection H as <- <-|]); try done;
    repeat (destruct H' as [H'|H']; [by injection H' as ?|]); done.
Qed.

Lemma sample_python_yields_each_once : yields_each_once sample_python.
Proof. by intros K EqK CK V d. Qed.

(** What a [dict] yields is what it holds. *)
Lemma elem_of_items py {K} `{Countable K} {V} (d : gmap K V) k v :
  yields_each_once py → (k, v) ∈ items py d ↔ d !! k = Some v.
Proof. intros Hpy. by rewrite (Hpy K _ _ V d), elem_of_map_to_list. Qed.

(** A skipped instance leaves no [<setting>] with its name. *)
Lemma emitted_settings_omits py skip c k i key :
  yields_each_once py →
  _instances c !! k = Some i →
  skip (k, i) = true →
  findKey __material_property_setting_map k = Some key →
  key ∉ omap fst (emitted_settings py skip c).
Proof.
  intros Hpy Hk Hskip Hkey. unfold emitted_settings, Base.findInstances.
  assert (∀ instance, instance ∈ items py (_instances c) →
            instance.1 = k → instance = (k, i)) as Huniq.
  { intros [k' i'] Hin%(elem_of_items py); [|done]. simpl. intros ->. congruence. }
  induction (items py (_instances c)) as [|instance l IH].
  - apply not_elem_of_nil.
  - rewrite map_cons, concat_cons, omap_app. intros [Hin|Hin]%elem_of_app.
    + destruct (skip instance) eqn:Hs; [by apply elem_of_nil in Hin|].
      destruct (findKey _ instance.1) as [key'|] eqn:Hkey';
        [|by apply elem_of_nil in Hin].
      apply list_elem_of_singleton in Hin as ->.
      assert (instance = (k, i)) as ->.
      { apply Huniq; [apply list_elem_of_here|]. by eapply setting_name_unique. }
      congruence.
    + revert Hin. apply IH. intros x Hx. apply Huniq. by apply list_elem_of_further.
Qed.

(** Against itself, a container has every setting inherited. *)
Lemma emitted_settings_self py c :
  yields_each_once py → emitted_settings py (inherits_from c) c = [].
Proof.
  intros Hpy. unfold emitted_settings, Base.findInstances.
  assert (Forall (λ instance, inherits_from c instance = true)
            (items py (_instances c))) as Hall.
  { apply Forall_forall. intros [k i] Hin%list_elem_of_In%(elem_of_items py); [|done].
    unfold inherits_from, Base.getInstance, Base.getProperty, instance_value. simpl.
    rewrite Hin. rewrite bool_decide_eq_true_2 by eauto.
    by rewrite bool_decide_eq_true_2. }
  induction Hall as [|instance l Hi _ IH]; [done|]. simpl. by rewrite Hi.
Qed.

(** C3, as stated, fails: the root below is not bound to [fdmprinter], so
    the machine profile's print temperature goes out under [<machine>]
    although the root has the same key with the same value. *)
Lemma inherited_setting_emitted_for_custom_root :
  ∃ doc m,
    serialize sample_python custom_store custom_root = Ok doc
    ∧ machine_blocks doc = [m]
    ∧ _instances custom_ultimaker2 !! "material_print_temperature" = Some (value_of "210")
    ∧ inherits_from custom_root ("material_print_temperature", value_of "210") = true
    ∧ findKey __material_property_setting_map "material_print_temperature"
      = Some "print temperature"
    ∧ "print temperature" ∈ setting_keys m.
Proof.
  eexists _, _. split; [vm_compute; reflexivity|].
  split; [vm_compute; reflexivity|].
  split; [reflexivity|]. split; [reflexivity|]. split; [reflexivity|].
  vm_compute. constructor.
Qed.

(** C3, amended. In the document [serialize] returns, the [<machine>]
    blocks stand one for one for the machine containers that have a
    product name, and the [<hotend>] blocks of each for its hotend
    profiles whose variant is registered. When the root is bound to
    [fdmprinter], a setting of the machine container that the root has
    with the same value has no [<setting>] under [<machine>]; and a
    setting of a hotend profile that its machine container has with the
    same value has none under [<hotend>]. This holds in whatever order
    the dicts yield their items. *)
Theorem inherited_settings_not_emitted py σ me doc :
  yields_each_once py →
  serialize py σ me = Ok doc →
  ∃ mcm mnm,
    group_containers σ
      (Registry.findInstanceContainers σ (Registry.by_GUID (GUID_of me)))
    = Ok (mcm, mnm)
    ∧ Forall2
        (λ (entry : string * nat) (m : Element),
           ∃ container,
             objects σ !! entry.2 = Some container
             ∧ product_of m = findKey __product_id_map entry.1
             ∧ (targets_fdmprinter me = true →
                ∀ k i key,
                  _instances container !! k = Some i →
                  inherits_from me (k, i) = true →
                  findKey __material_property_setting_map k = Some key →
                  key ∉ setting_keys m)
             ∧ Forall2
                 (λ (nozzle : Scalar * nat) (hb : Element),
                    ∃ hotend,
                      objects σ !! nozzle.2 = Some hotend
                      ∧ ∀ k i key,
                          _instances hotend !! k = Some i →
                          inherits_from container (k, i) = true →
                          findKey __material_property_setting_map k = Some key →
                          key ∉ setting_keys hb)
                 (emitted_hotends py σ (default ∅ (mnm !! entry.1)))
                 (hotend_blocks m))
        (emitted_machines py σ mcm) (machine_blocks doc).
Proof.
  intros Hpy Hdoc.
  destruct (serialize_blocks _ _ _ _ Hdoc) as (mcm & mnm & Hgroup & Hblocks).
  exists mcm, mnm. split; [done|].
  eapply list.Forall2_impl; [exact Hblocks|].
  intros entry m (c & product & Hc & Hproduct & _ & Hp & _ & Hsettings & Hhotends).
  exists c. split; [done|]. split; [congruence|]. split.
  - intros Hfdm k i key Hk Hinh Hkey. unfold setting_keys. rewrite Hsettings.
    eapply emitted_settings_omits; [done|exact Hk| |exact Hkey].
    simpl. by rewrite Hfdm, Hinh.
  - eapply list.Forall2_impl; [exact Hhotends|].
    intros nozzle hb (hotend & vc & Hh & _ & _ & _ & _ & Hhs).
    exists hotend. split; [done|].
    intros k i key Hk Hinh Hkey. unfold setting_keys. rewrite Hhs.
    by eapply emitted_settings_omits.
Qed.

Lemma inherited_settings_not_emitted_witness :
  ∃ doc,
    serialize sample_python sample_store pla_root = Ok doc
    ∧ ∃ mcm mnm,
        group_containers sample_store
          (Registry.findInstanceContainers sample_store
             (Registry.by_GUID (GUID_of pla_root)))
        = Ok (mcm, mnm)
        ∧ Forall2
            (λ (entry : string * nat) (m : Element),
               ∃ container,
                 objects sample_store !! entry.2 = Some container
                 ∧ product_of m = findKey __product_id_map entry.1
                 ∧ (targets_fdmprinter pla_root = true →
                    ∀ k i key,
                      _instances container !! k = Some i →
                      inherits_from pla_root (k, i) = true →
                      findKey __material_property_setting_map k = Some key →
                      key ∉ setting_keys m)
                 ∧ Forall2
                     (λ (nozzle : Scalar * nat) (hb : Element),
                        ∃ hotend,
                          objects sample_store !! nozzle.2 = Some hotend
                          ∧ ∀ k i key,
                              _instances hotend !! k = Some i →
                              inherits_from container (k, i) = true →
                              findKey __material_property_setting_map k = Some key →
                              key ∉ setting_keys hb)
                     (emitted_hotends sample_python sample_store
                        (default ∅ (mnm !! entry.1)))
                     (hotend_blocks m))
            (emitted_machines sample_python sample_store mcm) (machine_blocks doc).
Proof.
  eexists. split; [vm_compute; reflexivity|].
  apply (inherited_settings_not_emitted sample_python sample_store pla_root).
  - by intros K EqK CK V d.
  - vm_compute. reflexivity.
Defined.

(** ** A printer whose profiles all carry a variant *)

(** The entries of a nozzle map that get a [<hotend>] block. *)
Lemma elem_of_emitted_hotends py σ nozzles v h :
  yields_each_once py →
  (v, h) ∈ emitted_hotends py σ nozzles
  ↔ nozzles !! v = Some h ∧ is_Some (variant_container σ h).
Proof.
  intros Hpy. unfold emitted_hotends.
  rewrite list_elem_of_In, filter_In, <- list_elem_of_In, (elem_of_items py) by done.
  cbn [snd]. by rewrite bool_decide_eq_true.
Qed.

(** C9, as stated, fails in its last part. The family below has one
    Ultimaker 2 profile, which carries a variant: it is the machine
    container and its settings go out at machine scope, but its own
    [<hotend>] block comes out empty. *)
Lemma own_hotend_block_is_empty :
  ∃ doc m hb,
    Registry.findInstanceContainers hotend_only_store
      (Registry.by_GUID (GUID_of pla_root)) = [0; 1]
    ∧ carries_variant hotend_only_store 1 = true
    ∧ serialize sample_python hotend_only_store pla_root = Ok doc
    ∧ machine_blocks doc = [m]
    ∧ settings_of m = [ (Some "heated bed temperature", Some "60");
                        (Some "retraction amount", Some "6.5") ]
    ∧ hotend_blocks m = [hb]
    ∧ ET.get hb "id" = Some "0.4 mm"
    ∧ ET.children hb = [].
Proof.
  eexists _, _, _. split; [reflexivity|]. split; [reflexivity|].
  split; [vm_compute; reflexivity|]. split; [vm_compute; reflexivity|].
  split; [vm_compute; reflexivity|]. split; [vm_compute; reflexivity|].
  split; vm_compute; reflexivity.
Qed.

(** C9, amended. If every family member bound to the definition [d]
    (other than [fdmprinter]) carries a variant, the first of them is the
    machine container of [d]. When [d] has a product name, the document
    [serialize] returns has the [<machine>] block of that profile; its
    [<setting>] children are the profile's settings that have an XML
    name, less those an [fdmprinter] root has with the same value; its
    [<hotend>] blocks stand one for one for the entries of the nozzle map
    of [d] whose variant is registered. The profile is such an entry
    exactly when it is the last profile of [d] found with its variant and
    that variant is registered, and its own [<hotend>] block then has no
    children: each of its settings is the machine container's own. *)
Theorem all_varianted_first_is_machine_container py σ me doc d h1 c1 :
  yields_each_once py →
  serialize py σ me = Ok doc →
  d ≠ "fdmprinter" →
  let family := Registry.findInstanceContainers σ (Registry.by_GUID (GUID_of me)) in
  (∀ h, h ∈ family → definition_is σ d h = true → carries_variant σ h = true) →
  head (List.filter (definition_is σ d) family) = Some h1 →
  objects σ !! h1 = Some c1 →
  ∃ mcm mnm,
    group_containers σ family = Ok (mcm, mnm)
    ∧ mcm !! d = Some h1
    ∧ ∀ product,
        findKey __product_id_map d = Some product →
        ∃ m, m ∈ machine_blocks doc
          ∧ product_of m = Some product
          ∧ settings_of m
            = emitted_settings py
                (λ instance, targets_fdmprinter me && inherits_from me instance) c1
          ∧ Forall2
              (λ (nozzle : Scalar * nat) (hb : Element),
                 hotend_block_for py σ c1 nozzle hb
                 ∧ (nozzle.2 = h1 → ET.children hb = []))
              (emitted_hotends py σ (default ∅ (mnm !! d)))
              (hotend_blocks m)
          ∧ ∀ v, (v, h1) ∈ emitted_hotends py σ (default ∅ (mnm !! d))
                 ↔ list.last (List.filter
                                (λ h, definition_is σ d h && variant_is σ v h) family)
                   = Some h1
                   ∧ is_Some (variant_container σ h1).
Proof.
  intros Hpy Hdoc Hd family Hall Hfirst Hc1.
  destruct (serialize_blocks _ _ _ _ Hdoc) as (mcm & mnm & Hgroup & Hblocks).
  fold family in Hgroup.
  exists mcm, mnm. split; [done|].
  destruct (group_containers_from σ family ∅ ∅ mcm mnm d Hgroup Hd) as [Hm Hn].
  assert (mcm !! d = Some h1) as Hmcm.
  { rewrite Hm. rewrite filter_none, lookup_empty; [done|].
    apply list.Forall_forall. intros h Hh.
    destruct (definition_is σ d h) eqn:Hdef; [|done].
    by rewrite (Hall h Hh Hdef). }
  split; [done|]. intros product Hproduct.
  assert ((d, h1) ∈ emitted_machines py σ mcm) as Hin.
  { unfold emitted_machines. apply list_elem_of_In, filter_In. split.
    - by apply list_elem_of_In, (elem_of_items py).
    - cbn [fst snd]. rewrite Hc1, Hproduct.
      by rewrite !bool_decide_eq_true_2 by eauto. }
  apply list_elem_of_lookup in Hin as [n Hn'].
  destruct (list.Forall2_lookup_l _ _ _ _ _ Hblocks Hn') as (m & Hm' & Hblock).
  destruct Hblock as (c & product' & Hc & Hproduct' & _ & Hp & _ & Hsettings & Hhotends).
  cbn [fst snd] in *. assert (c = c1) as -> by congruence.
  assert (product' = product) as -> by congruence.
  exists m. split; [by eapply list_elem_of_lookup_2|].
  split; [done|]. split; [done|]. split.
  - eapply list.Forall2_impl; [exact Hhotends|].
    intros nozzle hb Hhb. split; [done|]. intros Hself.
    destruct Hhb as (hotend & vc & Hh & _ & _ & _ & Hleaves & Hhs).
    rewrite Hself, Hc1 in Hh. injection Hh as <-.
    rewrite emitted_settings_self in Hhs by done.
    unfold settings_of, ET.iterfind, ET.children_named in Hhs.
    rewrite filter_all in Hhs.
    + by apply map_eq_nil in Hhs.
    + eapply List.Forall_impl; [|exact Hleaves]. by intros s [-> _].
  - intros v. rewrite elem_of_emitted_hotends by done.
    assert (default ∅ (mnm !! d) !! v = mnm !! d ≫= (.!! v)) as ->.
    { by destruct (mnm !! d). }
    rewrite Hn, lookup_empty. cbn [mbind option_bind].
    destruct (list.last (List.filter (λ h, definition_is σ d h && variant_is σ v h)
                            family)); reflexivity.
Qed.

Lemma all_varianted_first_is_machine_container_witness :
  ∃ doc,
    serialize sample_python hotend_only_store pla_root = Ok doc
    ∧ ∃ mcm mnm,
        group_containers hotend_only_store
          (Registry.findInstanceContainers hotend_only_store
             (Registry.by_GUID (GUID_of pla_root)))
        = Ok (mcm, mnm)
        ∧ mcm !! "ultimaker2" = Some 1
        ∧ ∀ product,
            findKey __product_id_map "ultimaker2" = Some product →
            ∃ m, m ∈ machine_blocks doc
              ∧ product_of m = Some product
              ∧ settings_of m
                = emitted_settings sample_python
                    (λ instance, targets_fdmprinter pla_root
                                 && inherits_from pla_root instance)
                    pla_ultimaker2_04
              ∧ Forall2
                  (λ (nozzle : Scalar * nat) (hb : Element),
                     hotend_block_for sample_python hotend_only_store
                       pla_ultimaker2_04 nozzle hb
                     ∧ (nozzle.2 = 1 → ET.children hb = []))
                  (emitted_hotends sample_python hotend_only_store
                     (default ∅ (mnm !! "ultimaker2")))
                  (hotend_blocks m)
              ∧ ∀ v, (v, 1) ∈ emitted_hotends sample_python hotend_only_store
                                (default ∅ (mnm !! "ultimaker2"))
                     ↔ list.last
                         (List.filter
                            (λ h, definition_is hotend_only_store "ultimaker2" h
                                  && variant_is hotend_only_store v h)
                            (Registry.findInstanceContainers hotend_only_store
                               (Registry.by_GUID (GUID_of pla_root))))
                       = Some 1
                       ∧ is_Some (variant_container hotend_only_store 1).
Proof.
  eexists. split; [vm_compute; reflexivity|].
  apply (all_varianted_first_is_machine_container sample_python hotend_only_store
           pla_root _ "ultimaker2" 1 pla_ultimaker2_04).
  - by intros K EqK CK V d.
  - vm_compute. reflexivity.
  - discriminate.
  - intros h Hh Hdef. change (h ∈ [0; 1]) in Hh.
    apply list_elem_of_In in Hh. simpl in Hh.
    destruct Hh as [<-|[<-|[]]]; [discriminate Hdef|reflexivity].
  - reflexivity.
  - reflexivity.
Defined.

(** ** [deserialize] and incomplete [<name>] blocks *)

Lemma run_bind {A B} (m : Run A) (k : A → Run B) σ :
  (m ≫= k) σ
  = match m σ with
    | (σ', Ok a) => k a σ'
    | (σ', Raise e) => (σ', Raise e)
    end.
Proof. reflexivity. Qed.

Lemma text_of_cases element σ :
  match element with
  | Some e => text_of element σ = (σ, Ok (text_value (ET.text e)))
  | None => text_of element σ = (σ, Raise AttributeError)
  end.
Proof. by destruct element. Qed.

(** The [<name>] block is read in full, or an attribute error stops it. *)
Lemma read_name_cases self entry σ :
  if bool_decide (is_Some (ET.find entry (um "brand")))
     && bool_decide (is_Some (ET.find entry (um "material")))
     && bool_decide (is_Some (ET.find entry (um "color")))
  then ∃ σ', read_name self entry σ = (σ', Ok ())
  else ∃ σ', read_name self entry σ = (σ', Raise AttributeError).
Proof.
  unfold read_name.
  destruct (ET.find entry (um "material")) as [material|]; cycle 1.
  { rewrite andb_false_r. simpl. eauto. }
  destruct (ET.find entry (um "brand")) as [brand|]; cycle 1.
  { simpl. eauto. }
  destruct (ET.find entry (um "color")) as [color|]; cycle 1.
  { simpl. eauto. }
  rewrite !bool_decide_eq_true_2 by eauto. simpl. eauto.
Qed.

Lemma read_metadata_entry_cases self entry σ :
  if incomplete_name entry
  then ∃ σ', read_metadata_entry self entry σ = (σ', Raise AttributeError)
  else ∃ σ', read_metadata_entry self entry σ = (σ', Ok ()).
Proof.
  unfold read_metadata_entry, incomplete_name.
  destruct (String.eqb (_tag_without_namespace entry) "name"); cbn [andb].
  - pose proof (read_name_cases self entry σ) as H.
    by destruct (_ && _ && _).
  - unfold lift. eauto.
Qed.

Lemma for_each_metadata_raises self entries : ∀ σ,
  existsb incomplete_name entries = true →
  ∃ σ', for_each entries (read_metadata_entry self) σ = (σ', Raise AttributeError).
Proof.
  induction entries as [|entry entries IH]; intros σ Hbad; [done|].
  cbn [for_each]. rewrite run_bind.
  pose proof (read_metadata_entry_cases self entry σ) as Hentry.
  cbn [existsb] in Hbad.
  destruct (incomplete_name entry).
  - destruct Hentry as [σ' ->]. eauto.
  - destruct Hentry as [σ' ->]. by apply IH.
Qed.

(** C10. A parsed document with a [<name>] block in its metadata that
    lacks one of [<brand>], [<material>], [<color>] makes [deserialize]
    end in an attribute error (the [text] of a missing element), whatever
    else the document holds; so a [deserialize] that returns has found
    all three in every [<name>] block. *)
Theorem deserialize_incomplete_name_raises (py_float : string → bool) self data σ :
  (has_incomplete_name data = true →
   ∃ σ', deserialize py_float self data σ = (σ', Raise AttributeError))
  ∧ (∀ σ', deserialize py_float self data σ = (σ', Ok ()) →
           has_incomplete_name data = false).
Proof.
  assert (has_incomplete_name data = true →
          ∃ σ', deserialize py_float self data σ = (σ', Raise AttributeError)) as Hraise.
  { intros Hbad. unfold deserialize.
    rewrite run_bind. cbn [lift]. rewrite run_bind. cbn [lift]. rewrite run_bind.
    destruct (for_each_metadata_raises self _
                (Base.addMetaDataEntry self "status" (PyStr "unknown")
                   (Base.addMetaDataEntry self "type" (PyStr "material") σ)) Hbad)
      as [σ' ->].
    eauto. }
  split; [done|]. intros σ' Hok.
  destruct (has_incomplete_name data); [|done].
  destruct Hraise as [σ'' Hraise]; [done|]. congruence.
Qed.

Lemma deserialize_incomplete_name_raises_witness :
  ∃ σ', deserialize plain_decimal 5 colourless_document sample_store_with_fresh
        = (σ', Raise AttributeError).
Proof.
  apply (proj1 (deserialize_incomplete_name_raises plain_decimal 5 colourless_document
                  sample_store_with_fresh)).
  reflexivity.
Defined.

(** ** The round trip: tags *)

Lemma rfind_after c p s :
  rfind c s = (-1)%Z → rfind c (p +:+ String c s) = Z.of_nat (String.length p).
Proof.
  intros Hs. induction p as [|a p IH].
  - change (rfind c ("" +:+ String c s))
      with (let r := rfind c s in
            if (0 <=? r)%Z then (r + 1)%Z
            else if Ascii.eqb c c then 0%Z else (-1)%Z).
    rewrite Hs. cbn. by rewrite Ascii.eqb_refl.
  - change (rfind c (String a p +:+ String c s))
      with (let r := rfind c (p +:+ String c s) in
            if (0 <=? r)%Z then (r + 1)%Z
            else if Ascii.eqb a c then 0%Z else (-1)%Z).
    rewrite IH. cbn zeta.
    destruct (Z.leb_spec 0 (Z.of_nat (String.length p))); cbn [String.length]; lia.
Qed.

Lemma string_drop_app p s : string_drop (String.length p) (p +:+ s) = s.
Proof. induction p as [|a p IH]; [done|]. exact IH. Qed.

Lemma _tag_without_namespace_um k attrib text tail children :
  tag_safe k = true →
  _tag_without_namespace (Elem (um k) attrib text tail children) = k.
Proof.
  unfold tag_safe, _tag_without_namespace. intros Hk%Z.eqb_eq.
  cbn [ET.tag].
  change (um k) with (("{" +:+ um_namespace) +:+ String "}" k).
  rewrite rfind_after by done.
  replace (Z.to_nat (Z.of_nat (String.length ("{" +:+ um_namespace)) + 1))
    with (String.length (("{" +:+ um_namespace) +:+ "}")) by (vm_compute; reflexivity).
  change (("{" +:+ um_namespace) +:+ String "}" k)
    with ((("{" +:+ um_namespace) +:+ "}") +:+ k).
  apply string_drop_app.
Qed.

Lemma eqb_um a b : String.eqb (um a) (um b) = String.eqb a b.
Proof. reflexivity. Qed.


(** ** The pretty-printer on its own *)


Lemma all_space_app s t : all_space (s +:+ t) = all_space s && all_space t.
Proof.
  induction s as [|a s IH]; [done|].
  change (all_space (String a s +:+ t)) with (is_space a && all_space (s +:+ t)).
  rewrite IH. cbn [all_space]. by rewrite andb_assoc.
Qed.

Lemma all_space_repeat level : all_space (repeat_string level "  ") = true.
Proof.
  induction level as [|n IH]; [done|].
  cbn [repeat_string]. by rewrite all_space_app, IH.
Qed.

Lemma blank_indentation level :
  blank (Some (newline +:+ repeat_string level "  ")) = true
  ∧ blank (Some ((newline +:+ repeat_string level "  ") +:+ "  ")) = true.
Proof.
  cbn [blank]. rewrite !all_space_app, all_space_repeat. by split.
Qed.

Lemma set_tail_set_tail x y e : ET.set_tail x (ET.set_tail y e) = ET.set_tail x e.
Proof. by destruct e. Qed.

Lemma tail_set_tail x e : ET.tail (ET.set_tail x e) = x.
Proof. by destruct e. Qed.

(** Below the top level, the tail an element comes with only decides the
    tail it leaves with. *)
Lemma _indent_set_tail t e level :
  _indent (ET.set_tail t e) (S level)
  = ET.set_tail (if blank t then Some (newline +:+ repeat_string (S level) "  ") else t)
      (_indent e (S level)).
Proof.
  destruct e as [tag attrib text tail [|c cs]].
  - cbn [ET.set_tail _indent Nat.eqb negb andb].
    by destruct (blank t), (blank tail).
  - cbn [ET.set_tail _indent]. done.
Qed.

Lemma retail_last_cons i x l :
  l ≠ [] → retail_last i (x :: l) = x :: retail_last i l.
Proof. by destruct l. Qed.

Lemma retail_last_nonempty i l : l ≠ [] → retail_last i l ≠ [].
Proof.
  destruct l as [|x [|y l]]; [done|done|]. intros _.
  by rewrite retail_last_cons.
Qed.

Lemma retail_last_stable level ds :
  Forall (λ d, _indent d (S level) = d) ds →
  retail_last (newline +:+ repeat_string level "  ")
    (map (λ c, _indent c (S level))
       (retail_last (newline +:+ repeat_string level "  ") ds))
  = retail_last (newline +:+ repeat_string level "  ") ds.
Proof.
  set (i := newline +:+ repeat_string level "  ").
  induction 1 as [|d ds Hd Hds IH]; [done|].
  destruct ds as [|d2 ds].
  - change (retail_last i [d])
      with [if blank (ET.tail d) then ET.set_tail (Some i) d else d].
    destruct (blank (ET.tail d)) eqn:Hblank.
    + rewrite map_cons, _indent_set_tail, Hd.
      assert (blank (Some i) = true) as -> by apply blank_indentation.
      cbn [map].
      change (retail_last i [?x])
        with [if blank (ET.tail x) then ET.set_tail (Some i) x else x].
      rewrite tail_set_tail.
      assert (blank (Some (newline +:+ repeat_string (S level) "  ")) = true) as ->
        by apply blank_indentation.
      by rewrite set_tail_set_tail.
    + rewrite map_cons, Hd. cbn [map].
      change (retail_last i [d])
        with [if blank (ET.tail d) then ET.set_tail (Some i) d else d].
      by rewrite Hblank.
  - assert (d2 :: ds ≠ []) as Hne by done.
    rewrite (retail_last_cons i d) by done.
    rewrite map_cons, Hd, retail_last_cons.
    + by rewrite IH.
    + intros Hnil%map_eq_nil. by apply (retail_last_nonempty i) in Hne.
Qed.

(** X3. Pretty-printing a pretty-printed tree changes nothing: the
    indentation [_indent] writes is white space, which it overwrites with
    itself, and text that is not white space is never touched. *)
Theorem _indent_idempotent e : ∀ level,
  _indent (_indent e level) level = _indent e level.
Proof.
  induction e as [tag attrib text tail children IH] using Element_ind'.
  intros level. destruct children as [|c cs].
  - cbn [_indent]. destruct (negb (level =? 0)%nat && blank tail) eqn:Hcond.
    + cbn [_indent]. apply andb_true_iff in Hcond as [-> _].
      by assert (blank (Some (newline +:+ repeat_string level "  ")) = true) as ->
        by apply blank_indentation.
    + cbn [_indent]. by rewrite Hcond.
  - set (i := newline +:+ repeat_string level "  ").
    set (g := λ c, _indent c (S level)).
    assert (_indent (Elem tag attrib text tail (c :: cs)) level
            = Elem tag attrib (if blank text then Some (i +:+ "  ") else text)
                (if blank tail then Some i else tail)
                (retail_last i (map g (c :: cs)))) as -> by done.
    destruct (retail_last i (map g (c :: cs))) as [|d ds] eqn:Hkids.
    { by apply (retail_last_nonempty i) in Hkids. }
    cbn [_indent]. fold i. fold g.
    f_equal.
    + destruct (blank text) eqn:Htext; [|by rewrite Htext].
      by assert (blank (Some (i +:+ "  ")) = true) as -> by apply blank_indentation.
    + destruct (blank tail) eqn:Htail; [|by rewrite Htail].
      by assert (blank (Some i) = true) as -> by apply blank_indentation.
    + rewrite <- Hkids. apply retail_last_stable.
      apply Forall_map. eapply list.Forall_impl; [exact IH|]. intros x Hx. apply Hx.
Qed.

(** ** Tags and the static tables *)

Lemma string_drop_after p c s :
  string_drop (S (String.length p)) (p +:+ String c s) = s.
Proof. induction p as [|a p IH]; [done|]. exact IH. Qed.

(** X4. A tag the parser spells [{namespace}local] comes back as
    [local], whatever the namespace, as long as the local name holds no
    closing brace. *)
Theorem _tag_without_namespace_strips_namespace ns local attrib text tail children :
  tag_safe local = true →
  _tag_without_namespace
    (Elem ("{" +:+ ns +:+ "}" +:+ local) attrib text tail children)
  = local.
Proof.
  unfold tag_safe, _tag_without_namespace. intros Hk%Z.eqb_eq.
  cbn [ET.tag].
  change ("{" +:+ ns +:+ "}" +:+ local) with (String "{" ns +:+ String "}" local).
  rewrite rfind_after by done.
  replace (Z.to_nat (Z.of_nat (String.length (String "{" ns)) + 1))
    with (S (String.length (String "{" ns))) by lia.
  apply string_drop_after.
Qed.

Lemma _tag_without_namespace_strips_namespace_witness :
  _tag_without_namespace
    (Elem ("{" +:+ um_namespace +:+ "}" +:+ "adhesion_info") ∅ (Some "Use glue") None [])
  = "adhesion_info".
Proof.
  apply (_tag_without_namespace_strips_namespace um_namespace "adhesion_info").
  reflexivity.
Defined.

Lemma rfind_drop c s :
  rfind c (string_drop (Z.to_nat (rfind c s + 1)) s) = (-1)%Z.
Proof.
  induction s as [|a s IH]; [done|].
  cbn [rfind]. destruct (Z.leb_spec 0 (rfind c s)) as [Hr|Hr].
  - replace (Z.to_nat (rfind c s + 1 + 1)) with (S (Z.to_nat (rfind c s + 1))) by lia.
    exact IH.
  - replace (Z.to_nat (rfind c s + 1)) with O in IH by lia.
    cbn [string_drop] in IH.
    destruct (Ascii.eqb a c) eqn:Hac.
    + exact IH.
    + change (Z.to_nat (-1 + 1)) with O. cbn [string_drop rfind].
      rewrite IH, Hac. done.
Qed.

Lemma string_drop_suffix n : ∀ s, ∃ p, s = p +:+ string_drop n s.
Proof.
  induction n as [|n IH]; intros s.
  - by exists "".
  - destruct s as [|a s]; [by exists ""|].
    destruct (IH s) as [p Hp]. exists (String a p).
    cbn [string_drop]. change (String a p +:+ ?t) with (String a (p +:+ t)).
    by rewrite <- Hp.
Qed.

(** X5. Whatever the tag, [_tag_without_namespace] returns an end piece
    of it that holds no closing brace. *)
Theorem _tag_without_namespace_brace_free_suffix element :
  tag_safe (_tag_without_namespace element) = true
  ∧ ∃ prefix, ET.tag element = prefix +:+ _tag_without_namespace element.
Proof.
  unfold tag_safe, _tag_without_namespace. split.
  - apply Z.eqb_eq, rfind_drop.
  - apply string_drop_suffix.
Qed.

Lemma table_get_elem dictionary k v :
  NoDup (dictionary.*1) →
  table_get dictionary k = Some v ↔ (k, v) ∈ dictionary.
Proof.
  induction dictionary as [|[k0 v0] rest IH]; intros Hnodup.
  - cbn [table_get]. rewrite elem_of_nil. by split.
  - rewrite fmap_cons in Hnodup. apply list.NoDup_cons in Hnodup as [Hk0 Hrest].
    cbn [table_get]. rewrite elem_of_cons.
    destruct (String.eqb_spec k0 k) as [->|Hne].
    + split.
      * intros [= ->]. by left.
      * intros [[= ->]|Hin]; [done|].
        exfalso. apply Hk0. apply list_elem_of_fmap. by exists (k, v).
    + rewrite (IH Hrest). split; [by right|].
      intros [[= -> ->]|Hin]; done.
Qed.

Lemma findKey_elem_iff dictionary k v :
  NoDup (dictionary.*2) →
  findKey dictionary v = Some k ↔ (k, v) ∈ dictionary.
Proof.
  induction dictionary as [|[k0 v0] rest IH]; intros Hnodup.
  - cbn [findKey]. rewrite elem_of_nil. by split.
  - rewrite fmap_cons in Hnodup. apply list.NoDup_cons in Hnodup as [Hv0 Hrest].
    cbn [findKey]. rewrite elem_of_cons.
    destruct (String.eqb_spec v0 v) as [->|Hne].
    + split.
      * intros [= ->]. by left.
      * intros [[= ->]|Hin]; [done|].
        exfalso. apply Hv0. apply list_elem_of_fmap. by exists (k, v).
    + rewrite (IH Hrest). split; [by right|].
      intros [[= -> ->]|Hin]; done.
Qed.

Lemma material_map_NoDup :
  NoDup (__material_property_setting_map.*1)
  ∧ NoDup (__material_property_setting_map.*2).
Proof. split; apply (bool_decide_unpack _); vm_compute; exact I. Qed.

Lemma product_map_NoDup :
  NoDup (__product_id_map.*1) ∧ NoDup (__product_id_map.*2).
Proof. split; apply (bool_decide_unpack _); vm_compute; exact I. Qed.

(** X6. Both static tables are one-to-one, so the lookup by value that
    [serialize] does ([findKey]) and the lookup by key that [deserialize]
    does undo each other: an XML setting name stands for the internal key
    that is written under that name, and a product name for the
    definition id that is written as that product. *)
Theorem tables_invert :
  (∀ name key,
     table_get __material_property_setting_map name = Some key
     ↔ findKey __material_property_setting_map key = Some name)
  ∧ (∀ product definition_id,
       table_get __product_id_map product = Some definition_id
       ↔ findKey __product_id_map definition_id = Some product).
Proof.
  split; intros a b.
  - rewrite table_get_elem, findKey_elem_iff by apply material_map_NoDup. done.
  - rewrite table_get_elem, findKey_elem_iff by apply product_map_NoDup. done.
Qed.


Lemma omap_cons {A B} (f : A → option B) a l :
  omap f (a :: l) = match f a with Some b => b :: omap f l | None => omap f l end.
Proof. reflexivity. Qed.

(** ** What the family-wide setters leave alone *)

Lemma store_eq σ σ' :
  objects σ = objects σ' →
  instance_containers σ = instance_containers σ' →
  definition_containers σ = definition_containers σ' →
  σ = σ'.
Proof. destruct σ, σ'. cbn. by intros -> -> ->. Qed.

Lemma sweep_length f l : ∀ σ, length (objects (sweep f σ l)) = length (objects σ).
Proof.
  induction l as [|h l IH]; intros σ; [done|].
  unfold sweep in *. cbn [foldl]. rewrite IH. apply length_alter.
Qed.

(** A search by GUID sees the registry and the GUID entries only. *)
Lemma family_ext σ σ' guid :
  instance_containers σ' = instance_containers σ →
  (∀ h, GUID_of <$> objects σ' !! h = GUID_of <$> objects σ !! h) →
  Registry.findInstanceContainers σ' (Registry.by_GUID guid)
  = Registry.findInstanceContainers σ (Registry.by_GUID guid).
Proof.
  intros Hreg Hguid. unfold Registry.findInstanceContainers. rewrite Hreg.
  apply filter_ext. intros h. specialize (Hguid h).
  destruct (objects σ' !! h) as [c'|], (objects σ !! h) as [c|]; try done.
  injection Hguid as Hg. unfold Registry.by_GUID.
  fold (GUID_of c') (GUID_of c). by rewrite Hg.
Qed.

(** [setReadOnly] as one pass over the profile and its family. *)
Lemma setReadOnly_unfold σ self me b :
  objects σ !! self = Some me →
  setReadOnly self b σ
  = sweep (with_read_only b) (modify self (with_read_only b) σ)
      (Registry.findInstanceContainers σ (Registry.by_GUID (GUID_of me))).
Proof.
  intros Hme. unfold setReadOnly, Base.setReadOnly. rewrite Hme.
  rewrite modify_lookup, decide_True, Hme by done. cbn [fmap option_fmap option_map].
  change (foldl _ ?s ?l) with (sweep (with_read_only b) s l).
  change (GUID_of (with_read_only b me)) with (GUID_of me).
  rewrite (family_ext σ (modify self (with_read_only b) σ)); [done|done|].
  intros h. rewrite modify_lookup. case_decide; [|done].
  by destruct (objects σ !! h).
Qed.

Lemma setReadOnly_lookup σ self me b k :
  objects σ !! self = Some me →
  objects (setReadOnly self b σ) !! k
  = if decide (k = self
               ∨ k ∈ Registry.findInstanceContainers σ (Registry.by_GUID (GUID_of me)))
    then with_read_only b <$> objects σ !! k
    else objects σ !! k.
Proof.
  intros Hme. rewrite (setReadOnly_unfold _ _ _ _ Hme).
  rewrite sweep_lookup by apply with_read_only_idem. rewrite modify_lookup.
  destruct (decide (self = k)) as [->|Hne].
  - rewrite (decide_True (P := k = k ∨ _)) by (by left).
    case_decide; [|done]. by destruct (objects σ !! k).
  - case_decide.
    + by rewrite decide_True by (by right).
    + by rewrite decide_False by (by intros [?|?]).
Qed.

(** X14. [setReadOnly] writes one flag and nothing else: the registry
    and the definitions are as before, no object appears or goes, every
    container is what it was up to its read-only flag, and a container
    other than the profile that is not registered, or that carries
    another GUID, is not touched at all. *)
Theorem setReadOnly_frame σ self me (b : bool) :
  objects σ !! self = Some me →
  let σ' := setReadOnly self b σ in
  instance_containers σ' = instance_containers σ
  ∧ definition_containers σ' = definition_containers σ
  ∧ length (objects σ') = length (objects σ)
  ∧ ∀ h c, objects σ !! h = Some c →
      ∃ c', objects σ' !! h = Some c'
        ∧ with_read_only (_read_only c) c' = c
        ∧ (h ≠ self →
           h ∉ instance_containers σ ∨ GUID_of c ≠ GUID_of me →
           c' = c).
Proof.
  intros Hme σ'. subst σ'. split; [|split; [|split]].
  - by rewrite (setReadOnly_unfold _ _ _ _ Hme), sweep_registry.
  - by rewrite (setReadOnly_unfold _ _ _ _ Hme), sweep_definitions.
  - rewrite (setReadOnly_unfold _ _ _ _ Hme), sweep_length. apply length_alter.
  - intros h c Hc. rewrite (setReadOnly_lookup _ _ _ _ _ Hme), Hc.
    case_decide as Hin.
    + eexists. split; [done|]. split; [by destruct c|].
      intros Hne Hout. exfalso. destruct Hin as [->|Hin]; [done|].
      apply elem_of_findInstanceContainers in Hin as (Hreg & c0 & Hc0 & Hguid).
      rewrite Hc in Hc0. injection Hc0 as <-.
      apply bool_decide_eq_true in Hguid. by destruct Hout.
    + exists c. split; [done|]. split; [by destruct c|done].
Qed.

Lemma setReadOnly_frame_witness :
  let σ' := setReadOnly 1 true sample_store in
  instance_containers σ' = instance_containers sample_store
  ∧ definition_containers σ' = definition_containers sample_store
  ∧ length (objects σ') = length (objects sample_store)
  ∧ ∀ h c, objects sample_store !! h = Some c →
      ∃ c', objects σ' !! h = Some c'
        ∧ with_read_only (_read_only c) c' = c
        ∧ (h ≠ 1 →
           h ∉ instance_containers sample_store ∨ GUID_of c ≠ GUID_of pla_ultimaker2 →
           c' = c).
Proof.
  apply (setReadOnly_frame sample_store 1 pla_ultimaker2 true). reflexivity.
Defined.

(** X15. The last [setReadOnly] wins: the flag it writes does not change
    who the family is, so setting it twice on a profile leaves the store
    as setting it once to the second value; in particular a locked
    family is unlocked by [setReadOnly(False)], which no read-only check
    guards. *)
Theorem setReadOnly_last_wins σ self (b1 b2 : bool) :
  setReadOnly self b2 (setReadOnly self b1 σ) = setReadOnly self b2 σ.
Proof.
  destruct (objects σ !! self) as [me|] eqn:Hme; cycle 1.
  { assert (setReadOnly self b1 σ = σ) as ->; [|done].
    unfold setReadOnly. by rewrite Hme. }
  set (σ1 := setReadOnly self b1 σ).
  assert (instance_containers σ1 = instance_containers σ) as Hreg.
  { unfold σ1. by rewrite (setReadOnly_unfold _ _ _ _ Hme), sweep_registry. }
  assert (definition_containers σ1 = definition_containers σ) as Hdefs.
  { unfold σ1. by rewrite (setReadOnly_unfold _ _ _ _ Hme), sweep_definitions. }
  assert (objects σ1 !! self = Some (with_read_only b1 me)) as Hme1.
  { unfold σ1. rewrite (setReadOnly_lookup _ _ _ _ _ Hme), Hme.
    by rewrite decide_True by (by left). }
  assert (Registry.findInstanceContainers σ1
            (Registry.by_GUID (GUID_of (with_read_only b1 me)))
          = Registry.findInstanceContainers σ (Registry.by_GUID (GUID_of me))) as Hfam.
  { change (GUID_of (with_read_only b1 me)) with (GUID_of me).
    apply family_ext; [done|]. intros h. unfold σ1.
    rewrite (setReadOnly_lookup _ _ _ _ _ Hme).
    case_decide; [|done]. by destruct (objects σ !! h). }
  apply store_eq.
  - apply list_eq. intros k.
    rewrite (setReadOnly_lookup _ _ _ _ _ Hme1), Hfam.
    unfold σ1. rewrite !(setReadOnly_lookup _ _ _ _ _ Hme).
    case_decide; [|done]. by destruct (objects σ !! k).
  - rewrite (setReadOnly_unfold _ _ _ _ Hme1), (setReadOnly_unfold _ _ _ _ Hme).
    by rewrite !sweep_registry.
  - rewrite (setReadOnly_unfold _ _ _ _ Hme1), (setReadOnly_unfold _ _ _ _ Hme).
    by rewrite !sweep_definitions.
Qed.

(** [setMetaDataEntry] on a writable profile as one pass over the profile
    and the family it belongs to once the entry is written. *)
Lemma setMetaDataEntry_unfold σ self me key value :
  objects σ !! self = Some me → _read_only me = false →
  let m := <[key := value]> (_metadata me) in
  let σ2 := modify self (receive_metadata key value m) σ in
  setMetaDataEntry self key value σ
  = sweep (receive_metadata key value m) σ2
      (Registry.findInstanceContainers σ2
         (Registry.by_GUID (default PyNone (m !! "GUID")))).
Proof.
  intros Hme Hro m σ2. unfold setMetaDataEntry, Base.setMetaDataEntry, Base.setName.
  rewrite Hme, Hro.
  assert ((if String.eqb key "material"
           then modify self (with_name value)
                  (modify self (λ c, with_metadata (<[key:=value]> (_metadata c)) c) σ)
           else modify self (λ c, with_metadata (<[key:=value]> (_metadata c)) c) σ)
          = σ2) as ->.
  { unfold σ2, receive_metadata, modify. cbn [objects].
    destruct (String.eqb key "material").
    - rewrite list_alter_alter_eq. f_equal.
      apply list_alter_ext; [|done]. intros c Hc.
      rewrite Hme in Hc. by injection Hc as <-.
    - f_equal. apply list_alter_ext; [|done]. intros c Hc.
      rewrite Hme in Hc. by injection Hc as <-. }
  assert (objects σ2 !! self = Some (receive_metadata key value m me)) as Hme2.
  { unfold σ2. by rewrite modify_lookup, decide_True, Hme by done. }
  rewrite Hme2.
  rewrite (propagate_metadata_sweep self key value m _ σ2 _ Hme2)
    by apply receive_metadata_metadata.
  unfold GUID_of, Base.getMetaDataEntry. by rewrite receive_metadata_metadata.
Qed.

Lemma receive_metadata_keeps key value m c :
  let c' := receive_metadata key value m c in
  _id c' = _id c ∧ _definition c' = _definition c ∧ _instances c' = _instances c
  ∧ _read_only c' = _read_only c ∧ _dirty c' = _dirty c
  ∧ (key ≠ "material" → _name c' = _name c).
Proof.
  unfold receive_metadata. destruct (String.eqb_spec key "material"); by repeat split.
Qed.

(** X16. [setMetaDataEntry] on a writable profile touches metadata and
    names only: the registry and the definitions are as before, no
    object appears or goes, every container keeps its id, definition,
    instances and flags, and (unless the key is [material]) its name; a
    container other than the profile that is not registered, or whose
    GUID is not the one the profile has after the write, is not touched
    at all. So a profile whose GUID entry is rewritten leaves its old
    family as it was. *)
Theorem setMetaDataEntry_frame σ self me key value :
  objects σ !! self = Some me →
  _read_only me = false →
  let σ' := setMetaDataEntry self key value σ in
  let guid := default PyNone (<[key := value]> (_metadata me) !! "GUID") in
  instance_containers σ' = instance_containers σ
  ∧ definition_containers σ' = definition_containers σ
  ∧ length (objects σ') = length (objects σ)
  ∧ ∀ h c, objects σ !! h = Some c →
      ∃ c', objects σ' !! h = Some c'
        ∧ _id c' = _id c ∧ _definition c' = _definition c
        ∧ _instances c' = _instances c
        ∧ _read_only c' = _read_only c ∧ _dirty c' = _dirty c
        ∧ (key ≠ "material" → _name c' = _name c)
        ∧ (h ≠ self →
           h ∉ instance_containers σ ∨ GUID_of c ≠ guid →
           c' = c).
Proof.
  intros Hme Hro σ' guid. subst σ'.
  rewrite (setMetaDataEntry_unfold _ _ _ _ _ Hme Hro). cbn zeta. fold guid.
  set (m := <[key := value]> (_metadata me)).
  set (σ2 := modify self (receive_metadata key value m) σ).
  split; [by rewrite sweep_registry|]. split; [by rewrite sweep_definitions|].
  split; [rewrite sweep_length; apply length_alter|].
  intros h c Hc. rewrite sweep_lookup by apply receive_metadata_idem.
  assert (objects σ2 !! h
          = if decide (self = h) then receive_metadata key value m <$> Some c
            else Some c) as ->.
  { unfold σ2. by rewrite modify_lookup, Hc. }
  destruct (receive_metadata_keeps key value m c) as (? & ? & ? & ? & ? & ?).
  case_decide as Hin; case_decide as Hself; cbn [fmap option_fmap option_map].
  - eexists. split; [done|]. rewrite receive_metadata_idem.
    repeat (split; [done|]). congruence.
  - eexists. split; [done|]. repeat (split; [done|]).
    intros _ Hout. exfalso.
    apply elem_of_findInstanceContainers in Hin as (Hreg & c0 & Hc0 & Hguid).
    unfold σ2 in Hc0. rewrite modify_lookup, decide_False, Hc in Hc0 by done.
    injection Hc0 as <-. apply bool_decide_eq_true in Hguid. by destruct Hout.
  - eexists. split; [done|]. repeat (split; [done|]). congruence.
  - exists c. by repeat split.
Qed.

Lemma setMetaDataEntry_frame_witness :
  let σ' := setMetaDataEntry 1 "GUID" (PyStr "guid-abs") sample_store in
  let guid :=
    default PyNone (<["GUID" := PyStr "guid-abs"]> (_metadata pla_ultimaker2) !! "GUID") in
  instance_containers σ' = instance_containers sample_store
  ∧ definition_containers σ' = definition_containers sample_store
  ∧ length (objects σ') = length (objects sample_store)
  ∧ ∀ h c, objects sample_store !! h = Some c →
      ∃ c', objects σ' !! h = Some c'
        ∧ _id c' = _id c ∧ _definition c' = _definition c
        ∧ _instances c' = _instances c
        ∧ _read_only c' = _read_only c ∧ _dirty c' = _dirty c
        ∧ ("GUID" ≠ "material" → _name c' = _name c)
        ∧ (h ≠ 1 →
           h ∉ instance_containers sample_store ∨ GUID_of c ≠ guid →
           c' = c).
Proof.
  apply (setMetaDataEntry_frame sample_store 1 pla_ultimaker2 "GUID" (PyStr "guid-abs")).
  - reflexivity.
  - reflexivity.
Defined.

(** X17. Whatever the key, [setMetaDataEntry] on a writable profile
    leaves the profile, and every registered container whose GUID is the
    one the profile has after the write, with one and the same metadata
    map: the profile's old map with the entry written. When the key is
    [GUID] itself, that is the family the profile joins, whose members
    lose their own metadata to the newcomer's. *)
Theorem setMetaDataEntry_shares_metadata σ self me key value h c :
  objects σ !! self = Some me →
  _read_only me = false →
  objects σ !! h = Some c →
  h = self
  ∨ (h ∈ instance_containers σ
     ∧ GUID_of c = default PyNone (<[key := value]> (_metadata me) !! "GUID")) →
  ∃ c', objects (setMetaDataEntry self key value σ) !! h = Some c'
        ∧ _metadata c' = <[key := value]> (_metadata me).
Proof.
  intros Hme Hro Hc Hfam.
  rewrite (setMetaDataEntry_unfold _ _ _ _ _ Hme Hro). cbn zeta.
  set (m := <[key := value]> (_metadata me)).
  set (σ2 := modify self (receive_metadata key value m) σ).
  rewrite sweep_lookup by apply receive_metadata_idem.
  assert (objects σ2 !! h
          = if decide (self = h) then receive_metadata key value m <$> Some c
            else Some c) as ->.
  { unfold σ2. by rewrite modify_lookup, Hc. }
  destruct (decide (self = h)) as [->|Hne].
  - case_decide; eexists; (split; [done|]);
      by rewrite ?receive_metadata_idem, receive_metadata_metadata.
  - destruct Hfam as [->|[Hreg Hguid]]; [done|].
    rewrite decide_True.
    + eexists. split; [done|]. apply receive_metadata_metadata.
    + apply elem_of_findInstanceContainers. split; [done|]. exists c.
      unfold σ2. rewrite modify_lookup, decide_False by done. split; [done|].
      by apply bool_decide_eq_true.
Qed.

Lemma setMetaDataEntry_shares_metadata_witness :
  ∃ c', objects (setMetaDataEntry 1 "GUID" (PyStr "guid-abs") sample_store) !! 4
        = Some c'
        ∧ _metadata c' = <["GUID" := PyStr "guid-abs"]> (_metadata pla_ultimaker2).
Proof.
  apply (setMetaDataEntry_shares_metadata sample_store 1 pla_ultimaker2
           "GUID" (PyStr "guid-abs") 4 abs_root).
  - reflexivity.
  - reflexivity.
  - reflexivity.
  - right. split; [|reflexivity]. apply list_elem_of_In. simpl. tauto.
Defined.

(** [setProperty] on a writable profile as one pass over the profile and
    its family. *)
Lemma setProperty_unfold σ self me key property_name property_value :
  objects σ !! self = Some me → _read_only me = false →
  setProperty self key property_name property_value σ
  = sweep (with_dirty true)
      (Base.setProperty self key property_name property_value σ)
      (Registry.findInstanceContainers σ (Registry.by_GUID (GUID_of me))).
Proof.
  intros Hme Hro. unfold setProperty. rewrite Hme, Hro.
  unfold Base.setProperty at 1. rewrite modify_lookup, decide_True, Hme by done.
  cbn [fmap option_fmap option_map].
  change (foldl _ ?s ?l) with (sweep (with_dirty true) s l).
  rewrite (family_ext σ (Base.setProperty self key property_name property_value σ));
    [done|done|].
  intros h. unfold Base.setProperty. rewrite modify_lookup. case_decide; [|done].
  by destruct (objects σ !! h).
Qed.

(** X18. [setProperty] on a writable profile writes into that profile
    and marks its family, and nothing else: the registry and the
    definitions are as before, no object appears or goes, every other
    container is what it was up to its dirty flag, and a container that
    is not registered, or that carries another GUID, is not touched at
    all (it is not marked dirty either). *)
Theorem setProperty_frame σ self me key property_name property_value :
  objects σ !! self = Some me →
  _read_only me = false →
  let σ' := setProperty self key property_name property_value σ in
  instance_containers σ' = instance_containers σ
  ∧ definition_containers σ' = definition_containers σ
  ∧ length (objects σ') = length (objects σ)
  ∧ ∀ h c, objects σ !! h = Some c → h ≠ self →
      ∃ c', objects σ' !! h = Some c'
        ∧ with_dirty (_dirty c) c' = c
        ∧ (h ∉ instance_containers σ ∨ GUID_of c ≠ GUID_of me → c' = c).
Proof.
  intros Hme Hro σ'. subst σ'. rewrite (setProperty_unfold _ _ _ _ _ _ Hme Hro).
  split; [by rewrite sweep_registry|]. split; [by rewrite sweep_definitions|].
  split; [rewrite sweep_length; apply length_alter|].
  intros h c Hc Hne. rewrite sweep_lookup by apply with_dirty_idem.
  unfold Base.setProperty. rewrite modify_lookup.
  destruct (decide (self = h)) as [->|_]; [done|].
  rewrite Hc. case_decide as Hin.
  - eexists. split; [done|]. split; [by destruct c|].
    intros Hout. exfalso.
    apply elem_of_findInstanceContainers in Hin as (Hreg & c0 & Hc0 & Hguid).
    rewrite Hc in Hc0. injection Hc0 as <-.
    apply bool_decide_eq_true in Hguid. by destruct Hout.
  - exists c. split; [done|]. split; [by destruct c|done].
Qed.

Lemma setProperty_frame_witness :
  let σ' := setProperty 1 "material_bed_temperature" "value" (SStr "65") sample_store in
  instance_containers σ' = instance_containers sample_store
  ∧ definition_containers σ' = definition_containers sample_store
  ∧ length (objects σ') = length (objects sample_store)
  ∧ ∀ h c, objects sample_store !! h = Some c → h ≠ 1 →
      ∃ c', objects σ' !! h = Some c'
        ∧ with_dirty (_dirty c) c' = c
        ∧ (h ∉ instance_containers sample_store ∨ GUID_of c ≠ GUID_of pla_ultimaker2 →
           c' = c).
Proof.
  apply (setProperty_frame sample_store 1 pla_ultimaker2).
  - reflexivity.
  - reflexivity.
Defined.


(** ** Invariants of [deserialize] *)

(** [m] keeps the invariant [I] of the store, however it ends, and what
    it returns satisfies [Q]. *)
Definition inv {A} (I : Store → Prop) (Q : A → Prop) (m : Run A) : Prop :=
  ∀ σ, I σ → I (m σ).1 ∧ ∀ a, (m σ).2 = Ok a → Q a.

Lemma inv_ret {A} I (Q : A → Prop) (a : A) : Q a → inv I Q (mret a : Run A).
Proof. intros Ha σ Hσ. split; [done|]. by intros a' [= <-]. Qed.

Lemma inv_bind {A B} I (Q : A → Prop) (Q' : B → Prop) (m : Run A) (k : A → Run B) :
  inv I Q m → (∀ a, Q a → inv I Q' (k a)) → inv I Q' (m ≫= k).
Proof.
  intros Hm Hk σ Hσ. rewrite run_bind. destruct (Hm σ Hσ) as [H1 H2].
  destruct (m σ) as [σ' [a|e]]; cbn [fst snd] in *.
  - by apply Hk; [apply H2|].
  - by split.
Qed.

Lemma inv_lift I (f : Store → Store) :
  (∀ σ, I σ → I (f σ)) → inv I (λ _, True) (lift f).
Proof. intros Hf σ Hσ. split; [by apply Hf|done]. Qed.

Lemma inv_read {A} I (f : Store → A) : inv I (λ _, True) (read f).
Proof. by intros σ Hσ. Qed.

Lemma inv_raise {A} I (Q : A → Prop) e : inv I Q (raise e).
Proof. by intros σ Hσ. Qed.

Lemma inv_check I r : inv I (λ _, True) (check r).
Proof. by intros σ Hσ. Qed.

Lemma inv_for_each {A} I (l : list A) (body : A → Run unit) :
  (∀ a, a ∈ l → inv I (λ _, True) (body a)) → inv I (λ _, True) (for_each l body).
Proof.
  induction l as [|a l IH]; intros Hbody; [by apply inv_ret|].
  cbn [for_each]. eapply inv_bind.
  - apply Hbody, list_elem_of_here.
  - intros _ _. apply IH. intros x Hx. by apply Hbody, list_elem_of_further.
Qed.

(** [lift f;; k] and [x ← read f; k x], the two shapes most steps have. *)
Lemma inv_then {B} I (Q : B → Prop) (f : Store → Store) (k : Run B) :
  (∀ σ, I σ → I (f σ)) → inv I Q k → inv I Q (lift f;; k).
Proof. intros Hf Hk. eapply inv_bind; [by apply inv_lift|]. by intros _ _. Qed.

Lemma inv_after_read {A B} I (Q : B → Prop) (f : Store → A) (k : A → Run B) :
  (∀ a, inv I Q (k a)) → inv I Q (read f ≫= k).
Proof. intros Hk. eapply inv_bind; [apply inv_read|]. by intros a _. Qed.

(** The keys [deserialize] knows: the internal names of the table. *)
Definition internal (key : string) : Prop :=
  key ∈ __material_property_setting_map.*2.

(** A write that keeps the id and the read-only flag of a container and
    adds instances under internal keys only. *)
Definition tame (f : InstanceContainer → InstanceContainer) : Prop :=
  ∀ c, _id (f c) = _id c ∧ _read_only (f c) = _read_only c
       ∧ ∀ k, is_Some (_instances (f c) !! k) → is_Some (_instances c !! k) ∨ internal k.

Lemma tame_header f :
  (∀ c, _id (f c) = _id c ∧ _read_only (f c) = _read_only c
        ∧ _instances (f c) = _instances c) →
  tame f.
Proof.
  intros Hf c. destruct (Hf c) as (? & ? & Hi). split; [done|]. split; [done|].
  intros k. rewrite Hi. by left.
Qed.

Lemma tame_instance key property_name property_value :
  internal key →
  tame (λ c, with_dirty true
               (with_instances
                  (<[key := <[property_name := property_value]>
                              (default ∅ (_instances c !! key))]> (_instances c)) c)).
Proof.
  intros Hkey c. split; [done|]. split; [done|]. intros k. cbn [_instances with_dirty with_instances].
  destruct (decide (key = k)) as [<-|Hne]; [by right|].
  rewrite lookup_insert_ne by done. by left.
Qed.

Lemma table_get_internal name key :
  table_get __material_property_setting_map name = Some key → internal key.
Proof.
  intros H%(table_get_elem _ _ _ (proj1 material_map_NoDup)).
  apply list_elem_of_fmap. by exists (name, key).
Qed.

Lemma mapped_settings_internal settings :
  Forall (λ e : string * Scalar, internal e.1) (mapped_settings settings).
Proof.
  unfold mapped_settings. induction settings as [|s l IH]; [constructor|].
  rewrite omap_cons.
  destruct (ET.get s "key") as [key|]; [|exact IH]. cbn [mbind option_bind].
  destruct (table_get __material_property_setting_map key) as [k|] eqn:Hk; [|exact IH].
  cbn [mbind option_bind]. constructor; [|exact IH].
  by apply (table_get_internal key).
Qed.

Lemma assign_all_keys entries k :
  is_Some (assign_all entries !! k) → k ∈ entries.*1.
Proof.
  unfold assign_all.
  induction entries as [|e l IH] using rev_ind.
  - cbn [foldl]. rewrite lookup_empty. by intros [? ?].
  - rewrite foldl_app, fmap_app. cbn [foldl]. rewrite elem_of_app.
    destruct (decide (e.1 = k)) as [<-|Hne].
    + intros _. right. apply list_elem_of_here.
    + rewrite lookup_insert_ne by done. intros H. left. by apply IH.
Qed.

Lemma assign_all_internal entries :
  Forall (λ e : string * Scalar, internal e.1) entries →
  Forall (λ e : string * Scalar, internal e.1) (map_to_list (assign_all entries)).
Proof.
  intros Hall. apply list.Forall_forall. intros [k v] Hin%elem_of_map_to_list.
  assert (k ∈ entries.*1) as Hk by (apply assign_all_keys; eauto).
  apply list_elem_of_fmap in Hk as ([k' v'] & -> & Hin').
  exact (proj1 (list.Forall_forall _ _) Hall _ Hin').
Qed.

Section Respects.

(** An invariant [I] that tolerates what [deserialize] does: tame writes
    to the handles in [W], flips of dirty flags anywhere, new objects
    (whose handles are in [F], and so in [W]), and the registration of
    handles in [F]. *)
Variable I : Store → Prop.
Variable W F : nat → Prop.
Hypothesis r_fresh : ∀ h, F h → W h.
Hypothesis r_write : ∀ h f σ, W h → tame f → I σ → I (modify h f σ).
Hypothesis r_dirty : ∀ h b σ, I σ → I (modify h (with_dirty b) σ).
Hypothesis r_alloc : ∀ id σ, I σ → I (XmlMaterialProfile id σ).1 ∧ F (length (objects σ)).
Hypothesis r_register : ∀ h σ, F h → I σ → I (Registry.addContainer h σ).

Lemma write_header h f σ :
  W h →
  (∀ c, _id (f c) = _id c ∧ _read_only (f c) = _read_only c
        ∧ _instances (f c) = _instances c) →
  I σ → I (modify h f σ).
Proof using r_write. intros Hh Hf Hσ. apply r_write; [done|by apply tame_header|done]. Qed.

Lemma sweep_dirty_respects b l : ∀ σ, I σ → I (sweep (with_dirty b) σ l).
Proof using r_dirty.
  induction l as [|h l IH]; intros σ Hσ; [done|].
  unfold sweep in *. cbn [foldl]. by apply IH, r_dirty.
Qed.

Lemma setProperty_respects target key property_value σ :
  W target → internal key → I σ → I (setProperty target key "value" property_value σ).
Proof using r_write r_dirty.
  intros Ht Hkey Hσ. unfold setProperty.
  destruct (objects σ !! target) as [c|]; [|done].
  destruct (_read_only c); [done|].
  assert (I (Base.setProperty target key "value" property_value σ)) as H1.
  { unfold Base.setProperty. apply r_write; [done|by apply tame_instance|done]. }
  destruct (objects _ !! target); [|done].
  by apply sweep_dirty_respects.
Qed.

Lemma apply_settings_respects target values :
  W target → Forall (λ e : string * Scalar, internal e.1) values →
  inv I (λ _, True) (apply_settings target values).
Proof using r_write r_dirty.
  intros Ht Hall. unfold apply_settings. apply inv_for_each. intros e He.
  apply inv_lift. intros σ Hσ. apply setProperty_respects; [done| |done].
  exact (proj1 (list.Forall_forall _ _) Hall _ He).
Qed.

Ltac header :=
  intros ? ?; apply write_header; [first [assumption|by apply r_fresh]|done|done].

Ltac settings :=
  apply apply_settings_respects;
  [first [assumption|by apply r_fresh]
  |first [assumption|apply mapped_settings_internal]].

Lemma inv_alloc id : inv I F (XmlMaterialProfile id).
Proof using r_alloc.
  intros σ Hσ. destruct (r_alloc id σ Hσ) as [H1 H2]. split; [done|].
  by intros a [= <-].
Qed.

Lemma text_of_respects element : inv I (λ _, True) (text_of element).
Proof. destruct element; [by apply inv_ret|apply inv_raise]. Qed.

Lemma read_hotend_respects self machine_id definition
    (global_setting_values machine_setting_values : gmap string Scalar) hotend :
  Forall (λ e : string * Scalar, internal e.1) (map_to_list global_setting_values) →
  Forall (λ e : string * Scalar, internal e.1) (map_to_list machine_setting_values) →
  inv I (λ _, True)
    (read_hotend self machine_id definition
       global_setting_values machine_setting_values hotend).
Proof using r_fresh r_write r_dirty r_alloc r_register.
  intros Hglobal Hmachine. unfold read_hotend.
  destruct (ET.get hotend "id") as [hotend_id|]; [|by apply inv_ret].
  apply inv_after_read. intros by_id.
  eapply (inv_bind _ (λ _, True)).
  { destruct by_id; [apply inv_read|by apply inv_ret]. }
  intros [|first rest] _; [by apply inv_ret|].
  apply inv_after_read. intros self_id.
  eapply inv_bind; [apply inv_alloc|]. intros new Hnew.
  apply inv_after_read. intros name.
  apply inv_then; [header|].
  apply inv_after_read. intros metadata.
  apply inv_then; [header|].
  apply inv_then; [header|].
  apply inv_then; [header|].
  apply inv_after_read. intros variant_id.
  apply inv_then; [header|].
  eapply inv_bind; [settings|]. intros _ _.
  eapply inv_bind; [settings|]. intros _ _.
  eapply inv_bind; [settings|]. intros _ _.
  apply inv_then; [intros σ Hσ; by apply r_dirty|].
  apply inv_lift. intros σ Hσ. by apply r_register.
Qed.

Lemma read_machine_identifier_respects self machine
    (global_setting_values machine_setting_values : gmap string Scalar) identifier :
  Forall (λ e : string * Scalar, internal e.1) (map_to_list global_setting_values) →
  Forall (λ e : string * Scalar, internal e.1) (map_to_list machine_setting_values) →
  inv I (λ _, True)
    (read_machine_identifier self machine
       global_setting_values machine_setting_values identifier).
Proof using r_fresh r_write r_dirty r_alloc r_register.
  intros Hglobal Hmachine. unfold read_machine_identifier.
  destruct (ET.get identifier "product" ≫= table_get __product_id_map)
    as [machine_id|]; [|by apply inv_ret].
  apply inv_after_read. intros [|definition rest]; [by apply inv_ret|].
  apply inv_after_read. intros self_id.
  eapply inv_bind; [apply inv_alloc|]. intros new Hnew.
  apply inv_after_read. intros name.
  apply inv_then; [header|].
  apply inv_after_read. intros metadata.
  apply inv_then; [header|].
  apply inv_then; [header|].
  apply inv_then; [header|].
  eapply inv_bind; [settings|]. intros _ _.
  eapply inv_bind; [settings|]. intros _ _.
  apply inv_then; [intros σ Hσ; by apply r_dirty|].
  apply inv_then; [intros σ Hσ; by apply r_register|].
  apply inv_for_each. intros hotend _. by apply read_hotend_respects.
Qed.

Lemma read_machine_respects self (global_setting_values : gmap string Scalar) machine :
  Forall (λ e : string * Scalar, internal e.1) (map_to_list global_setting_values) →
  inv I (λ _, True) (read_machine self global_setting_values machine).
Proof using r_fresh r_write r_dirty r_alloc r_register.
  intros Hglobal. unfold read_machine. apply inv_for_each. intros identifier _.
  apply read_machine_identifier_respects; [done|].
  apply assign_all_internal, mapped_settings_internal.
Qed.

Lemma read_metadata_entry_respects self entry :
  W self → inv I (λ _, True) (read_metadata_entry self entry).
Proof using r_write.
  intros Hself. unfold read_metadata_entry.
  destruct (String.eqb _ "name").
  - unfold read_name.
    eapply inv_bind; [apply text_of_respects|]. intros name _.
    apply inv_then; [header|].
    eapply inv_bind; [apply text_of_respects|]. intros brand _.
    apply inv_then; [header|].
    eapply inv_bind; [apply text_of_respects|]. intros material _.
    apply inv_then; [header|].
    eapply inv_bind; [apply text_of_respects|]. intros color _.
    apply inv_lift. header.
  - apply inv_lift. header.
Qed.

Lemma default_metadata_entry_respects self key :
  W self → inv I (λ _, True) (default_metadata_entry self key).
Proof using r_write.
  intros Hself. unfold default_metadata_entry. apply inv_after_read. intros metadata.
  destruct (metadata !! key); [by apply inv_ret|].
  apply inv_lift. header.
Qed.

Lemma deserialize_respects py_float self data :
  W self → inv I (λ _, True) (deserialize py_float self data).
Proof using r_fresh r_write r_dirty r_alloc r_register.
  intros Hself. unfold deserialize.
  apply inv_then; [header|].
  apply inv_then; [header|].
  eapply inv_bind.
  { apply inv_for_each. intros entry _. by apply read_metadata_entry_respects. }
  intros _ _.
  eapply inv_bind; [by apply default_metadata_entry_respects|]. intros _ _.
  eapply inv_bind; [by apply default_metadata_entry_respects|]. intros _ _.
  eapply inv_bind; [apply inv_check|]. intros _ _.
  eapply inv_bind; [apply inv_check|]. intros _ _.
  apply inv_then; [header|].
  apply inv_after_read. intros [|definition rest]; [apply inv_raise|].
  apply inv_then; [header|].
  eapply inv_bind; [settings|]. intros _ _.
  apply inv_then; [intros σ Hσ; by apply r_dirty|].
  apply inv_for_each. intros machine _. apply read_machine_respects.
  apply assign_all_internal, mapped_settings_internal.
Qed.

End Respects.

(** ** How [deserialize] ends *)

(** [m] always returns. *)
Definition returns {A} (m : Run A) : Prop := ∀ σ, ∃ σ' a, m σ = (σ', Ok a).

Lemma returns_ret {A} (a : A) : returns (mret a : Run A).
Proof. intros σ. by exists σ, a. Qed.

Lemma returns_bind {A B} (m : Run A) (k : A → Run B) :
  returns m → (∀ a, returns (k a)) → returns (m ≫= k).
Proof.
  intros Hm Hk σ. destruct (Hm σ) as (σ1 & a & H1). rewrite run_bind, H1. apply Hk.
Qed.

Lemma returns_lift f : returns (lift f).
Proof. intros σ. by exists (f σ), (). Qed.

Lemma returns_read {A} (f : Store → A) : returns (read f).
Proof. intros σ. by exists σ, (f σ). Qed.

Lemma returns_alloc id : returns (XmlMaterialProfile id).
Proof. intros σ. by eexists _, _. Qed.

Lemma returns_for_each {A} (l : list A) (body : A → Run unit) :
  (∀ a, returns (body a)) → returns (for_each l body).
Proof.
  intros Hbody. induction l as [|a l IH]; [apply returns_ret|].
  cbn [for_each]. apply returns_bind; [apply Hbody|]. by intros _.
Qed.

Lemma apply_settings_returns target values : returns (apply_settings target values).
Proof. apply returns_for_each. intros e. apply returns_lift. Qed.

Lemma read_hotend_returns self machine_id definition
    (global_setting_values machine_setting_values : gmap string Scalar) hotend :
  returns (read_hotend self machine_id definition
             global_setting_values machine_setting_values hotend).
Proof.
  unfold read_hotend. destruct (ET.get hotend "id"); [|apply returns_ret].
  apply returns_bind; [apply returns_read|]. intros by_id.
  apply returns_bind.
  { destruct by_id; [apply returns_read|apply returns_ret]. }
  intros [|first rest]; [apply returns_ret|].
  repeat first
    [ apply returns_lift
    | apply apply_settings_returns
    | apply returns_bind;
        [first [apply returns_read | apply returns_alloc | apply returns_lift
               | apply apply_settings_returns]
        |intros ?] ].
Qed.

Lemma read_machine_identifier_returns self machine
    (global_setting_values machine_setting_values : gmap string Scalar) identifier :
  returns (read_machine_identifier self machine
             global_setting_values machine_setting_values identifier).
Proof.
  unfold read_machine_identifier.
  destruct (ET.get identifier "product" ≫= table_get __product_id_map);
    [|apply returns_ret].
  apply returns_bind; [apply returns_read|]. intros [|definition rest];
    [apply returns_ret|].
  repeat first
    [ apply returns_for_each; intros ?; apply read_hotend_returns
    | apply returns_bind;
        [first [apply returns_read | apply returns_alloc | apply returns_lift
               | apply apply_settings_returns]
        |intros ?] ].
Qed.

Lemma read_machine_returns self (global_setting_values : gmap string Scalar) machine :
  returns (read_machine self global_setting_values machine).
Proof.
  apply returns_for_each. intros identifier. apply read_machine_identifier_returns.
Qed.

Lemma default_metadata_entry_returns self key :
  returns (default_metadata_entry self key).
Proof.
  unfold default_metadata_entry. apply returns_bind; [apply returns_read|].
  intros metadata. destruct (metadata !! key); [apply returns_ret|apply returns_lift].
Qed.

Lemma for_each_metadata_returns self entries : ∀ σ,
  existsb incomplete_name entries = false →
  ∃ σ', for_each entries (read_metadata_entry self) σ = (σ', Ok ()).
Proof.
  induction entries as [|entry entries IH]; intros σ Hgood; [by exists σ|].
  cbn [for_each]. rewrite run_bind.
  pose proof (read_metadata_entry_cases self entry σ) as Hentry.
  cbn [existsb] in Hgood. apply orb_false_iff in Hgood as [Hentry' Hrest].
  rewrite Hentry' in Hentry. destruct Hentry as [σ' ->]. by apply IH.
Qed.

(** Nothing [read_metadata_entry] or [default_metadata_entry] does
    touches the registered definitions. *)
Lemma definitions_write D h f σ :
  True → tame f → definition_containers σ = D →
  definition_containers (modify h f σ) = D.
Proof. done. Qed.

(** X19. How [deserialize] ends is decided by four checks, in this
    order: a [<name>] block without [<brand>], [<material>] or [<color>]
    gives an attribute error; a [diameter], then a [density], that
    [float] does not take gives its type or value error; no registered
    [fdmprinter] definition gives an index error; otherwise [deserialize]
    returns, whatever machines and hotends the document lists. *)
Theorem deserialize_outcome (py_float : string → bool) self data σ :
  let property_values :=
    assign_all (map (λ entry, (_tag_without_namespace entry, text_value (ET.text entry)))
                    (ET.iterfind2 data (um "properties") None)) in
  ∃ σ', deserialize py_float self data σ
        = (σ',
           if has_incomplete_name data then Raise AttributeError
           else
             _ ← float_of_property py_float property_values "diameter";
             _ ← float_of_property py_float property_values "density";
             match Registry.findDefinitionContainers σ "fdmprinter" with
             | [] => Raise IndexError
             | _ :: _ => Ok ()
             end).
Proof.
  intros property_values.
  destruct (has_incomplete_name data) eqn:Hname.
  { unfold deserialize.
    rewrite run_bind. cbn [lift]. rewrite run_bind. cbn [lift]. rewrite run_bind.
    destruct (for_each_metadata_raises self _
                (Base.addMetaDataEntry self "status" (PyStr "unknown")
                   (Base.addMetaDataEntry self "type" (PyStr "material") σ)) Hname)
      as [σ' ->].
    by exists σ'. }
  unfold deserialize. fold property_values.
  rewrite run_bind. cbn [lift]. rewrite run_bind. cbn [lift]. rewrite run_bind.
  set (s2 := Base.addMetaDataEntry self "status" _ _).
  destruct (for_each_metadata_returns self _ s2 Hname) as [s3 H3]. rewrite H3.
  assert (definition_containers s3 = definition_containers σ) as D3.
  { assert (inv (λ s, definition_containers s = definition_containers σ) (λ _, True)
              (for_each (ET.iterfind2 data (um "metadata") None)
                 (read_metadata_entry self))) as Hinv.
    { apply inv_for_each. intros entry _.
      by apply (read_metadata_entry_respects _ (λ _, True)
                  (definitions_write (definition_containers σ))). }
    destruct (Hinv s2) as [Hd _]; [done|]. by rewrite H3 in Hd. }
  destruct (default_metadata_entry_returns self "description" s3) as (s4 & [] & H4).
  rewrite run_bind, H4.
  assert (definition_containers s4 = definition_containers σ) as D4.
  { destruct (default_metadata_entry_respects _ (λ _, True)
                (definitions_write (definition_containers σ)) self "description" I s3)
      as [Hd _]; [done|]. by rewrite H4 in Hd. }
  destruct (default_metadata_entry_returns self "adhesion_info" s4) as (s5 & [] & H5).
  rewrite run_bind, H5.
  assert (definition_containers s5 = definition_containers σ) as D5.
  { destruct (default_metadata_entry_respects _ (λ _, True)
                (definitions_write (definition_containers σ)) self "adhesion_info" I s4)
      as [Hd _]; [done|]. by rewrite H5 in Hd. }
  rewrite run_bind. cbn [check].
  destruct (float_of_property py_float property_values "diameter") as [[]|e];
    [|by eexists].
  rewrite run_bind. cbn [check].
  destruct (float_of_property py_float property_values "density") as [[]|e];
    [|by eexists].
  cbn [mbind Result_bind].
  rewrite run_bind. cbn [lift]. rewrite run_bind. cbn [read].
  assert (Registry.findDefinitionContainers
            (Base.addMetaDataEntry self "properties" (VDict property_values) s5)
            "fdmprinter"
          = Registry.findDefinitionContainers σ "fdmprinter") as ->.
  { unfold Registry.findDefinitionContainers, Base.addMetaDataEntry, modify.
    cbn [definition_containers]. by rewrite D5. }
  destruct (Registry.findDefinitionContainers σ "fdmprinter") as [|definition rest];
    [by eexists|].
  rewrite run_bind. cbn [lift].
  set (s7 := Base.setDefinition self definition _).
  destruct (apply_settings_returns self
              (mapped_settings (ET.iterfind2 data (um "settings") (Some (um "setting"))))
              s7) as (s8 & [] & H8).
  rewrite run_bind, H8. rewrite run_bind. cbn [lift].
  destruct (returns_for_each (ET.iterfind2 data (um "settings") (Some (um "machine")))
              (read_machine self
                 (assign_all
                    (mapped_settings
                       (ET.iterfind2 data (um "settings") (Some (um "setting"))))))
              (read_machine_returns self _)
              (modify self (with_dirty false) s8)) as (s9 & [] & H9).
  rewrite H9. by exists s9.
Qed.

(** ** What [deserialize] leaves alone *)

(** The store [σ] is [σ0] after steps of a [deserialize] into [self]:
    same definitions; the objects of [σ0] still there, with their ids and
    read-only flags, and, other than [self], changed in their dirty flag
    at most; the registry extended by handles of new objects; and no
    instance in [σ] that was not in [σ0] but under an internal key. *)
Definition framed (σ0 : Store) (self : nat) (σ : Store) : Prop :=
  definition_containers σ = definition_containers σ0
  ∧ (length (objects σ0) ≤ length (objects σ))%nat
  ∧ (∃ fresh, instance_containers σ = (instance_containers σ0 ++ fresh)%list
              ∧ Forall (λ h, (length (objects σ0) ≤ h)%nat) fresh)
  ∧ (∀ h c, objects σ0 !! h = Some c →
       ∃ c', objects σ !! h = Some c'
             ∧ _id c' = _id c ∧ _read_only c' = _read_only c
             ∧ (h ≠ self → with_dirty (_dirty c) c' = c))
  ∧ (∀ h c' k, objects σ !! h = Some c' → is_Some (_instances c' !! k) →
       internal k ∨ ∃ c, objects σ0 !! h = Some c ∧ is_Some (_instances c !! k)).

Lemma framed_refl σ0 self : framed σ0 self σ0.
Proof.
  split; [done|]. split; [done|]. split; [|split].
  - exists []. by rewrite app_nil_r.
  - intros h c Hc. exists c. repeat (split; [done|]). by destruct c.
  - intros h c' k Hc' Hk. right. by exists c'.
Qed.

Lemma framed_write σ0 self h f σ :
  h = self ∨ (length (objects σ0) ≤ h)%nat → tame f →
  framed σ0 self σ → framed σ0 self (modify h f σ).
Proof.
  intros Hh Hf (Hd & Hl & Hr & Ho & Hk).
  split; [done|]. split; [cbn [modify objects]; by rewrite length_alter|].
  split; [done|]. split.
  - intros h' c Hc. destruct (Ho h' c Hc) as (c' & Hc' & Hid & Hro & Hfr).
    rewrite modify_lookup. destruct (decide (h = h')) as [->|Hne].
    + rewrite Hc'. exists (f c'). destruct (Hf c') as (Hfid & Hfro & _).
      split; [done|]. split; [congruence|]. split; [congruence|].
      intros Hself. destruct Hh as [->|Hfresh]; [done|].
      apply lookup_lt_Some in Hc. lia.
    + by exists c'.
  - intros h' c'' k. rewrite modify_lookup. destruct (decide (h = h')) as [->|Hne].
    + destruct (objects σ !! h') as [c1|] eqn:H1; [|done].
      intros [= <-] Hsome. destruct (Hf c1) as (_ & _ & Hfk).
      destruct (Hfk k Hsome) as [H|H]; [by eapply Hk|by left].
    + apply Hk.
Qed.

Lemma framed_dirty σ0 self h b σ :
  framed σ0 self σ → framed σ0 self (modify h (with_dirty b) σ).
Proof.
  intros (Hd & Hl & Hr & Ho & Hk).
  split; [done|]. split; [cbn [modify objects]; by rewrite length_alter|].
  split; [done|]. split.
  - intros h' c Hc. destruct (Ho h' c Hc) as (c' & Hc' & Hid & Hro & Hfr).
    rewrite modify_lookup, Hc'. case_decide; [|by exists c'].
    exists (with_dirty b c'). repeat (split; [done|]).
    intros Hself. by rewrite <- (Hfr Hself).
  - intros h' c'' k. rewrite modify_lookup. case_decide; [|apply Hk].
    destruct (objects σ !! h') as [c1|] eqn:H1; [|done].
    intros [= <-]. cbn [_instances with_dirty]. by apply Hk.
Qed.

Lemma framed_alloc σ0 self id σ :
  framed σ0 self σ →
  framed σ0 self (XmlMaterialProfile id σ).1 ∧ (length (objects σ0) ≤ length (objects σ))%nat.
Proof.
  intros (Hd & Hl & Hr & Ho & Hk). split; [|done].
  split; [done|]. split; [cbn; rewrite length_app; lia|].
  split; [done|]. split.
  - intros h c Hc. destruct (Ho h c Hc) as (c' & Hc' & H).
    exists c'. split; [|done]. cbn. rewrite lookup_app_l; [done|].
    by apply lookup_lt_Some in Hc'.
  - intros h c' k. cbn. rewrite lookup_app_Some.
    intros [Hc'|[_ Hnew]]; [by apply Hk|].
    destruct (h - length (objects σ)) as [|n]; [|done].
    injection Hnew as <-. cbn. rewrite lookup_empty. by intros [? ?].
Qed.

Lemma framed_register σ0 self h σ :
  (length (objects σ0) ≤ h)%nat →
  framed σ0 self σ → framed σ0 self (Registry.addContainer h σ).
Proof.
  intros Hh (Hd & Hl & (fresh & Hr & Hfresh) & Ho & Hk).
  split; [done|]. split; [done|]. split; [|by split].
  exists (fresh ++ [h])%list. cbn. rewrite Hr, <- app_assoc. split; [done|].
  apply Forall_app. split; [done|]. by constructor.
Qed.

Lemma deserialize_framed py_float self data σ :
  framed σ self (deserialize py_float self data σ).1.
Proof.
  apply (deserialize_respects (framed σ self)
           (λ h, h = self ∨ (length (objects σ) ≤ h)%nat)
           (λ h, (length (objects σ) ≤ h)%nat)).
  - intros h Hh. by right.
  - intros h f s. apply framed_write.
  - intros h b s. apply framed_dirty.
  - intros id s. apply framed_alloc.
  - intros h s. apply framed_register.
  - by left.
  - apply framed_refl.
Qed.

(** X20. However it ends, [deserialize] leaves the rest of the store in
    place: the definitions are as before; every object that existed is
    still there with its id and its read-only flag and, if it is not the
    profile being filled, with everything but its dirty flag; and the
    registry is the old one followed by handles of objects that did not
    exist before. No container is unregistered, replaced or rewritten. *)
Theorem deserialize_frame (py_float : string → bool) self data σ :
  let σ' := (deserialize py_float self data σ).1 in
  definition_containers σ' = definition_containers σ
  ∧ (length (objects σ) ≤ length (objects σ'))%nat
  ∧ (∃ fresh, instance_containers σ' = (instance_containers σ ++ fresh)%list
              ∧ Forall (λ h, (length (objects σ) ≤ h)%nat) fresh)
  ∧ ∀ h c, objects σ !! h = Some c →
      ∃ c', objects σ' !! h = Some c'
            ∧ _id c' = _id c ∧ _read_only c' = _read_only c
            ∧ (h ≠ self → with_dirty (_dirty c) c' = c).
Proof.
  destruct (deserialize_framed py_float self data σ) as (Hd & Hl & Hr & Ho & _).
  by repeat split.
Qed.

(** X21. The settings [deserialize] stores, in the profile it fills and
    in the machine and hotend profiles it creates, sit under the six
    internal names of the table and nowhere else: an instance found
    afterwards under any other key was there before. *)
Theorem deserialize_writes_internal_keys (py_float : string → bool) self data σ h c' k :
  objects (deserialize py_float self data σ).1 !! h = Some c' →
  is_Some (_instances c' !! k) →
  internal k ∨ ∃ c, objects σ !! h = Some c ∧ is_Some (_instances c !! k).
Proof.
  destruct (deserialize_framed py_float self data σ) as (_ & _ & _ & _ & Hk).
  apply Hk.
Qed.

Lemma deserialize_writes_internal_keys_witness :
  internal "retraction_amount"
  ∨ ∃ c, objects sample_store_with_fresh !! 7 = Some c
         ∧ is_Some (_instances c !! "retraction_amount").
Proof.
  eapply (deserialize_writes_internal_keys plain_decimal 5 ultimaker_document
            sample_store_with_fresh 7 _ "retraction_amount").
  - vm_compute. reflexivity.
  - eexists. vm_compute. reflexivity.
Defined.

(** ** The document [serialize] writes *)

Lemma tags_skeleton e : tags (skeleton e) = tags e.
Proof.
  induction e as [tag attrib text tail children IH] using Element_ind'.
  cbn [skeleton tags]. f_equal. rewrite map_map. f_equal.
  induction IH as [|x l Hx _ IHl]; [done|]. cbn [map]. by rewrite Hx, IHl.
Qed.

Lemma tags_indent e level : tags (_indent e level) = tags e.
Proof. by rewrite <- tags_skeleton, skeleton_indent, tags_skeleton. Qed.

(** The tags of the code's own elements are closed names. *)
Definition closed_tags (e : Element) : Prop :=
  Forall (λ t, unclosed_brace t = false) (tags e).

Lemma closed_tags_node tag attrib children :
  unclosed_brace tag = false → Forall closed_tags children →
  closed_tags (ET.node tag attrib children).
Proof.
  intros Htag Hchildren. unfold closed_tags. cbn [ET.node tags].
  constructor; [done|]. apply Forall_concat, Forall_map.
  eapply List.Forall_impl; [|exact Hchildren]. done.
Qed.

Lemma _addSettingElement_closed instance :
  Forall closed_tags (_addSettingElement instance).
Proof.
  unfold _addSettingElement. destruct (findKey _ _); [|done].
  by repeat constructor.
Qed.

Lemma settings_closed (skip : string * SettingInstance → bool) l :
  Forall closed_tags
    (concat (map (λ instance, if skip instance then [] else _addSettingElement instance)
                 l)).
Proof.
  apply Forall_concat, Forall_map, Forall_forall. intros instance _.
  destruct (skip instance); [done|]. apply _addSettingElement_closed.
Qed.

Lemma hotend_element_closed py σ c h x r :
  hotend_element py σ c h = Holds x r → Forall closed_tags x.
Proof.
  unfold hotend_element. destruct (objects σ !! h) as [hotend|]; [|by intros [= <- _]].
  destruct (Registry.findInstanceContainers _ _) as [|first ?]; [by intros [= <- _]|].
  destruct (objects σ !! first); [|by intros [= <- _]].
  intros (id & r1 & r2 & _ & [= <- _] & _)%bbind_Holds.
  constructor; [|done]. apply closed_tags_node; [done|]. apply settings_closed.
Qed.

Lemma bmapM_closed {A} (f : A → Build (list Element)) l xs r :
  bmapM f l = Holds xs r →
  (∀ a x r', f a = Holds x r' → Forall closed_tags x) →
  Forall closed_tags (concat xs).
Proof.
  intros Hxs%bmapM_Forall2 Hf. apply Forall_concat.
  induction Hxs as [|a x l xs [r' Ha] _ IH]; constructor; [by eapply Hf|done].
Qed.

Lemma machine_setting_elements_closed py me c settings :
  machine_setting_elements py me c = Ok settings → Forall closed_tags settings.
Proof.
  unfold machine_setting_elements. intros (elements & Hel & [= <-])%bind_Ok.
  apply rmapM_Ok in Hel. apply Forall_concat.
  induction Hel as [|instance x l xs Hx _ IH]; constructor; [|done].
  apply bind_Ok in Hx as (d & _ & Hx).
  destruct (_ && _); injection Hx as <-; [done|]. apply _addSettingElement_closed.
Qed.

Lemma machine_element_closed py σ me mnm entry x r :
  machine_element py σ me mnm entry = Holds x r → Forall closed_tags x.
Proof.
  unfold machine_element. destruct entry as [d h].
  destruct (objects σ !! h) as [c|]; [|by intros [= <- _]].
  destruct (findKey _ d); [|by intros [= <- _]].
  destruct (_definition c); [|done].
  intros (manufacturer & r1 & r2 & _
          & (settings & r3 & r4 & [Hsettings _]%step_Holds
             & (hotends & r5 & r6 & Hhotends & [= <- _] & _)%bbind_Holds & _)%bbind_Holds
          & _)%bbind_Holds.
  constructor; [|done]. apply closed_tags_node; [done|].
  constructor; [by apply closed_tags_node|]. apply Forall_app. split.
  - by eapply machine_setting_elements_closed.
  - eapply bmapM_closed; [exact Hhotends|]. intros a x r'. apply hotend_element_closed.
Qed.

Lemma existsb_unclosed_app l k :
  existsb unclosed_brace (l ++ k)%list
  = existsb unclosed_brace l || existsb unclosed_brace k.
Proof. apply existsb_app. Qed.

Lemma closed_tags_existsb l :
  Forall closed_tags l → existsb unclosed_brace (concat (map tags l)) = false.
Proof.
  induction 1 as [|e l He _ IH]; [done|]. cbn [map concat].
  rewrite existsb_app, IH, orb_false_r.
  apply not_true_is_false. intros (t & Hin & Ht)%existsb_exists.
  apply list_elem_of_In in Hin.
  by rewrite (proj1 (list.Forall_forall _ _) He t Hin) in Ht.
Qed.

Lemma data_Holds v : ET.data v = Holds (stored_text v) (negb (writable v)).
Proof. destruct v as [[|s|z]|d]; cbn; by rewrite ?negb_involutive. Qed.

Lemma text_element_Holds entry :
  text_element entry
  = Holds (ET.leaf entry.1 ∅ (stored_text entry.2)) (negb (writable entry.2)).
Proof.
  unfold text_element. rewrite data_Holds. cbn. by rewrite orb_false_r.
Qed.

(** A loop none of whose turns raises. *)
Lemma bmapM_total {A B} (f : A → Build B) (g : A → B) (r : A → bool) l :
  (∀ a, f a = Holds (g a) (r a)) → bmapM f l = Holds (map g l) (existsb r l).
Proof.
  intros Hf. induction l as [|a l IH]; [done|].
  cbn [bmapM map existsb]. rewrite Hf, IH. cbn. by rewrite orb_false_r.
Qed.

(** The entries that [serialize] writes one by one, as elements. *)
Definition entry_elements {V} (to_value : V → PyVal) (l : list (string * V))
  : list Element :=
  map (λ kv, ET.leaf kv.1 ∅ (stored_text (to_value kv.2))) l.

Definition entries_refused {V} (to_value : V → PyVal) (l : list (string * V)) : bool :=
  existsb (λ kv, negb (writable (to_value kv.2))) l.

Lemma metadata_block_Holds py me :
  let brand := default (PyStr "") (_metadata me !! "brand") in
  let material := default (PyStr "") (_metadata me !! "material") in
  let color := default (PyStr "") (_metadata me !! "color_name") in
  let entries := items py (generic_metadata (_metadata me)) in
  metadata_block py me
  = Holds (ET.node "metadata" ∅
             (ET.node "name" ∅
                [ET.leaf "brand" ∅ (stored_text brand);
                 ET.leaf "material" ∅ (stored_text material);
                 ET.leaf "color" ∅ (stored_text color)]
              :: entry_elements id entries),
           default (VDict ∅) (_metadata me !! "properties"))
          (negb (writable brand) || negb (writable material) || negb (writable color)
           || entries_refused id entries).
Proof.
  intros brand material color entries.
  unfold metadata_block, pop. cbn zeta.
  rewrite !(lookup_delete_ne _ _ "brand"), !(lookup_delete_ne _ _ "material"),
    !(lookup_delete_ne _ _ "color_name") by done.
  fold (generic_metadata (_metadata me)). fold brand material color entries.
  rewrite !data_Holds.
  rewrite (bmapM_total _ (λ kv, ET.leaf kv.1 ∅ (stored_text kv.2))
             (λ kv, negb (writable kv.2))) by apply text_element_Holds.
  cbn. by rewrite orb_false_r, !orb_assoc.
Qed.

Lemma properties_block_Holds py d :
  properties_block py (VDict d)
  = Holds (ET.node "properties" ∅ (entry_elements VScalar (items py d)))
          (entries_refused VScalar (items py d)).
Proof.
  cbn [properties_block].
  rewrite (bmapM_total _ (λ kx : string * Scalar,
                            ET.leaf kx.1 ∅ (stored_text (VScalar kx.2)))
             (λ kx, negb (writable (VScalar kx.2)))).
  - cbn. by rewrite orb_false_r.
  - intros [k x]. apply text_element_Holds.
Qed.

(** The tree [build] holds, part by part. *)
Lemma built_tree py σ me root refused :
  build py σ me = Holds root refused →
  ∃ d machines r,
    default (VDict ∅) (_metadata me !! "properties") = VDict d
    ∧ Forall (λ m, ET.tag m = "machine") (concat machines)
    ∧ Forall closed_tags (concat machines)
    ∧ refused
      = negb (writable (default (PyStr "") (_metadata me !! "brand")))
        || negb (writable (default (PyStr "") (_metadata me !! "material")))
        || negb (writable (default (PyStr "") (_metadata me !! "color_name")))
        || entries_refused id (items py (generic_metadata (_metadata me)))
        || entries_refused VScalar (items py d)
        || r
    ∧ root = ET.node "fdmmaterial" {[ "xmlns" := um_namespace ]}
        [ ET.node "metadata" ∅
            (ET.node "name" ∅
               [ET.leaf "brand" ∅
                  (stored_text (default (PyStr "") (_metadata me !! "brand")));
                ET.leaf "material" ∅
                  (stored_text (default (PyStr "") (_metadata me !! "material")));
                ET.leaf "color" ∅
                  (stored_text (default (PyStr "") (_metadata me !! "color_name")))]
             :: entry_elements id (items py (generic_metadata (_metadata me))));
          ET.node "properties" ∅ (entry_elements VScalar (items py d));
          ET.node "settings" ∅
            ((if targets_fdmprinter me
              then concat (map _addSettingElement (Base.findInstances py me))
              else [])
             ++ concat machines) ].
Proof.
  intros (metadata & pv & r1 & properties & r2 & def & mcm & mnm & machines & r3
          & Hmeta & Hprops & Hdef & Hgroup & Hmachines & -> & ->)%build_Holds.
  rewrite metadata_block_Holds in Hmeta. injection Hmeta as <- <- <-.
  destruct (default (VDict ∅) (_metadata me !! "properties")) as [|d] eqn:Hd; [done|].
  rewrite properties_block_Holds in Hprops. injection Hprops as <- <-.
  apply definition_id_of_targets in Hdef. rewrite Hdef.
  exists d, machines, r3. split; [done|]. split; [|split; [|by split]].
  - assert (Forall2 (machine_block_for py σ me mnm) (emitted_machines py σ mcm)
              (concat machines)) as Hblocks.
    { apply (bmapM_filter_Forall2 _ _ _ _ _ _ Hmachines).
      intros a x r _ Ha. by eapply machine_element_shape. }
    eapply Forall2_Forall_r; [exact Hblocks|].
    by intros a b (? & ? & _ & _ & ? & _).
  - eapply bmapM_closed; [exact Hmachines|]. intros a x r. apply machine_element_closed.
Qed.

Lemma serialize_skeleton py σ me doc :
  serialize py σ me = Ok doc →
  ∃ root, build py σ me = Holds root false ∧ skeleton doc = skeleton root.
Proof.
  intros (root & Hroot & _ & ->)%serialize_Ok.
  exists root. split; [done|]. apply skeleton_indent.
Qed.

Lemma iterfind2_skeleton_eq doc root a b :
  skeleton doc = skeleton root →
  map skeleton (ET.iterfind2 doc a b) = map skeleton (ET.iterfind2 root a b).
Proof. intros Hsk. by rewrite <- !skeleton_iterfind2, Hsk. Qed.

(** What the three blocks of the built tree hold. *)
Lemma root_iterfind2 attrib ms ps ss :
  let root := ET.node "fdmmaterial" attrib
                [ET.node "metadata" ∅ ms; ET.node "properties" ∅ ps;
                 ET.node "settings" ∅ ss] in
  ET.iterfind2 root "metadata" None = ms
  ∧ ET.iterfind2 root "properties" None = ps
  ∧ ∀ t, ET.iterfind2 root "settings" (Some t)
         = List.filter (λ c, String.eqb (ET.tag c) t) ss.
Proof.
  intros root. unfold ET.iterfind2, ET.children_named. unfold root, ET.node.
  cbn [List.filter ET.tag ET.children String.eqb Ascii.eqb Bool.eqb map concat].
  split; [apply app_nil_r|]. split; [apply app_nil_r|]. intros t. apply app_nil_r.
Qed.

Lemma leaves_transfer l : ∀ l0,
  map skeleton l = map skeleton l0 → Forall is_leaf l0 →
  map (λ e, (ET.tag e, ET.attrib e, ET.text e)) l
  = map (λ e, (ET.tag e, ET.attrib e, ET.text e)) l0.
Proof.
  induction l as [|e l IH]; intros [|e0 l0] Hmap Hl0; try done.
  injection Hmap as He Hl. inversion_clear Hl0 as [|? ? Hleaf Hl0'].
  destruct (skeleton_leaf _ _ He Hleaf) as (Ht & Ha & Hx & _).
  cbn [map]. rewrite Ht, Ha, Hx. f_equal. by apply IH.
Qed.

Lemma read_leaves {B} (f : string → option string → B) l l0 :
  map skeleton l = map skeleton l0 → Forall is_leaf l0 →
  map (λ e, f (ET.tag e) (ET.text e)) l = map (λ e, f (ET.tag e) (ET.text e)) l0.
Proof.
  intros Hmap Hleaves. pose proof (leaves_transfer _ _ Hmap Hleaves) as H.
  apply (f_equal (map (λ x : string * gmap string string * option string,
                         f x.1.1 x.2))) in H.
  by rewrite !map_map in H.
Qed.

Lemma entry_elements_leaves {V} (to_value : V → PyVal) l :
  Forall is_leaf (entry_elements to_value l)
  ∧ map (λ e, (ET.tag e, ET.text e)) (entry_elements to_value l)
    = map (λ kv, (kv.1, stored_text (to_value kv.2))) l.
Proof.
  unfold entry_elements. split.
  - apply Forall_map, Forall_forall. by intros.
  - by rewrite map_map.
Qed.

Lemma generic_metadata_lookup m k v :
  generic_metadata m !! k = Some v
  ↔ m !! k = Some v
    ∧ k ∉ ["color_name"; "material"; "brand"; "base_file"; "type"; "variant";
           "status"; "properties"].
Proof.
  unfold generic_metadata. rewrite !lookup_delete_Some.
  rewrite !not_elem_of_cons. split; [|by intuition].
  intros H. split; [by intuition|].
  repeat (split; [by intuition|]). apply not_elem_of_nil.
Qed.

(** X9. The document [serialize] returns is an [fdmmaterial] element that
    declares the material namespace and holds a [metadata], a [properties]
    and a [settings] block, in that order; the metadata block opens with
    the [name] block, whose [brand], [material] and [color] children hold
    the [brand], [material] and [color_name] entries of the profile: a
    [str] as their text (the empty one where the entry is absent), and no
    text for a falsy object that is no [str] ([None], [0], [{}]). *)
Theorem serialize_document_shape py σ me doc :
  serialize py σ me = Ok doc →
  ET.tag doc = "fdmmaterial"
  ∧ ET.attrib doc = {[ "xmlns" := um_namespace ]}
  ∧ map ET.tag (ET.children doc) = ["metadata"; "properties"; "settings"]
  ∧ ∃ name rest,
      ET.iterfind2 doc "metadata" None = name :: rest
      ∧ ET.tag name = "name"
      ∧ map (λ e, (ET.tag e, ET.text e)) (ET.children name)
        = [ ("brand", stored_text (default (PyStr "") (_metadata me !! "brand")));
            ("material", stored_text (default (PyStr "") (_metadata me !! "material")));
            ("color", stored_text (default (PyStr "") (_metadata me !! "color_name"))) ].
Proof.
  intros (root & Hroot & Hsk)%serialize_skeleton.
  apply built_tree in Hroot as (d & machines & r & _ & _ & _ & _ & ->).
  split; [by rewrite <- (skeleton_tag doc), Hsk|].
  split; [by rewrite <- (skeleton_attrib doc), Hsk|].
  split.
  { assert (map ET.tag (map skeleton (ET.children doc))
            = ["metadata"; "properties"; "settings"]) as H.
    { by rewrite <- skeleton_children, Hsk. }
    rewrite map_map in H. rewrite <- H. apply map_ext. intros e.
    by rewrite skeleton_tag. }
  pose proof (iterfind2_skeleton_eq _ _ "metadata" None Hsk) as Hmeta.
  match type of Hmeta with
  | context [ET.node "fdmmaterial" ?a
               [ET.node "metadata" ∅ ?ms; ET.node "properties" ∅ ?ps;
                ET.node "settings" ∅ ?ss]] =>
      destruct (root_iterfind2 a ms ps ss) as (Hms & _ & _)
  end.
  rewrite Hms in Hmeta.
  destruct (ET.iterfind2 doc "metadata" None) as [|name rest]; [done|].
  injection Hmeta as Hname _. exists name, rest. split; [done|].
  split; [by rewrite <- (skeleton_tag name), Hname|].
  rewrite (read_leaves (λ t x, (t, x)) _
             [ET.leaf "brand" ∅
                (stored_text (default (PyStr "") (_metadata me !! "brand")));
              ET.leaf "material" ∅
                (stored_text (default (PyStr "") (_metadata me !! "material")));
              ET.leaf "color" ∅
                (stored_text (default (PyStr "") (_metadata me !! "color_name")))]).
  - done.
  - by rewrite <- skeleton_children, Hname.
  - by repeat constructor.
Qed.

Lemma serialize_document_shape_witness :
  ∃ doc,
    serialize sample_python sample_store pla_reloaded = Ok doc
    ∧ ET.tag doc = "fdmmaterial"
    ∧ ET.attrib doc = {[ "xmlns" := um_namespace ]}
    ∧ map ET.tag (ET.children doc) = ["metadata"; "properties"; "settings"]
    ∧ ∃ name rest,
        ET.iterfind2 doc "metadata" None = name :: rest
        ∧ ET.tag name = "name"
        ∧ map (λ e, (ET.tag e, ET.text e)) (ET.children name)
          = [ ("brand",
               stored_text (default (PyStr "") (_metadata pla_reloaded !! "brand")));
              ("material",
               stored_text (default (PyStr "") (_metadata pla_reloaded !! "material")));
              ("color",
               stored_text (default (PyStr "") (_metadata pla_reloaded !! "color_name"))) ].
Proof.
  eexists. split; [vm_compute; reflexivity|].
  apply (serialize_document_shape sample_python sample_store pla_reloaded).
  vm_compute. reflexivity.
Defined.

(** X10. After the [name] block, the metadata block holds one element
    per metadata entry that was not popped ([properties], the transient
    keys, and the three entries of the name block), in the order the
    [dict] yields them, under the entry's key: with the value as text
    where it is a [str], and without text where it is a falsy object that
    is no [str]. The properties block holds the entries of the
    ["properties"] sub-map in the same way. So none of the transient keys
    is ever written. *)
Theorem serialize_metadata_entries py σ me doc :
  yields_each_once py →
  serialize py σ me = Ok doc →
  ∃ name entries d,
    ET.iterfind2 doc "metadata" None = name :: entries
    ∧ map (λ e, (ET.tag e, ET.text e)) entries
      = map (λ kv, (kv.1, stored_text kv.2)) (items py (generic_metadata (_metadata me)))
    ∧ (∀ e, e ∈ entries → (ET.tag e ∉ transient_keys) ∧ ET.tag e ≠ "properties")
    ∧ default (VDict ∅) (_metadata me !! "properties") = VDict d
    ∧ map (λ e, (ET.tag e, ET.text e)) (ET.iterfind2 doc "properties" None)
      = map (λ kx, (kx.1, stored_text (VScalar kx.2))) (items py d).
Proof.
  intros Hpy (root & Hroot & Hsk)%serialize_skeleton.
  apply built_tree in Hroot as (d & machines & r & Hd & _ & _ & _ & ->).
  pose proof (iterfind2_skeleton_eq _ _ "metadata" None Hsk) as Hmeta.
  pose proof (iterfind2_skeleton_eq _ _ "properties" None Hsk) as Hprops.
  match type of Hmeta with
  | context [ET.node "fdmmaterial" ?a
               [ET.node "metadata" ∅ ?ms; ET.node "properties" ∅ ?ps;
                ET.node "settings" ∅ ?ss]] =>
      destruct (root_iterfind2 a ms ps ss) as (Hms & Hps & _)
  end.
  rewrite Hms in Hmeta. rewrite Hps in Hprops.
  destruct (ET.iterfind2 doc "metadata" None) as [|name entries]; [done|].
  injection Hmeta as _ Hentries.
  destruct (entry_elements_leaves id (items py (generic_metadata (_metadata me))))
    as [Hleaves He].
  unfold id in He.
  destruct (entry_elements_leaves VScalar (items py d)) as [Hpleaves Hpe].
  assert (map (λ e, (ET.tag e, ET.text e)) entries
          = map (λ kv : string * PyVal, (kv.1, stored_text kv.2))
                (items py (generic_metadata (_metadata me)))) as Hread.
  { rewrite <- He. by apply (read_leaves (λ t x, (t, x))). }
  exists name, entries, d. split; [done|]. split; [done|]. split.
  { intros e He'.
    assert ((ET.tag e, ET.text e)
            ∈ map (λ kv : string * PyVal, (kv.1, stored_text kv.2))
                  (items py (generic_metadata (_metadata me)))) as Hin.
    { rewrite <- Hread.
      apply (list_elem_of_fmap_2 (λ e, (ET.tag e, ET.text e))). exact He'. }
    apply list_elem_of_fmap in Hin as ([k v] & [= Hk _] & Hin).
    apply (elem_of_items py) in Hin; [|done].
    apply generic_metadata_lookup in Hin as [_ Hnot]. rewrite Hk.
    unfold transient_keys. rewrite !not_elem_of_cons in *.
    destruct Hnot as (_ & _ & _ & Hbase & Htype & Hvariant & Hstatus & Hprop & _).
    split; [|assumption]. repeat (split; [assumption|]). apply not_elem_of_nil. }
  split; [done|].
  rewrite <- Hpe. by apply (read_leaves (λ t x, (t, x))).
Qed.

Lemma serialize_metadata_entries_witness :
  ∃ doc,
    serialize sample_python sample_store pla_reloaded = Ok doc
    ∧ ∃ name entries d,
        ET.iterfind2 doc "metadata" None = name :: entries
        ∧ map (λ e, (ET.tag e, ET.text e)) entries
          = map (λ kv, (kv.1, stored_text kv.2))
                (items sample_python (generic_metadata (_metadata pla_reloaded)))
        ∧ (∀ e, e ∈ entries → (ET.tag e ∉ transient_keys) ∧ ET.tag e ≠ "properties")
        ∧ default (VDict ∅) (_metadata pla_reloaded !! "properties") = VDict d
        ∧ map (λ e, (ET.tag e, ET.text e)) (ET.iterfind2 doc "properties" None)
          = map (λ kx, (kx.1, stored_text (VScalar kx.2))) (items sample_python d).
Proof.
  eexists. split; [vm_compute; reflexivity|].
  apply (serialize_metadata_entries sample_python sample_store pla_reloaded).
  - by intros K EqK CK V d.
  - vm_compute. reflexivity.
Defined.




Lemma group_containers_fdmprinter σ l maps :
  forallb (definition_is σ "fdmprinter") l = true →
  rfoldM (group_container σ) maps l = Ok maps.
Proof.
  induction l as [|h l IH]; [done|]. cbn [forallb rfoldM].
  intros [Hh Hl]%andb_true_iff.
  assert (group_container σ maps h = Ok maps) as ->; [|by apply IH].
  unfold group_container, definition_is, definition_id_of in *.
  destruct (objects σ !! h) as [c|]; [|done].
  destruct (_definition c) as [d|]; [|done].
  cbn [mbind Result_bind]. by rewrite Hh.
Qed.

Lemma items_empty py {K} `{Countable K} {V} :
  yields_each_once py → items py (∅ : gmap K V) = [].
Proof.
  intros Hpy. apply Permutation_nil_r. by rewrite (Hpy K _ _ V ∅), map_to_list_empty.
Qed.

(** X12. Family members bound to [fdmprinter] are never grouped: when
    every registered container that shares the root's GUID targets
    [fdmprinter], the document has no [<machine>] block. *)
Theorem serialize_flat_family_has_no_machines py σ me doc :
  yields_each_once py →
  serialize py σ me = Ok doc →
  forallb (definition_is σ "fdmprinter")
    (Registry.findInstanceContainers σ (Registry.by_GUID (GUID_of me))) = true →
  machine_blocks doc = [].
Proof.
  intros Hpy (mcm & mnm & Hgroup & Hblocks)%serialize_blocks Hflat.
  unfold group_containers in Hgroup.
  rewrite (group_containers_fdmprinter _ _ _ Hflat) in Hgroup.
  injection Hgroup as <- <-.
  unfold emitted_machines in Hblocks. rewrite items_empty in Hblocks by done.
  by inversion Hblocks.
Qed.

Lemma serialize_flat_family_has_no_machines_witness :
  ∃ doc, serialize sample_python sample_store abs_root = Ok doc
         ∧ machine_blocks doc = [].
Proof.
  eexists. split; [vm_compute; reflexivity|].
  apply (serialize_flat_family_has_no_machines sample_python sample_store abs_root).
  - by intros K EqK CK V d.
  - vm_compute. reflexivity.
  - reflexivity.
Defined.

Lemma global_settings_emitted py me :
  map (λ s, (ET.get s "key", ET.text s))
      (concat (map _addSettingElement (Base.findInstances py me)))
  = emitted_settings py (λ _, false) me.
Proof.
  unfold emitted_settings.
  induction (Base.findInstances py me) as [|instance l IH]; [done|].
  cbn [map concat]. rewrite map_app, IH.
  by destruct (_addSettingElement_shape instance) as [_ ->].
Qed.

(** X13. The [<setting>] elements directly below [<settings>] are the
    root's own instances that have an XML name, in the order the
    container yields them, when the root is bound to [fdmprinter]; a root
    bound to another definition writes none of its own settings there. *)
Theorem serialize_global_settings py σ me doc :
  serialize py σ me = Ok doc →
  map (λ s, (ET.get s "key", ET.text s)) (ET.iterfind2 doc "settings" (Some "setting"))
  = if targets_fdmprinter me then emitted_settings py (λ _, false) me else [].
Proof.
  intros (root & Hroot & Hsk)%serialize_skeleton.
  apply built_tree in Hroot as (d & machines & r & _ & Hmachines & _ & _ & ->).
  pose proof (iterfind2_skeleton_eq _ _ "settings" (Some "setting") Hsk) as Hsettings.
  set (global := if targets_fdmprinter me
                 then concat (map _addSettingElement (Base.findInstances py me))
                 else []) in *.
  match type of Hsettings with
  | context [ET.node "fdmmaterial" ?a
               [ET.node "metadata" ∅ ?ms; ET.node "properties" ∅ ?ps;
                ET.node "settings" ∅ ?ss]] =>
      destruct (root_iterfind2 a ms ps ss) as (_ & _ & Hss)
  end.
  rewrite Hss in Hsettings.
  assert (Forall is_setting global) as Hglobal.
  { unfold global. destruct (targets_fdmprinter me);
      [apply global_settings_are_settings|done]. }
  rewrite List.filter_app, (filter_all _ global), (filter_none _ (concat machines)),
    app_nil_r in Hsettings.
  - destruct (settings_transfer _ _ Hsettings Hglobal) as [_ ->].
    unfold global. destruct (targets_fdmprinter me); [|done].
    apply global_settings_emitted.
  - eapply List.Forall_impl; [|exact Hmachines]. by intros m ->.
  - eapply List.Forall_impl; [|exact Hglobal]. by intros s [-> _].
Qed.

Lemma serialize_global_settings_witness :
  ∃ doc,
    serialize sample_python sample_store pla_root = Ok doc
    ∧ map (λ s, (ET.get s "key", ET.text s))
          (ET.iterfind2 doc "settings" (Some "setting"))
      = if targets_fdmprinter pla_root
        then emitted_settings sample_python (λ _, false) pla_root else [].
Proof.
  eexists. split; [vm_compute; reflexivity|].
  apply (serialize_global_settings sample_python sample_store pla_root).
  vm_compute. reflexivity.
Defined.

(** ** The ways [serialize] can end *)

Lemma entry_elements_tags {V} (to_value : V → PyVal) l :
  concat (map tags (entry_elements to_value l)) = l.*1.
Proof.
  unfold entry_elements. induction l as [|[k v] l IH]; [done|].
  cbn [map concat fmap list_fmap ET.leaf tags app fst]. by rewrite IH.
Qed.


(** The tags of the tree that is written: the code's own, and the keys of
    the metadata entries and of the properties. *)
Lemma built_tags py σ me root refused :
  build py σ me = Holds root refused →
  ∃ d, default (VDict ∅) (_metadata me !! "properties") = VDict d
       ∧ existsb unclosed_brace (tags (_indent root 0))
         = existsb unclosed_brace (items py (generic_metadata (_metadata me))).*1
           || existsb unclosed_brace (items py d).*1.
Proof.
  intros (d & machines & r & Hd & _ & Hclosed & _ & ->)%built_tree.
  exists d. split; [done|]. rewrite tags_indent.
  cbn [ET.node ET.leaf tags map concat app existsb].
  rewrite !app_nil_r, !entry_elements_tags.
  change (unclosed_brace "fdmmaterial") with false.
  change (unclosed_brace "metadata") with false.
  change (unclosed_brace "name") with false.
  change (unclosed_brace "brand") with false.
  change (unclosed_brace "material") with false.
  change (unclosed_brace "color") with false.
  cbn [orb]. rewrite !existsb_app. cbn [existsb].
  change (unclosed_brace "properties") with false.
  change (unclosed_brace "settings") with false.
  cbn [orb]. rewrite !existsb_app.
  assert (existsb unclosed_brace
            (concat (map tags
               (if targets_fdmprinter me
                then concat (map _addSettingElement (Base.findInstances py me))
                else []))) = false) as Hglobal.
  { apply closed_tags_existsb. destruct (targets_fdmprinter me); [|done].
    apply Forall_concat, Forall_map, Forall_forall. intros instance _.
    apply _addSettingElement_closed. }
  cbn [existsb]. change (unclosed_brace "settings") with false. cbn [orb].
  rewrite map_app, concat_app, existsb_app, Hglobal,
    (closed_tags_existsb _ Hclosed).
  by rewrite !orb_false_r.
Qed.

Lemma existsb_keys py {V} (d : gmap string V) :
  yields_each_once py →
  existsb unclosed_brace (items py d).*1 = true
  ↔ ∃ k, unclosed_brace k = true ∧ is_Some (d !! k).
Proof.
  intros Hpy. rewrite existsb_exists. split.
  - intros (k & Hin%list_elem_of_In%list_elem_of_fmap & Hk).
    destruct Hin as ([k' v] & -> & Hin). apply (elem_of_items py) in Hin; [|done].
    exists k'. eauto.
  - intros (k & Hk & [v Hv]). exists k. split; [|done].
    apply list_elem_of_In, list_elem_of_fmap. exists (k, v). split; [done|].
    by apply (elem_of_items py).
Qed.

(** X8. [serialize] returns a document or raises one of
    [NotImplementedError] (the guard), [AttributeError], [TypeError] and
    [ValueError]; never an [IndexError], and the [ValueError] of [findKey]
    is caught. The [ValueError] is that of [ElementTree.write], and it
    comes exactly when the builder was filled to the end and a metadata
    entry that is written, or a property, has a key that opens a brace
    and never closes it. *)
Theorem serialize_raises_only py σ me :
  yields_each_once py →
  raises_within
    (λ e, e = NotImplementedError ∨ e = AttributeError ∨ e = TypeError ∨ e = ValueError)
    (serialize py σ me)
  ∧ (serialize py σ me = Raise ValueError
     ↔ (∃ root refused, build py σ me = Holds root refused)
       ∧ ∃ k, unclosed_brace k = true
              ∧ (is_Some (generic_metadata (_metadata me) !! k)
                 ∨ ∃ d, _metadata me !! "properties" = Some (VDict d)
                        ∧ is_Some (d !! k))).
Proof.
  intros Hpy. split.
  - unfold serialize.
    destruct (build_cases py σ me) as [[_ ->]|[_ Hrest]]; [cbn; auto|].
    destruct (build py σ me) as [root refused|e]; cbn in *.
    + destruct (write _ _) as [doc|e] eqn:Hw; cbn; [done|].
      apply write_raises in Hw as [->| ->]; auto.
    + destruct Hrest as [->| ->]; auto.
  - unfold serialize. destruct (build py σ me) as [root refused|e] eqn:Hbuild; cycle 1.
    { split; [|by intros [(? & ? & ?) _]].
      intros [= ->]. destruct (build_cases py σ me) as [[_ H]|[_ H]].
      - congruence.
      - rewrite Hbuild in H. by destruct H. }
    destruct (built_tags _ _ _ _ _ Hbuild) as (d & Hd & Htags).
    assert (write (_indent root 0) refused = Raise ValueError
            ↔ existsb unclosed_brace (tags (_indent root 0)) = true) as ->.
    { unfold write. destruct (existsb _ _); [done|]. by destruct refused. }
    rewrite Htags, orb_true_iff, !(existsb_keys py) by done. split.
    + intros H. split; [eauto|].
      destruct H as [(k & Hk & Hin)|(k & Hk & Hin)]; exists k; (split; [done|]).
      * by left.
      * right. destruct Hin as [x Hx].
        destruct (_metadata me !! "properties") as [[|d']|] eqn:Hp; cbn in Hd.
        -- done.
        -- injection Hd as ->. eauto.
        -- injection Hd as <-. by rewrite lookup_empty in Hx.
    + intros [_ (k & Hk & [Hin|(d' & Hp & Hin)])].
      * left. eauto.
      * right. rewrite Hp in Hd. injection Hd as ->. eauto.
Qed.

Lemma serialize_raises_only_witness :
  serialize sample_python sample_store pla_braced = Raise ValueError.
Proof.
  apply (proj2 (serialize_raises_only sample_python sample_store pla_braced
                  sample_python_yields_each_once)).
  split.
  - eexists _, _. vm_compute. reflexivity.
  - exists "{vendor". split; [reflexivity|]. left. eexists. vm_compute. reflexivity.
Defined.
